(** * Hours reconciliation of the attendance dashboard

    A shallow embedding of the hours aggregation of the admin views:
    - [fetchCalendarData] of the [HoursCalendarView] component
      ([src/components/admin/HoursCalendarView.tsx]);
    - [fetchGridData] of the [DailyHoursGrid] component
      ([src/components/admin/DailyHoursGrid.tsx]);
    - [calculateHoursSummary] and [fetchAttendanceData] of the
      [AttendanceReports] component (the second component of
      [DailyHoursGrid.tsx]);
    - [calculateHoursDifference], which the three components repeat;
    - the rendering and export functions of these components and
      [formatWorkingHours] of the [AttendanceHistory] component,
    together with the properties the specification states about them
    and further properties that the code shows.

    Conventions of the model.
    - Millisecond time stamps are integers ([Z]), as
      [Date.prototype.getTime] returns them.  A number of hours is an
      exact rational ([Q]); equalities between hour values are stated
      with [==].  The source computes hours in binary floating point
      (module [Binary64]), which follows the exact value up to a
      relative error of about one part in 10^16 for each operation.
      The two part only on boundaries: a value half-way between two
      hundredths can be rounded either way by the source (1.005 becomes
      1, not 1.01), and two sums that are equal as exact values can
      compare unequal.  The statements on the classification of a day,
      on the rounded totals and on the comparison of the views are
      worded for both readings: they compare totals of whole seconds
      by strict inequalities, specify a rounded value as a nearest
      number of hundredths ([Spec.rounded2]), or assume shifts on whole
      minutes, whose totals are never half-way values.
    - A time-of-day text (["HH:mm"], ["HH:mm:ss"]) is the record of its
      fields and a time stamp the record of its local calendar fields
      together with the offset from UTC in force at that instant:
      the texts are those of the table's time and time stamp columns,
      which [new Date] reads as numbers.
    - A plain object used as a map is the list of its entries in the
      order of their creation; [Object.entries] lists the keys that are
      array indices first, in ascending numeric order.
    - [format(d, 'yyyy-MM-dd')] produces a real string; day selection
      compares these strings, as the source does.
    - The date-fns functions are modelled on calendar days.
    - An asynchronous fetch is the function from the state of the
      component and the reply of the query to the next state. *)

From Stdlib Require Import ZArith QArith Qround Qminmax Lqa Lia Sorted.
From Stdlib Require SpecFloat.
From stdpp Require Import base gmap strings list fin_maps pretty.

Local Open Scope Z_scope.

(** ** Times of day *)

Module Time.

(** The argument of [calculateHoursDifference]: the text of a time of
    day.  A shift stores ["HH:mm:ss"]; [format(_, 'HH:mm')] yields a
    value whose seconds are zero. *)
Record TimeOfDay : Type := mkTime {
  hours : Z;
  minutes : Z;
  seconds : Z
}.

Definition valid (t : TimeOfDay) : Prop :=
  0 <= hours t < 24 /\ 0 <= minutes t < 60 /\ 0 <= seconds t < 60.

Definition ms_of_day (t : TimeOfDay) : Z :=
  ((hours t * 60 + minutes t) * 60 + seconds t) * 1000.

Definition ms_per_day : Z := 24 * 60 * 60 * 1000.
Definition ms_per_hour : positive := 3600000%positive.

(** [new Date(`2000-01-01 ${t}`).getTime()]: midnight of the reference
    date plus the time of day. *)
Definition midnight_2000_01_01 : Z := 946684800000.

Definition Date_2000_01_01 (t : TimeOfDay) : Z :=
  midnight_2000_01_01 + ms_of_day t.

(** The time of day as a number of hours. *)
Definition as_hours (t : TimeOfDay) : Q := ms_of_day t # ms_per_hour.

End Time.

Import Time.

(** [calculateHoursDifference] (the three components carry the same
    function). [end.setDate(end.getDate() + 1)] moves [end] one day on. *)
Definition calculateHoursDifference (startTime endTime : TimeOfDay) : Q :=
  let start := Date_2000_01_01 startTime in
  let end_ := Date_2000_01_01 endTime in
  let end_ := if end_ <? start then end_ + ms_per_day else end_ in
  let diffMs := end_ - start in
  diffMs # ms_per_hour.

(** ** Calendar dates *)

Module Calendar.

(** The local calendar fields of a JavaScript [Date]; [month] is the
    month number of the ['yyyy-MM-dd'] text (1 to 12). *)
Record Date : Type := mkDate {
  year : Z;
  month : Z;
  day : Z
}.

Global Instance Date_eq_dec : EqDecision Date.
Proof. solve_decision. Defined.

Definition isLeapYear (y : Z) : bool :=
  ((y mod 4 =? 0) && negb (y mod 100 =? 0)) || (y mod 400 =? 0).

Definition getDaysInMonth (y m : Z) : Z :=
  if m =? 2 then (if isLeapYear y then 29 else 28)
  else if (m =? 4) || (m =? 6) || (m =? 9) || (m =? 11) then 30
  else 31.

Definition valid_month (d : Date) : Prop := 1 <= month d <= 12.

Definition valid_date (d : Date) : Prop :=
  valid_month d /\ 1 <= day d <= getDaysInMonth (year d) (month d).

(** Number of days between 1970-01-01 and [d] in the proleptic
    Gregorian calendar. *)
Definition days_from_civil (d : Date) : Z :=
  let y := if month d <=? 2 then year d - 1 else year d in
  let era := y / 400 in
  let yoe := y - era * 400 in
  let mp := if month d <=? 2 then month d + 9 else month d - 3 in
  let doy := (153 * mp + 2) / 5 + day d - 1 in
  let doe := yoe * 365 + yoe / 4 - yoe / 100 + doy in
  era * 146097 + doe - 719468.

(** [Date.prototype.getDay]: 0 is Sunday, 6 is Saturday. *)
Definition getDay (d : Date) : Z := (days_from_civil d + 4) mod 7.

(** date-fns [isWeekend]. *)
Definition isWeekend (d : Date) : bool :=
  let day := getDay d in (day =? 0) || (day =? 6).

(** [d.setDate(d.getDate() + 1)] and [d.setDate(d.getDate() - 1)]. *)
Definition addDay (d : Date) : Date :=
  if day d <? getDaysInMonth (year d) (month d)
  then mkDate (year d) (month d) (day d + 1)
  else if month d <? 12 then mkDate (year d) (month d + 1) 1
  else mkDate (year d + 1) 1 1.

Definition subDay (d : Date) : Date :=
  if 1 <? day d then mkDate (year d) (month d) (day d - 1)
  else if 1 <? month d
  then mkDate (year d) (month d - 1) (getDaysInMonth (year d) (month d - 1))
  else mkDate (year d - 1) 12 31.

Fixpoint days_from (n : nat) (d : Date) : list Date :=
  match n with
  | O => []
  | S n => d :: days_from n (addDay d)
  end.

(** date-fns [startOfMonth], [endOfMonth], [startOfWeek], [endOfWeek]
    (weeks start on Sunday) and [eachDayOfInterval], on calendar days. *)
Definition startOfMonth (d : Date) : Date := mkDate (year d) (month d) 1.

Definition endOfMonth (d : Date) : Date :=
  mkDate (year d) (month d) (getDaysInMonth (year d) (month d)).

Definition startOfWeek (d : Date) : Date :=
  Nat.iter (Z.to_nat (getDay d)) subDay d.

Definition endOfWeek (d : Date) : Date :=
  Nat.iter (Z.to_nat (6 - getDay d)) addDay d.

Definition eachDayOfInterval (start end_ : Date) : list Date :=
  days_from (Z.to_nat (days_from_civil end_ - days_from_civil start + 1))
    start.

Definition isSameMonth (a b : Date) : bool :=
  (year a =? year b) && (month a =? month b).

(** The days of the month of [currentMonth]. *)
Definition in_month (currentMonth d : Date) : Prop :=
  year d = year currentMonth /\ month d = month currentMonth /\
  1 <= day d <= getDaysInMonth (year currentMonth) (month currentMonth).

(** [format(d, 'yyyy-MM-dd')]. *)
Definition pad (width : nat) (n : Z) : string :=
  let s := pretty n in
  String.concat "" (replicate (width - String.length s) "0"%string) +:+ s.

Definition format_yyyy_MM_dd (d : Date) : string :=
  pad 4 (year d) +:+ "-" +:+ pad 2 (month d) +:+ "-" +:+ pad 2 (day d).

End Calendar.

Import Calendar.

(** ** Records of the attendance table *)

(** A time stamp ([waktu], [clock_out_time]) after [new Date(_)], by its
    local calendar day and time of day, and by what
    [Date.prototype.getTimezoneOffset] returns for it: the minutes from
    local time to UTC at that instant. *)
Record Timestamp : Type := mkTimestamp {
  ts_date : Date;
  ts_time : TimeOfDay;
  ts_timezoneOffset : Z
}.

(** [format(ts, 'yyyy-MM-dd')] and [format(ts, 'HH:mm')]; the latter
    drops the seconds. *)
Definition format_date (ts : Timestamp) : string :=
  format_yyyy_MM_dd (ts_date ts).

Definition format_HH_mm (ts : Timestamp) : TimeOfDay :=
  mkTime (hours (ts_time ts)) (minutes (ts_time ts)) 0.

(** The joined [shift] row.  [None] in [jam_masuk] or [jam_keluar] stands
    for a value that is falsy in the source's test (null or empty). *)
Record Shift : Type := mkShift {
  nama_shift : string;
  jam_masuk : option TimeOfDay;
  jam_keluar : option TimeOfDay
}.

Record AttendanceRecord : Type := mkRecord {
  user_id : string;
  profiles_name : option string;
  waktu : Timestamp;
  clock_out_time : option Timestamp;
  shift : option Shift
}.

(** ** Numbers

    The operations of the source on hour values, first on exact values,
    then on binary floating-point values. *)

Local Open Scope Q_scope.

(** [Math.round]: the nearest integer, halves towards plus infinity. *)
Definition Math_round (x : Q) : Z := Qfloor (x + (1 # 2)).

(** [Math.round(x * 100) / 100], with an exact product. *)
Definition round2 (x : Q) : Q := Math_round (x * 100) # 100.

(** [Math.max(0, x)]. *)
Definition Math_max0 (x : Q) : Q := Qmax 0 x.

Definition Qsum (l : list Q) : Q := foldr Qplus 0 l.

(** The same operations on the numbers of the source, IEEE 754 binary64
    values with rounding to nearest, ties to even: [diffMs / (1000 * 60 *
    60)] on an integer number of milliseconds, the sum, the difference,
    [Math.round], which is exact, and [Math.round(x * 100) / 100].  They
    serve to show, on examples, where the floating point of the source
    leaves the exact values. *)
Module Binary64.

Definition prec : Z := 53.
Definition emax : Z := 1024.

Definition number : Type := SpecFloat.spec_float.

Definition of_Z (z : Z) : number :=
  SpecFloat.binary_normalize prec emax z 0 false.

Definition add : number -> number -> number := SpecFloat.SFadd prec emax.
Definition sub : number -> number -> number := SpecFloat.SFsub prec emax.
Definition mul : number -> number -> number := SpecFloat.SFmul prec emax.
Definition div : number -> number -> number := SpecFloat.SFdiv prec emax.
Definition ltb : number -> number -> bool := SpecFloat.SFltb.

Definition Math_round (x : number) : number :=
  match x with
  | SpecFloat.S754_finite s m e =>
      if (0 <=? e)%Z then x
      else
        let sm := if s then Z.neg m else Z.pos m in
        let n := ((2 * sm + 2 ^ (- e)) / 2 ^ (1 - e))%Z in
        if (n =? 0)%Z then SpecFloat.S754_zero s else of_Z n
  | _ => x
  end.

Definition round2 (x : number) : number :=
  div (Math_round (mul x (of_Z 100))) (of_Z 100).

Definition hours_of_ms (diffMs : Z) : number :=
  div (of_Z diffMs) (of_Z (1000 * 60 * 60)).

Definition sum (l : list number) : number := fold_left add l (of_Z 0).

(** The number that the text of a two-decimal value denotes. *)
Definition hundredths (k : Z) : number := div (of_Z k) (of_Z 100).

End Binary64.

(** ** The per-record loop body

    [fetchCalendarData] and [fetchGridData] run the same [forEach] body
    over the records of one day: [acc] is the pair of the local
    variables ([expectedHours], [actualHours]).  The test
    [record.waktu && record.clock_out_time] is the test on
    [clock_out_time]: the rows were selected and sorted on [waktu], a
    non-empty text. *)
Definition day_step (acc : Q * Q) (record : AttendanceRecord) : Q * Q :=
  let '(expectedHours, actualHours) := acc in
  match shift record with
  | Some sh =>
      match jam_masuk sh, jam_keluar sh with
      | Some masuk, Some keluar =>
          let expectedHours :=
            expectedHours + calculateHoursDifference masuk keluar in
          match clock_out_time record with
          | Some out =>
              (expectedHours,
               actualHours +
               calculateHoursDifference (format_HH_mm (waktu record))
                 (format_HH_mm out))
          | None => (expectedHours, actualHours)
          end
      | _, _ => (expectedHours, actualHours)
      end
  | None => (expectedHours, actualHours)
  end.

Definition day_hours (dayAttendance : list AttendanceRecord) : Q * Q :=
  fold_left day_step dayAttendance (0, 0).

(** The records of [attendanceData] whose [waktu] falls on [date]. *)
Definition records_of_day (attendanceData : list AttendanceRecord)
    (date : Date) : list AttendanceRecord :=
  filter (fun record => format_date (waktu record) = format_yyyy_MM_dd date)
    attendanceData.

(** ** The calendar view ([HoursCalendarView.tsx]) *)

Inductive Status : Type :=
  | complete
  | missing
  | overtime
  | no_attendance.

Record DayData : Type := mkDayData {
  dd_date : Date;
  dd_expectedHours : Q;
  dd_actualHours : Q;
  dd_missingHours : Q;
  dd_overtimeHours : Q;
  dd_hasAttendance : bool;
  dd_status : Status;
  dd_attendanceRecords : list AttendanceRecord
}.

(** The status chosen from the local (unrounded) values. *)
Definition classify (hasAttendance : bool) (missingHours overtimeHours : Q)
    : Status :=
  if hasAttendance then
    if Qlt_le_dec 0 missingHours then missing
    else if Qlt_le_dec 0 overtimeHours then overtime
    else complete
  else no_attendance.

(** The callback of [calendarDays.map] in [fetchCalendarData]. *)
Definition calendar_day (attendanceData : list AttendanceRecord)
    (date : Date) : DayData :=
  let dayAttendance := records_of_day attendanceData date in
  let '(expectedHours, actualHours) := day_hours dayAttendance in
  let missingHours := Math_max0 (expectedHours - actualHours) in
  let overtimeHours := Math_max0 (actualHours - expectedHours) in
  let hasAttendance := negb (Nat.eqb (length dayAttendance) 0) in
  let status := classify hasAttendance missingHours overtimeHours in
  {| dd_date := date;
     dd_expectedHours := round2 expectedHours;
     dd_actualHours := round2 actualHours;
     dd_missingHours := round2 missingHours;
     dd_overtimeHours := round2 overtimeHours;
     dd_hasAttendance := hasAttendance;
     dd_status := status;
     dd_attendanceRecords := dayAttendance |}.

(** A reply of the remote query builder: [{ data, error }]. *)
Record Reply (A : Type) : Type := mkReply {
  data : option A;
  error : option string
}.
Arguments mkReply {A} _ _.
Arguments data {A} _.
Arguments error {A} _.

(** [data || []]. *)
Definition or_empty {A : Type} (d : option (list A)) : list A :=
  match d with Some l => l | None => [] end.

Record CalendarState : Type := mkCalendarState {
  cs_currentMonth : Date;
  cs_calendarData : list DayData;
  cs_loading : bool;
  cs_selectedUser : string
}.

Definition calendarDays (currentMonth : Date) : list Date :=
  let monthStart := startOfMonth currentMonth in
  let monthEnd := endOfMonth currentMonth in
  eachDayOfInterval (startOfWeek monthStart) (endOfWeek monthEnd).

(** [fetchCalendarData], as the change of the component state once the
    query has answered with [reply]. *)
Definition fetchCalendarData (st : CalendarState)
    (reply : Reply (list AttendanceRecord)) : CalendarState :=
  if bool_decide (cs_selectedUser st = ""%string) ||
     bool_decide (cs_selectedUser st = "all"%string)
  then st
  else
    let st := {| cs_currentMonth := cs_currentMonth st;
                 cs_calendarData := cs_calendarData st;
                 cs_loading := true;
                 cs_selectedUser := cs_selectedUser st |} in
    match error reply with
    | Some _ =>
        {| cs_currentMonth := cs_currentMonth st;
           cs_calendarData := cs_calendarData st;
           cs_loading := false;
           cs_selectedUser := cs_selectedUser st |}
    | None =>
        let processedData :=
          map (calendar_day (or_empty (data reply)))
            (calendarDays (cs_currentMonth st)) in
        {| cs_currentMonth := cs_currentMonth st;
           cs_calendarData := processedData;
           cs_loading := false;
           cs_selectedUser := cs_selectedUser st |}
    end.

(** [monthlyStats] of the calendar view: the days of the current month
    that have attendance, added up from the rounded fields of the day
    aggregates. *)
Record MonthlyStats : Type := mkMonthlyStats {
  ms_totalExpected : Q;
  ms_totalActual : Q;
  ms_totalMissing : Q;
  ms_totalOvertime : Q;
  ms_workingDays : nat
}.

Definition monthlyStats (st : CalendarState) : MonthlyStats :=
  fold_left
    (fun acc day =>
       {| ms_totalExpected := ms_totalExpected acc + dd_expectedHours day;
          ms_totalActual := ms_totalActual acc + dd_actualHours day;
          ms_totalMissing := ms_totalMissing acc + dd_missingHours day;
          ms_totalOvertime := ms_totalOvertime acc + dd_overtimeHours day;
          ms_workingDays := S (ms_workingDays acc) |})
    (List.filter
       (fun day =>
          isSameMonth (dd_date day) (cs_currentMonth st) &&
          dd_hasAttendance day)
       (cs_calendarData st))
    {| ms_totalExpected := 0; ms_totalActual := 0; ms_totalMissing := 0;
       ms_totalOvertime := 0; ms_workingDays := 0 |}.

(** ** The daily grid ([DailyHoursGrid.tsx]) *)

Record Profile : Type := mkProfile {
  id : string;
  name : string
}.

Record DailyHourData : Type := mkDailyHourData {
  dh_date : string;
  dh_expectedHours : Q;
  dh_actualHours : Q;
  dh_missingHours : Q;
  dh_hasAttendance : bool
}.

Record UserDailyData : Type := mkUserDailyData {
  userId : string;
  userName : string;
  dailyData : gmap string DailyHourData;
  totalMissingHours : Q;
  totalExpectedHours : Q;
  totalActualHours : Q;
  workingDays : nat
}.

(** The local variables of the [users.map] callback that the loop over
    the working days updates. *)
Record GridAcc : Type := mkGridAcc {
  ga_dailyData : gmap string DailyHourData;
  ga_totalMissingHours : Q;
  ga_totalExpectedHours : Q;
  ga_totalActualHours : Q;
  ga_workingDaysCount : nat
}.

Definition grid_init : GridAcc :=
  {| ga_dailyData := ∅;
     ga_totalMissingHours := 0;
     ga_totalExpectedHours := 0;
     ga_totalActualHours := 0;
     ga_workingDaysCount := 0 |}.

(** The weekdays of the month: [allDays.filter(day => !isWeekend(day))]. *)
Definition workingDaysInMonth (currentMonth : Date) : list Date :=
  let monthStart := startOfMonth currentMonth in
  let monthEnd := endOfMonth currentMonth in
  let allDays := eachDayOfInterval monthStart monthEnd in
  List.filter (fun day => negb (isWeekend day)) allDays.

(** The body of [workingDaysInMonth.forEach] in [fetchGridData]. *)
Definition grid_day_step (userAttendance : list AttendanceRecord)
    (acc : GridAcc) (date : Date) : GridAcc :=
  let dateStr := format_yyyy_MM_dd date in
  let dayAttendance := records_of_day userAttendance date in
  let '(expectedHours, actualHours) := day_hours dayAttendance in
  let missingHours := Math_max0 (expectedHours - actualHours) in
  let hasAttendance := negb (Nat.eqb (length dayAttendance) 0) in
  let cell :=
    {| dh_date := dateStr;
       dh_expectedHours := round2 expectedHours;
       dh_actualHours := round2 actualHours;
       dh_missingHours := round2 missingHours;
       dh_hasAttendance := hasAttendance |} in
  if hasAttendance then
    {| ga_dailyData := <[dateStr := cell]> (ga_dailyData acc);
       ga_totalMissingHours := ga_totalMissingHours acc + missingHours;
       ga_totalExpectedHours := ga_totalExpectedHours acc + expectedHours;
       ga_totalActualHours := ga_totalActualHours acc + actualHours;
       ga_workingDaysCount := S (ga_workingDaysCount acc) |}
  else
    {| ga_dailyData := <[dateStr := cell]> (ga_dailyData acc);
       ga_totalMissingHours := ga_totalMissingHours acc;
       ga_totalExpectedHours := ga_totalExpectedHours acc;
       ga_totalActualHours := ga_totalActualHours acc;
       ga_workingDaysCount := ga_workingDaysCount acc |}.

Definition user_attendance (attendanceData : list AttendanceRecord)
    (user : Profile) : list AttendanceRecord :=
  filter (fun record => user_id record = id user) attendanceData.

Definition grid_loop (userAttendance : list AttendanceRecord)
    (days : list Date) : GridAcc :=
  fold_left (grid_day_step userAttendance) days grid_init.

(** The callback of [users.map] in [fetchGridData]. *)
Definition grid_user (attendanceData : list AttendanceRecord)
    (days : list Date) (user : Profile) : UserDailyData :=
  let acc := grid_loop (user_attendance attendanceData user) days in
  {| userId := id user;
     userName := name user;
     dailyData := ga_dailyData acc;
     totalMissingHours := round2 (ga_totalMissingHours acc);
     totalExpectedHours := round2 (ga_totalExpectedHours acc);
     totalActualHours := round2 (ga_totalActualHours acc);
     workingDays := ga_workingDaysCount acc |}.

Record GridState : Type := mkGridState {
  gs_currentMonth : Date;
  gs_gridData : list UserDailyData;
  gs_workingDays : list Date;
  gs_loading : bool
}.

(** [fetchGridData], as the change of the component state once the two
    queries have answered.  The columns ([setWorkingDays]) are written
    before the first query is sent. *)
Definition fetchGridData (st : GridState) (usersReply : Reply (list Profile))
    (attendanceReply : Reply (list AttendanceRecord)) : GridState :=
  let workingDaysInMonth := workingDaysInMonth (gs_currentMonth st) in
  let st := {| gs_currentMonth := gs_currentMonth st;
               gs_gridData := gs_gridData st;
               gs_workingDays := workingDaysInMonth;
               gs_loading := true |} in
  let stop := {| gs_currentMonth := gs_currentMonth st;
                 gs_gridData := gs_gridData st;
                 gs_workingDays := gs_workingDays st;
                 gs_loading := false |} in
  match error usersReply, data usersReply with
  | Some _, _ | None, None => stop
  | None, Some users =>
      match error attendanceReply with
      | Some _ => stop
      | None =>
          let processedData :=
            map (grid_user (or_empty (data attendanceReply))
                   workingDaysInMonth) users in
          {| gs_currentMonth := gs_currentMonth st;
             gs_gridData := processedData;
             gs_workingDays := gs_workingDays st;
             gs_loading := false |}
      end
  end.

(** ** The hours summary ([AttendanceReports.tsx]) *)

Record HoursSummary : Type := mkHoursSummary {
  hs_userId : string;
  hs_userName : string;
  hs_workingDays : nat;
  hs_totalExpectedHours : Q;
  hs_totalActualHours : Q;
  hs_missingHours : Q;
  hs_overtimeHours : Q;
  hs_efficiency : Q;
  hs_averageHoursPerDay : Q
}.

(** The grouping [reduce]: an object keyed by user id, held as the list
    of its entries in the order in which the keys are created, the order
    in which the user ids first appear.  The test [!acc[userId]] also
    sees the properties that every object inherits: for a user id that
    names one of them ([Object_prototype_keys]) the source does not
    create an entry and [push] fails; the model covers the other ids. *)
Definition Object_prototype_keys : list string :=
  ["constructor"; "__defineGetter__"; "__defineSetter__"; "hasOwnProperty";
   "__lookupGetter__"; "__lookupSetter__"; "isPrototypeOf";
   "propertyIsEnumerable"; "toString"; "valueOf"; "__proto__";
   "toLocaleString"]%string.

Fixpoint push_record (userId : string) (record : AttendanceRecord)
    (acc : list (string * list AttendanceRecord))
    : list (string * list AttendanceRecord) :=
  match acc with
  | [] => [(userId, [record])]
  | (k, records) :: acc =>
      if decide (k = userId) then (k, records ++ [record]) :: acc
      else (k, records) :: push_record userId record acc
  end.

Definition group_by_user (attendanceData : list AttendanceRecord)
    : list (string * list AttendanceRecord) :=
  fold_left (fun acc record => push_record (user_id record) record acc)
    attendanceData [].

(** The local variables of the per-user loop: [totalExpectedHours],
    [totalActualHours], [workingDays]. *)
Definition summary_step (acc : Q * Q * nat) (record : AttendanceRecord)
    : Q * Q * nat :=
  let '(totalExpectedHours, totalActualHours, workingDays) := acc in
  match shift record with
  | Some sh =>
      match jam_masuk sh, jam_keluar sh with
      | Some masuk, Some keluar =>
          let workingDays := S workingDays in
          let expectedHours := calculateHoursDifference masuk keluar in
          let totalExpectedHours := totalExpectedHours + expectedHours in
          match clock_out_time record with
          | Some out =>
              let actualHours :=
                calculateHoursDifference (format_HH_mm (waktu record))
                  (format_HH_mm out) in
              (totalExpectedHours, totalActualHours + actualHours,
               workingDays)
          | None => (totalExpectedHours, totalActualHours, workingDays)
          end
      | _, _ => (totalExpectedHours, totalActualHours, workingDays)
      end
  | None => (totalExpectedHours, totalActualHours, workingDays)
  end.

(** [records[0]?.profiles?.name || 'Unknown']. *)
Definition summary_name (records : list AttendanceRecord) : string :=
  match records with
  | record :: _ =>
      match profiles_name record with
      | Some n => if decide (n = ""%string) then "Unknown"%string else n
      | None => "Unknown"%string
      end
  | [] => "Unknown"%string
  end.

(** The callback of [Object.entries(userAttendance).forEach]. *)
Definition summarize (userId : string) (records : list AttendanceRecord)
    : HoursSummary :=
  let '(totalExpectedHours, totalActualHours, workingDays) :=
    fold_left summary_step records (0, 0, O) in
  let missingHours := Math_max0 (totalExpectedHours - totalActualHours) in
  let overtimeHours := Math_max0 (totalActualHours - totalExpectedHours) in
  let efficiency :=
    if Qlt_le_dec 0 totalExpectedHours
    then (totalActualHours / totalExpectedHours) * 100 else 0 in
  let averageHoursPerDay :=
    match workingDays with
    | O => 0
    | S _ => totalActualHours / inject_Z (Z.of_nat workingDays)
    end in
  {| hs_userId := userId;
     hs_userName := summary_name records;
     hs_workingDays := workingDays;
     hs_totalExpectedHours := round2 totalExpectedHours;
     hs_totalActualHours := round2 totalActualHours;
     hs_missingHours := round2 missingHours;
     hs_overtimeHours := round2 overtimeHours;
     hs_efficiency := round2 efficiency;
     hs_averageHoursPerDay := round2 averageHoursPerDay |}.

(** [Object.entries]: the keys that are array indices come first, in
    ascending numeric order, then the other keys in the order of their
    creation.  An array index is the canonical decimal text of an
    integer from 0 to 2^32 - 2; [digits_value] is the number that a text
    of digits writes. *)
Definition digits_value (s : string) : Z :=
  fold_left
    (fun acc c => (acc * 10 + (Z.of_nat (Ascii.nat_of_ascii c) - 48))%Z)
    (String.list_ascii_of_string s) 0%Z.

Definition array_index (key : string) : option Z :=
  let n := digits_value key in
  if bool_decide (pretty n = key) && (0 <=? n)%Z && (n <? 4294967295)%Z
  then Some n else None.

Definition is_array_index (key : string) : bool :=
  match array_index key with Some _ => true | None => false end.

Fixpoint insert_by_index {A : Type} (n : Z) (entry : A) (l : list (Z * A))
    : list (Z * A) :=
  match l with
  | [] => [(n, entry)]
  | (m, entry') :: l' =>
      if (n <? m)%Z then (n, entry) :: l
      else (m, entry') :: insert_by_index n entry l'
  end.

Definition index_entries {A : Type} (obj : list (string * A))
    : list (Z * (string * A)) :=
  foldr
    (fun entry acc =>
       match array_index (fst entry) with
       | Some n => insert_by_index n entry acc
       | None => acc
       end)
    [] obj.

Definition Object_entries {A : Type} (obj : list (string * A))
    : list (string * A) :=
  map snd (index_entries obj) ++
  List.filter (fun entry => negb (is_array_index (fst entry))) obj.

(** [userSummaries.set(userId, summary)] on a [Map] kept in insertion
    order. *)
Fixpoint Map_set (userId : string) (summary : HoursSummary)
    (m : list (string * HoursSummary)) : list (string * HoursSummary) :=
  match m with
  | [] => [(userId, summary)]
  | (k, v) :: m =>
      if decide (k = userId) then (k, summary) :: m
      else (k, v) :: Map_set userId summary m
  end.

Definition calculateHoursSummary (attendanceData : list AttendanceRecord)
    : list HoursSummary :=
  let userAttendance := group_by_user attendanceData in
  let userSummaries :=
    fold_left
      (fun m entry => Map_set (fst entry) (summarize (fst entry) (snd entry)) m)
      (Object_entries userAttendance) [] in
  map snd userSummaries.

Record ReportsState : Type := mkReportsState {
  rs_attendance : list AttendanceRecord;
  rs_hoursSummary : list HoursSummary;
  rs_loading : bool
}.

(** [fetchAttendanceData]: both lists are written only when the query
    answers without error. *)
Definition fetchAttendanceData (st : ReportsState)
    (reply : Reply (list AttendanceRecord)) : ReportsState :=
  match error reply, data reply with
  | None, Some d =>
      {| rs_attendance := d;
         rs_hoursSummary := calculateHoursSummary d;
         rs_loading := false |}
  | _, _ =>
      {| rs_attendance := rs_attendance st;
         rs_hoursSummary := rs_hoursSummary st;
         rs_loading := false |}
  end.

(** ** What one record adds

    The hours one record adds to the local sums of a loop that starts
    from zero, the test the loops make on the joined shift, and the span
    from clock-in to clock-out of a record on its own. *)
Definition record_expected (record : AttendanceRecord) : Q :=
  fst (day_step (0, 0) record).

Definition record_actual (record : AttendanceRecord) : Q :=
  snd (day_step (0, 0) record).

Definition has_complete_shift (record : AttendanceRecord) : bool :=
  match shift record with
  | Some sh =>
      match jam_masuk sh, jam_keluar sh with
      | Some _, Some _ => true
      | _, _ => false
      end
  | None => false
  end.

Definition clock_span (record : AttendanceRecord) : Q :=
  match clock_out_time record with
  | Some out =>
      calculateHoursDifference (format_HH_mm (waktu record)) (format_HH_mm out)
  | None => 0
  end.

(** ** The aggregation as the specification words it

    Section 4.1 of the specification, written without looking at the
    loops: the duration of a pair of times of day (the end less the
    start, after 24 hours were added to an end that lies before the
    start), the expected and the actual duration of one record (the
    clock times are times of day in hours and minutes, as the examples
    of the specification give them), and the rounding to two decimals:
    [y] is [x] rounded when it is a number of hundredths at no more than
    half a hundredth from [x].  A [tie] is a value half-way between two
    hundredths, the only case in which two such [y] exist. *)
Module Spec.

Definition duration (start end_ : TimeOfDay) : Q :=
  if (ms_of_day end_ <? ms_of_day start)%Z
  then (as_hours end_ + 24) - as_hours start
  else as_hours end_ - as_hours start.

Definition expected_duration (record : AttendanceRecord) : Q :=
  match shift record with
  | Some sh =>
      match jam_masuk sh, jam_keluar sh with
      | Some start, Some end_ => duration start end_
      | _, _ => 0
      end
  | None => 0
  end.

Definition clock_time (ts : Timestamp) : TimeOfDay :=
  mkTime (hours (ts_time ts)) (minutes (ts_time ts)) 0.

Definition actual_duration (record : AttendanceRecord) : Q :=
  match clock_out_time record with
  | Some out => duration (clock_time (waktu record)) (clock_time out)
  | None => 0
  end.


Definition tie (x : Q) : Prop :=
  exists k : Z, x * 100 == inject_Z k + (1 # 2).

End Spec.

(** The rows whose shift starts and ends on a whole minute.  The clock
    times are cut to the minute by [format_HH_mm], so the hours of such
    rows are whole numbers of minutes ([whole_minutes]), and no total of
    them is a [Spec.tie]: on these rows the rounding to two decimals
    does not depend on the last digits of a floating-point sum. *)
Definition on_whole_minutes (record : AttendanceRecord) : Prop :=
  forall sh t, shift record = Some sh ->
               jam_masuk sh = Some t \/ jam_keluar sh = Some t ->
               seconds t = 0%Z.

Definition whole_minutes (x : Q) : Prop := exists k : Z, x == k # 60.

(** The running totals of the loop over the working days, without the
    cells. *)
Definition grid_totals (acc : GridAcc) : Q * Q * Q * nat :=
  (ga_totalMissingHours acc, ga_totalExpectedHours acc,
   ga_totalActualHours acc, ga_workingDaysCount acc).

(** The days on which the rows [userAttendance] hold at least one row. *)
Definition days_with_attendance (userAttendance : list AttendanceRecord)
    (days : list Date) : list Date :=
  List.filter
    (fun date =>
       negb (Nat.eqb (length (records_of_day userAttendance date)) 0))
    days.

(** The shortfall of one day, from the full-precision sums of its rows. *)
Definition day_missing (userAttendance : list AttendanceRecord)
    (date : Date) : Q :=
  let records := records_of_day userAttendance date in
  Qmax 0 (Qsum (map record_expected records) -
          Qsum (map record_actual records)).

(** What the grouping [g] holds once the rows [l] have been read: one
    entry per user id, with the rows of that user in the order read. *)
Definition grouped (l : list AttendanceRecord)
    (g : list (string * list AttendanceRecord)) : Prop :=
  NoDup (map fst g) /\
  (forall k rs, (k, rs) ∈ g ->
                rs = filter (fun r => user_id r = k) l /\ rs <> []) /\
  (forall r, r ∈ l -> user_id r ∈ map fst g).

(** Sample rows used by the concrete checks below. *)
Module Sample.

Definition monday : Date := mkDate 2024 7 1.
Definition tuesday : Date := mkDate 2024 7 2.

(** A time stamp read in a zone seven hours ahead of UTC. *)
Definition at_ (d : Date) (h m s : Z) : Timestamp :=
  mkTimestamp d (mkTime h m s) (-420).

Definition day_shift : Shift :=
  mkShift "Pagi" (Some (mkTime 9 0 0)) (Some (mkTime 17 0 0)).

Definition night_shift : Shift :=
  mkShift "Malam" (Some (mkTime 22 0 0)) (Some (mkTime 6 0 0)).

(** Shift 09:00-17:00, in at 09:05, out at 16:40. *)
Definition short_day : AttendanceRecord :=
  mkRecord "u1" (Some "Ana"%string) (at_ monday 9 5 12)
    (Some (at_ monday 16 40 59)) (Some day_shift).

(** Shift 22:00-06:00, in at 22:00, out at 06:00 of the next day. *)
Definition night : AttendanceRecord :=
  mkRecord "u1" (Some "Ana"%string) (at_ monday 22 0 0)
    (Some (at_ tuesday 6 0 0)) (Some night_shift).

(** No shift, in at 09:00, out at 17:00. *)
Definition no_shift : AttendanceRecord :=
  mkRecord "u1" (Some "Ana"%string) (at_ monday 9 0 0)
    (Some (at_ monday 17 0 0)) None.

(** Shift 09:00-17:00, in at 09:00, never out. *)
Definition open_session : AttendanceRecord :=
  mkRecord "u1" (Some "Ana"%string) (at_ monday 9 0 0) None
    (Some day_shift).

(** Shift 09:00-17:00, in at 08:00, out at 18:30. *)
Definition long_day : AttendanceRecord :=
  mkRecord "u1" (Some "Ana"%string) (at_ monday 8 0 0)
    (Some (at_ monday 18 30 0)) (Some day_shift).

(** Shift 09:00:00-17:00:01, in at 09:00, out at 17:00: one second
    short. *)
Definition second_short : AttendanceRecord :=
  mkRecord "u1" (Some "Ana"%string) (at_ monday 9 0 0)
    (Some (at_ monday 17 0 0))
    (Some (mkShift "Pagi" (Some (mkTime 9 0 0)) (Some (mkTime 17 0 1)))).

End Sample.

(** ** Rendering and export

    The remaining functions of the three components and of the
    [AttendanceHistory] component, which turn the aggregates into cell
    texts, styles and delimited text. *)

Local Open Scope string_scope.

(** The text of a number with at most two decimals, as
    [Number.prototype.toString] and template literals print the values
    [Math.round(x * 100) / 100]: no trailing zero, no point for a whole
    number. *)
Definition Number_toString (x : Q) : string :=
  let k := Qfloor (x * 100) in
  let sign := if (k <? 0)%Z then "-" else "" in
  let k := Z.abs k in
  let whole := (k / 100)%Z in
  let frac := (k mod 100)%Z in
  sign +:+ pretty whole +:+
  (if (frac =? 0)%Z then ""
   else if (frac mod 10 =? 0)%Z then "." +:+ pretty (frac / 10)%Z
   else "." +:+ pad 2 frac).

(** [getCellStyle] and [getCellContent] of the daily grid. *)
Definition getCellStyle (dayData : DailyHourData) : string :=
  if negb (dh_hasAttendance dayData) then "bg-gray-100 text-gray-400"
  else if Qlt_le_dec 0 (dh_missingHours dayData)
  then "bg-red-100 text-red-800 border-red-200"
  else "bg-green-100 text-green-800 border-green-200".

Definition getCellContent (dayData : DailyHourData) : string :=
  if negb (dh_hasAttendance dayData) then "-"
  else if Qlt_le_dec 0 (dh_missingHours dayData)
  then "-" +:+ Number_toString (dh_missingHours dayData) +:+ "h"
  else "✓".

(** The serialisation shared by the exports: every field between double
    quotes, the fields of a row joined by commas, the rows by line
    feeds. *)
Definition quote_char : string := String (Ascii.ascii_of_nat 34) "".
Definition newline : string := String (Ascii.ascii_of_nat 10) "".

Definition csv_field (field : string) : string :=
  quote_char +:+ field +:+ quote_char.

Definition csv_line (row : list string) : string :=
  String.concat "," (map csv_field row).

Definition csvContent (rows : list (list string)) : string :=
  String.concat newline (map csv_line rows).

(** [exportGridToCSV]: the header, then one row per user, whose cells the
    loop over the columns pushes one by one; [columns] is the
    [workingDays] state of the component. *)
Definition grid_csv_headers (columns : list Date) : list string :=
  (["Nama"; "Total Kekurangan Jam"; "Hari Kerja"] ++
   map (fun date => pretty (day date)) columns)%list.

Definition grid_csv_cell (user : UserDailyData) (date : Date) : string :=
  let dateStr := format_yyyy_MM_dd date in
  match dailyData user !! dateStr with
  | Some dayData =>
      if dh_hasAttendance dayData then
        if Qlt_le_dec 0 (dh_missingHours dayData)
        then "-" +:+ Number_toString (dh_missingHours dayData) +:+ "h"
        else "✓"
      else "-"
  | None => "-"
  end.

Definition grid_csv_row (columns : list Date) (user : UserDailyData)
    : list string :=
  fold_left (fun row date => (row ++ [grid_csv_cell user date])%list) columns
    [userName user; Number_toString (totalMissingHours user);
     pretty (workingDays user)].

Definition grid_csv_rows (st : GridState) : list (list string) :=
  grid_csv_headers (gs_workingDays st) ::
  map (grid_csv_row (gs_workingDays st)) (gs_gridData st).

Definition exportGridToCSV (st : GridState) : string :=
  csvContent (grid_csv_rows st).

(** [getStatusIndicator] of the calendar view: the text of the indicator,
    [None] where the source returns [null]. *)
Definition getStatusIndicator (dayData : DayData) : option string :=
  if negb (dd_hasAttendance dayData) then None
  else
    match dd_status dayData with
    | missing =>
        Some ("-" +:+ Number_toString (dd_missingHours dayData) +:+ "h")
    | overtime =>
        Some ("+" +:+ Number_toString (dd_overtimeHours dayData) +:+ "h")
    | complete =>
        Some ("✓ " +:+ Number_toString (dd_actualHours dayData) +:+ "h")
    | no_attendance => None
    end.

(** [getDayStyle]: the classes of a calendar cell. *)
Definition getDayStyle (currentMonth : Date) (dayData : DayData) : string :=
  let baseClasses := "min-h-[80px] p-2 border border-gray-200 relative" in
  if negb (isSameMonth (dd_date dayData) currentMonth)
  then baseClasses +:+ " bg-gray-50 text-gray-400"
  else
    match dd_status dayData with
    | missing => baseClasses +:+ " bg-red-50 border-red-200"
    | overtime => baseClasses +:+ " bg-green-50 border-green-200"
    | complete => baseClasses +:+ " bg-blue-50 border-blue-200"
    | no_attendance => baseClasses +:+ " bg-white"
    end.

(** [getEfficiencyBadge] of the report: the variant of the badge. *)
Inductive BadgeVariant : Type :=
  | badge_default
  | badge_secondary
  | badge_destructive.

Definition getEfficiencyBadge (efficiency : Q) : BadgeVariant :=
  if Qlt_le_dec efficiency 90 then
    if Qlt_le_dec efficiency 75 then badge_destructive else badge_secondary
  else badge_default.

(** [formatWorkingHours] of the attendance history.  [getTime] is the
    number of milliseconds from the epoch to a time stamp: those of its
    local fields, moved to UTC by the offset; [%] is the remainder that
    keeps the sign of the dividend. *)
Definition getTime (ts : Timestamp) : Z :=
  (days_from_civil (ts_date ts) * ms_per_day + ms_of_day (ts_time ts) +
   ts_timezoneOffset ts * 60000)%Z.

Definition working_hours (clockIn clockOut : Timestamp) : Z * Z :=
  let diffMs := (getTime clockOut - getTime clockIn)%Z in
  let diffHours := (diffMs / (1000 * 60 * 60))%Z in
  let diffMinutes := (Z.rem diffMs (1000 * 60 * 60) / (1000 * 60))%Z in
  (diffHours, diffMinutes).

Definition formatWorkingHours (clockIn : Timestamp)
    (clockOut : option Timestamp) : string :=
  match clockOut with
  | None => "In Progress"
  | Some out =>
      let '(diffHours, diffMinutes) := working_hours clockIn out in
      pretty diffHours +:+ "h " +:+ pretty diffMinutes +:+ "m"
  end.

Local Close Scope string_scope.

(** ** Well-formed rows and further notions used in the statements *)

(** The times of a row are times of day. *)
Definition valid_record (record : AttendanceRecord) : Prop :=
  valid (ts_time (waktu record)) /\
  (forall out, clock_out_time record = Some out -> valid (ts_time out)) /\
  (forall sh t, shift record = Some sh ->
                jam_masuk sh = Some t \/ jam_keluar sh = Some t -> valid t).

(** The cell that the loop of [fetchGridData] stores for [date]. *)
Definition grid_cell (userAttendance : list AttendanceRecord) (date : Date)
    : DailyHourData :=
  let dayAttendance := records_of_day userAttendance date in
  let expectedHours := fst (day_hours dayAttendance) in
  let actualHours := snd (day_hours dayAttendance) in
  {| dh_date := format_yyyy_MM_dd date;
     dh_expectedHours := round2 expectedHours;
     dh_actualHours := round2 actualHours;
     dh_missingHours := round2 (Qmax 0 (expectedHours - actualHours));
     dh_hasAttendance := negb (Nat.eqb (length dayAttendance) 0) |}.

(** The number of days that are neither Sunday (0) nor Saturday (6) among
    [n] consecutive days of which the first has weekday [g0]. *)
Definition weekdays_from (g0 : Z) (n : nat) : nat :=
  length (List.filter
            (fun i => negb (((g0 + Z.of_nat i) mod 7 =? 0)%Z ||
                            ((g0 + Z.of_nat i) mod 7 =? 6)%Z))
            (seq 0 n)).

(** The headers of the seven columns of the calendar. *)
Definition weekDays : list string :=
  ["Sun"; "Mon"; "Tue"; "Wed"; "Thu"; "Fri"; "Sat"]%string.

(** The check, by computation, that [pad width] writes every number
    below [n] on [width] characters that read back as the number. *)
Definition pad_checked (width : nat) (n : nat) : bool :=
  forallb
    (fun i => (digits_value (pad width (Z.of_nat i)) =? Z.of_nat i)%Z &&
              Nat.eqb (String.length (pad width (Z.of_nat i))) width)
    (seq 0 n).

(** The dates whose ['yyyy-MM-dd'] text has its ten characters. *)
Definition date_text_ok (d : Date) : Prop :=
  (0 <= year d < 10000)%Z /\ (0 <= month d < 100)%Z /\
  (0 <= day d < 100)%Z.

(** The elements of a list in the order of their first occurrence. *)
Definition first_occurrences (l : list string) : list string :=
  reverse (remove_dups (reverse l)).

(** The ascending order of the keys that are array indices. *)
Definition index_lt (k1 k2 : string) : Prop :=
  match array_index k1, array_index k2 with
  | Some a, Some b => (a < b)%Z
  | _, _ => False
  end.

(** ** Proof steps *)

(** Case analysis on the integer tests of a goal. *)
Ltac split_ifs :=
  repeat match goal with
    | |- context [if (?a <=? ?b)%Z then _ else _] => destruct (Z.leb_spec a b)
    | |- context [if (?a <? ?b)%Z then _ else _] => destruct (Z.ltb_spec a b)
    | |- context [if (?a =? ?b)%Z then _ else _] => destruct (Z.eqb_spec a b)
    | H : context [if (?a =? ?b)%Z then _ else _] |- _ =>
        destruct (Z.eqb_spec a b)
    end.

(** * Properties *)

(** ** The model on concrete values *)

Example calc_0900_1700 :
  calculateHoursDifference (mkTime 9 0 0) (mkTime 17 0 0) == 8.
Proof. reflexivity. Qed.

Example calc_2200_0600 :
  calculateHoursDifference (mkTime 22 0 0) (mkTime 6 0 0) == 8.
Proof. reflexivity. Qed.

Example getDay_2000_01_01 : getDay (mkDate 2000 1 1) = 6%Z.
Proof. reflexivity. Qed.

Example getDay_1970_01_01 : getDay (mkDate 1970 1 1) = 4%Z.
Proof. reflexivity. Qed.

Example getDay_2024_07_01 : getDay (mkDate 2024 7 1) = 1%Z.
Proof. reflexivity. Qed.

Example format_2024_07_01 :
  format_yyyy_MM_dd (mkDate 2024 7 1) = "2024-07-01"%string.
Proof. vm_compute. reflexivity. Qed.

Example startOfWeek_2024_07_01 :
  startOfWeek (mkDate 2024 7 1) = mkDate 2024 6 30.
Proof. reflexivity. Qed.

Example endOfWeek_2024_07_31 :
  endOfWeek (mkDate 2024 7 31) = mkDate 2024 8 3.
Proof. reflexivity. Qed.

Example eachDay_feb_2024 :
  length (eachDayOfInterval (startOfMonth (mkDate 2024 2 14))
            (endOfMonth (mkDate 2024 2 14))) = 29%nat.
Proof. reflexivity. Qed.

Example round2_7_35 : round2 (455 # 60) == 758 # 100.
Proof. reflexivity. Qed.

Example round2_half_up : round2 (5 # 1000) == 1 # 100.
Proof. reflexivity. Qed.

(** ** The floating point of the source on half-way values

    A shift of one hour and 18 seconds lasts 1.005 hours, half-way
    between 1.00 and 1.01: the exact rounding takes the upper value, the
    source reports 1.  Both are [Spec.rounded2] values of 1.005. *)
Example Binary64_tie_rounds_down :
  Binary64.round2 (Binary64.hours_of_ms 3618000) = Binary64.hundredths 100 /\
  round2 (3618000 # ms_per_hour) == 101 # 100.
Proof. by vm_compute. Qed.

(** The same shift worked for one hour: the shortfall of 18 seconds is
    reported as 0 by the source. *)
Example Binary64_tie_shortfall :
  Binary64.round2
    (Binary64.sub (Binary64.hours_of_ms 3618000)
       (Binary64.hours_of_ms 3600000)) = Binary64.of_Z 0.
Proof. by vm_compute. Qed.

(** Sums that are equal as exact values can differ in the source: 12 and
    24 minutes add up to more than 36 minutes. *)
Example Binary64_equal_sums_differ :
  Binary64.ltb (Binary64.hours_of_ms 2160000)
    (Binary64.sum [Binary64.hours_of_ms 720000;
                   Binary64.hours_of_ms 1440000]) = true.
Proof. by vm_compute. Qed.

(** On a half-way total, the order of the terms can decide the reported
    value: 60, 138 and 7200 seconds add up to 2.055 hours, reported as
    2.06 or as 2.05. *)
Example Binary64_order_of_terms :
  Binary64.round2
    (Binary64.sum [Binary64.hours_of_ms 60000; Binary64.hours_of_ms 138000;
                   Binary64.hours_of_ms 7200000]) = Binary64.hundredths 206 /\
  Binary64.round2
    (Binary64.sum [Binary64.hours_of_ms 7200000; Binary64.hours_of_ms 138000;
                   Binary64.hours_of_ms 60000]) = Binary64.hundredths 205.
Proof. by vm_compute. Qed.

(** ** Differences of times of day *)

Section HoursDifference.

Local Open Scope Z_scope.

Lemma ms_of_day_range (t : TimeOfDay) :
  valid t -> 0 <= ms_of_day t < ms_per_day.
Proof.
  unfold valid, ms_of_day, ms_per_day. lia.
Qed.

Lemma Qmake_sub (a b : Z) (p : positive) :
  ((a - b) # p == (a # p) - (b # p))%Q.
Proof.
  unfold Qeq, Qminus, Qplus, Qopp; simpl. nia.
Qed.

Lemma Qmake_nonneg (a : Z) (p : positive) : 0 <= a -> (0 <= a # p)%Q.
Proof.
  intros Ha. unfold Qle; simpl. lia.
Qed.

Lemma calculateHoursDifference_nonneg (s e : TimeOfDay) :
  valid s -> valid e -> (0 <= calculateHoursDifference s e)%Q.
Proof.
  intros Hs He.
  pose proof (ms_of_day_range s Hs) as Rs.
  pose proof (ms_of_day_range e He) as Re.
  unfold calculateHoursDifference, Date_2000_01_01.
  destruct (Z.ltb_spec (midnight_2000_01_01 + ms_of_day e)
              (midnight_2000_01_01 + ms_of_day s));
    apply Qmake_nonneg; lia.
Qed.

(** C1: for valid times of day, the difference is [end - start] when
    [end >= start], [(end + 24h) - start] when [end < start], and it is
    never negative. *)
Theorem calculateHoursDifference_spec (s e : TimeOfDay) :
  valid s -> valid e ->
  (ms_of_day s <= ms_of_day e ->
     (calculateHoursDifference s e == as_hours e - as_hours s)%Q) /\
  (ms_of_day e < ms_of_day s ->
     (calculateHoursDifference s e == (as_hours e + 24) - as_hours s)%Q) /\
  (0 <= calculateHoursDifference s e)%Q.
Proof.
  intros Hs He.
  split; [|split]; [| |by apply calculateHoursDifference_nonneg].
  - intros Hle.
    unfold calculateHoursDifference, Date_2000_01_01, as_hours.
    destruct (Z.ltb_spec (midnight_2000_01_01 + ms_of_day e)
                (midnight_2000_01_01 + ms_of_day s)); [lia|].
    rewrite <- Qmake_sub. f_equiv. lia.
  - intros Hlt.
    unfold calculateHoursDifference, Date_2000_01_01, as_hours.
    destruct (Z.ltb_spec (midnight_2000_01_01 + ms_of_day e)
                (midnight_2000_01_01 + ms_of_day s)); [|lia].
    generalize (ms_of_day e) (ms_of_day s); intros x y.
    unfold Qeq, Qminus, Qplus, Qopp, ms_per_hour, ms_per_day; simpl. lia.
Qed.

Lemma calculateHoursDifference_spec_witness :
  valid (mkTime 22 0 0) /\ valid (mkTime 6 30 0) /\
  (calculateHoursDifference (mkTime 22 0 0) (mkTime 6 30 0)
     == (as_hours (mkTime 6 30 0) + 24) - as_hours (mkTime 22 0 0))%Q.
Proof.
  assert (Hs : valid (mkTime 22 0 0)) by (unfold valid; simpl; lia).
  assert (He : valid (mkTime 6 30 0)) by (unfold valid; simpl; lia).
  split; [exact Hs|]. split; [exact He|].
  apply (calculateHoursDifference_spec (mkTime 22 0 0) (mkTime 6 30 0) Hs He).
  unfold ms_of_day; simpl; lia.
Defined.

End HoursDifference.

(** ** Rounding and the positive part *)

Section Numbers.

Lemma Math_max0_nonneg (x : Q) : 0 <= Math_max0 x.
Proof. unfold Math_max0. apply Q.le_max_l. Qed.

Lemma Math_max0_pos (x : Q) : 0 < Math_max0 x <-> 0 < x.
Proof.
  unfold Math_max0.
  destruct (Q.max_spec 0 x) as [[H1 H2]|[H1 H2]]; rewrite H2; lra.
Qed.

Lemma Math_max0_of_pos (x : Q) : 0 <= x -> Math_max0 x == x.
Proof. intros H. unfold Math_max0. by apply Q.max_r. Qed.

Lemma Math_max0_of_neg (x : Q) : x <= 0 -> Math_max0 x == 0.
Proof. intros H. unfold Math_max0. by apply Q.max_l. Qed.

Lemma Math_max0_proper (x y : Q) : x == y -> Math_max0 x == Math_max0 y.
Proof. intros H. unfold Math_max0. by rewrite H. Qed.

(** Of [e - a] and [a - e], at most one has a positive part. *)
Lemma Math_max0_exclusive (e a : Q) :
  ~ (0 < Math_max0 (e - a) /\ 0 < Math_max0 (a - e)).
Proof. rewrite !Math_max0_pos. lra. Qed.

Lemma Math_round_proper (x y : Q) : x == y -> Math_round x = Math_round y.
Proof. intros H. unfold Math_round. by rewrite H. Qed.

Lemma round2_proper (x y : Q) : x == y -> round2 x = round2 y.
Proof.
  intros H. unfold round2.
  rewrite (Math_round_proper (x * 100) (y * 100)); [done|].
  by rewrite H.
Qed.

Lemma round2_pos (x : Q) : 0 < round2 x -> 0 < x.
Proof.
  unfold round2, Math_round. intros H.
  assert (Hk : (1 <= Qfloor (x * 100 + (1 # 2)))%Z)
    by (unfold Qlt in H; cbn [Qnum Qden] in H; lia).
  assert (inject_Z 1 <= inject_Z (Qfloor (x * 100 + (1 # 2)))) as H1
    by (by rewrite <- Zle_Qle).
  pose proof (Qfloor_le (x * 100 + (1 # 2))) as H2.
  change (inject_Z 1) with 1 in H1. lra.
Qed.

Lemma round2_zero (x : Q) : x == 0 -> round2 x == 0.
Proof. intros H. by rewrite (round2_proper x 0 H). Qed.

(** On exact values, half a hundredth or more does not round to zero. *)
Lemma round2_pos_of_ge (x : Q) : 1 # 200 <= x -> 0 < round2 x.
Proof.
  intros H. unfold round2, Math_round.
  assert (1 <= Qfloor (x * 100 + (1 # 2)))%Z as Hk.
  { apply (Qfloor_resp_le 1 (x * 100 + (1 # 2))). lra. }
  unfold Qlt; cbn [Qnum Qden]. lia.
Qed.

Lemma Qsum_app (l1 l2 : list Q) : Qsum (l1 ++ l2) == Qsum l1 + Qsum l2.
Proof.
  induction l1 as [|x l1 IH]; simpl; [lra|].
  unfold Qsum in *; simpl. rewrite IH. lra.
Qed.

Lemma Qsum_pointwise {A : Type} (f g : A -> Q) (l : list A) :
  (forall x, x ∈ l -> f x == g x) -> Qsum (map f l) == Qsum (map g l).
Proof.
  induction l as [|x l IH]; intros H; [reflexivity|].
  cbn [map]. change (f x + Qsum (map f l) == g x + Qsum (map g l)).
  rewrite IH by (intros y Hy; apply H; by right).
  rewrite (H x) by left. reflexivity.
Qed.

End Numbers.

(** ** The loop over the records of a day *)

Section DayLoop.

Implicit Types (record : AttendanceRecord) (l : list AttendanceRecord).

Lemma day_step_no_shift record (acc : Q * Q) :
  shift record = None -> day_step acc record = acc.
Proof. intros H. destruct acc. unfold day_step. by rewrite H. Qed.

Lemma day_step_no_clock_out record (e a : Q) :
  clock_out_time record = None -> snd (day_step (e, a) record) = a.
Proof.
  intros H. unfold day_step. rewrite H.
  destruct (shift record) as [sh|]; [|done].
  by destruct (jam_masuk sh), (jam_keluar sh).
Qed.

Lemma day_step_fst record (e a : Q) :
  fst (day_step (e, a) record) == e + record_expected record.
Proof.
  unfold record_expected, day_step.
  destruct (shift record) as [sh|]; [|simpl; lra].
  destruct (jam_masuk sh), (jam_keluar sh), (clock_out_time record);
    simpl; lra.
Qed.

Lemma day_step_snd record (e a : Q) :
  snd (day_step (e, a) record) == a + record_actual record.
Proof.
  unfold record_actual, day_step.
  destruct (shift record) as [sh|]; [|simpl; lra].
  destruct (jam_masuk sh), (jam_keluar sh), (clock_out_time record);
    simpl; lra.
Qed.

(** The actual hours never read the expected ones. *)
Lemma day_step_snd_indep record (e1 e2 a : Q) :
  snd (day_step (e1, a) record) = snd (day_step (e2, a) record).
Proof.
  unfold day_step.
  destruct (shift record) as [sh|]; [|done].
  by destruct (jam_masuk sh), (jam_keluar sh), (clock_out_time record).
Qed.

Lemma day_fold_snd_indep l (e1 e2 a : Q) :
  snd (fold_left day_step l (e1, a)) = snd (fold_left day_step l (e2, a)).
Proof.
  revert e1 e2 a. induction l as [|r l IH]; intros e1 e2 a; [done|].
  cbn [fold_left].
  destruct (day_step (e1, a) r) as [e1' a1] eqn:E1.
  destruct (day_step (e2, a) r) as [e2' a2] eqn:E2.
  assert (a1 = a2) as ->.
  { change a1 with (snd (e1', a1)). change a2 with (snd (e2', a2)).
    rewrite <- E1, <- E2. apply day_step_snd_indep. }
  apply IH.
Qed.

Lemma day_fold_sums l (e a : Q) :
  fst (fold_left day_step l (e, a)) == e + Qsum (map record_expected l) /\
  snd (fold_left day_step l (e, a)) == a + Qsum (map record_actual l).
Proof.
  revert e a. induction l as [|r l IH]; intros e a.
  - simpl. unfold Qsum; simpl. split; lra.
  - cbn [fold_left map]. destruct (day_step (e, a) r) as [e' a'] eqn:E.
    destruct (IH e' a') as [IH1 IH2].
    pose proof (day_step_fst r e a) as H1.
    pose proof (day_step_snd r e a) as H2.
    rewrite E in H1, H2. simpl in H1, H2.
    unfold Qsum in *; simpl. split; lra.
Qed.

Lemma day_hours_sums l :
  fst (day_hours l) == Qsum (map record_expected l) /\
  snd (day_hours l) == Qsum (map record_actual l).
Proof.
  unfold day_hours. destruct (day_fold_sums l 0 0). split; lra.
Qed.

Lemma day_hours_no_shift l :
  (forall r, r ∈ l -> shift r = None) -> day_hours l = (0, 0).
Proof.
  unfold day_hours. generalize (0, 0) as acc.
  induction l as [|r l IH]; intros acc H; [done|].
  cbn [fold_left]. rewrite day_step_no_shift; [|apply H; left].
  apply IH. intros r' Hr'. apply H. by right.
Qed.

Lemma has_attendance_true l :
  negb (Nat.eqb (length l) 0) = true <-> l <> [].
Proof. by destruct l. Qed.

(** The hours that the loops add for a record are the durations of the
    specification, for the records that carry a shift with both times;
    the other records add nothing. *)
Lemma calculateHoursDifference_duration (s e : TimeOfDay) :
  calculateHoursDifference s e == Spec.duration s e.
Proof.
  unfold calculateHoursDifference, Spec.duration, Date_2000_01_01, as_hours.
  destruct (Z.ltb_spec (midnight_2000_01_01 + ms_of_day e)
              (midnight_2000_01_01 + ms_of_day s));
    destruct (Z.ltb_spec (ms_of_day e) (ms_of_day s)); try lia.
  - generalize (ms_of_day e) (ms_of_day s); intros x y.
    unfold Qeq, Qminus, Qplus, Qopp, ms_per_hour, ms_per_day; simpl. lia.
  - rewrite <- Qmake_sub. f_equiv. lia.
Qed.

Lemma record_expected_duration (record : AttendanceRecord) :
  record_expected record ==
  if has_complete_shift record then Spec.expected_duration record else 0.
Proof.
  unfold record_expected, day_step, has_complete_shift,
    Spec.expected_duration.
  destruct (shift record) as [sh|]; [|reflexivity].
  destruct (jam_masuk sh) as [a|]; [|reflexivity].
  destruct (jam_keluar sh) as [b|]; [|reflexivity].
  pose proof (calculateHoursDifference_duration a b) as H.
  destruct (clock_out_time record); cbn [fst]; lra.
Qed.

Lemma record_actual_duration (record : AttendanceRecord) :
  record_actual record ==
  if has_complete_shift record then Spec.actual_duration record else 0.
Proof.
  unfold record_actual, day_step, has_complete_shift, Spec.actual_duration.
  destruct (shift record) as [sh|]; [|reflexivity].
  destruct (jam_masuk sh) as [a|]; [|reflexivity].
  destruct (jam_keluar sh) as [b|]; [|reflexivity].
  destruct (clock_out_time record) as [out|]; cbn [snd]; [|reflexivity].
  pose proof (calculateHoursDifference_duration
                (format_HH_mm (waktu record)) (format_HH_mm out)) as H.
  change (Spec.clock_time (waktu record)) with (format_HH_mm (waktu record)).
  change (Spec.clock_time out) with (format_HH_mm out).
  lra.
Qed.

Lemma Qsum_counted (f g : AttendanceRecord -> Q)
    (l : list AttendanceRecord) :
  (forall r, f r == if has_complete_shift r then g r else 0) ->
  Qsum (map f l) == Qsum (map g (List.filter has_complete_shift l)).
Proof.
  intros H. induction l as [|r l IH]; [reflexivity|].
  cbn [map List.filter]. change (Qsum (f r :: map f l)) with (f r + Qsum (map f l)).
  rewrite IH, (H r). destruct (has_complete_shift r).
  - reflexivity.
  - lra.
Qed.

Lemma day_hours_durations l :
  let counted := List.filter has_complete_shift l in
  fst (day_hours l) == Qsum (map Spec.expected_duration counted) /\
  snd (day_hours l) == Qsum (map Spec.actual_duration counted).
Proof.
  intros counted. destruct (day_hours_sums l) as [He Ha].
  rewrite (Qsum_counted _ _ l record_expected_duration) in He.
  rewrite (Qsum_counted _ _ l record_actual_duration) in Ha.
  by split.
Qed.

End DayLoop.

(** ** The aggregate of one calendar day *)

Section CalendarDay.

Variable attendanceData : list AttendanceRecord.
Variable date : Date.

Let records := records_of_day attendanceData date.
Let expected := fst (day_hours records).
Let actual := snd (day_hours records).
Let d := calendar_day attendanceData date.

Lemma calendar_day_fields :
  dd_expectedHours d = round2 expected /\
  dd_actualHours d = round2 actual /\
  dd_missingHours d = round2 (Qmax 0 (expected - actual)) /\
  dd_overtimeHours d = round2 (Qmax 0 (actual - expected)) /\
  dd_hasAttendance d = negb (Nat.eqb (length records) 0) /\
  dd_status d =
    classify (dd_hasAttendance d) (Qmax 0 (expected - actual))
      (Qmax 0 (actual - expected)) /\
  dd_attendanceRecords d = records.
Proof.
  subst d expected actual records. unfold calendar_day.
  by destruct (day_hours (records_of_day attendanceData date)).
Qed.

Lemma calendar_day_exclusive :
  ~ (0 < Qmax 0 (expected - actual) /\ 0 < Qmax 0 (actual - expected)) /\
  ~ (0 < dd_missingHours d /\ 0 < dd_overtimeHours d).
Proof.
  pose proof (Math_max0_exclusive expected actual) as Hx.
  split; [exact Hx|].
  destruct calendar_day_fields as (_ & _ & Hm & Ho & _).
  rewrite Hm, Ho. intros [H1 H2].
  apply Hx. split; by apply round2_pos.
Qed.

Lemma calendar_day_empty :
  records = [] ->
  dd_status d = no_attendance /\ dd_hasAttendance d = false /\
  dd_expectedHours d == 0 /\ dd_actualHours d == 0 /\
  dd_missingHours d == 0 /\ dd_overtimeHours d == 0.
Proof.
  intros Hnil.
  destruct calendar_day_fields as (He & Ha & Hm & Ho & Hh & Hs & _).
  rewrite Hs, He, Ha, Hm, Ho, Hh.
  subst expected actual. rewrite Hnil. by vm_compute.
Qed.

Lemma calendar_day_status :
  records <> [] ->
  (0 < Qmax 0 (expected - actual) -> dd_status d = missing) /\
  (~ 0 < Qmax 0 (expected - actual) ->
   0 < Qmax 0 (actual - expected) -> dd_status d = overtime) /\
  (~ 0 < Qmax 0 (expected - actual) ->
   ~ 0 < Qmax 0 (actual - expected) -> dd_status d = complete).
Proof.
  intros Hne.
  destruct calendar_day_fields as (_ & _ & _ & _ & Hh & Hs & _).
  rewrite Hs, Hh. apply has_attendance_true in Hne. rewrite Hne.
  unfold classify.
  destruct (Qlt_le_dec 0 (Qmax 0 (expected - actual)));
    destruct (Qlt_le_dec 0 (Qmax 0 (actual - expected)));
    repeat split; intros; try done; lra.
Qed.

End CalendarDay.

(** C3, as the specification words it, fails: read on the
    [missingHours] and [overtimeHours] that the day aggregate reports,
    the cascade would classify as complete a day with a record whose
    reported values are both 0.00; the day of a shift left one second
    early is such a day, and it is classified missing. *)
Lemma status_not_from_reported_hours :
  ~ (forall (attendanceData : list AttendanceRecord) (date : Date),
       let records := records_of_day attendanceData date in
       let d := calendar_day attendanceData date in
       (records = [] ->
        dd_status d = no_attendance /\
        dd_expectedHours d == 0 /\ dd_actualHours d == 0) /\
       (records <> [] -> 0 < dd_missingHours d -> dd_status d = missing) /\
       (records <> [] -> ~ 0 < dd_missingHours d ->
        0 < dd_overtimeHours d -> dd_status d = overtime) /\
       (records <> [] -> ~ 0 < dd_missingHours d ->
        ~ 0 < dd_overtimeHours d -> dd_status d = complete)).
Proof.
  intros H.
  destruct (H [Sample.second_short] Sample.monday) as (_ & _ & _ & Hc).
  assert (Hs : dd_status (calendar_day [Sample.second_short] Sample.monday)
               = complete).
  { apply Hc.
    - vm_compute. discriminate.
    - vm_compute. discriminate.
    - vm_compute. discriminate. }
  vm_compute in Hs. discriminate Hs.
Qed.

(** The status is chosen before the values are rounded: a shortfall of
    one second is classified missing while the reported [missingHours]
    and [overtimeHours] are 0.00. *)
Example one_second_short :
  let d := calendar_day [Sample.second_short] Sample.monday in
  dd_status d = missing /\ dd_missingHours d == 0 /\
  dd_overtimeHours d == 0 /\ dd_expectedHours d == 8 /\
  dd_actualHours d == 8.
Proof. by vm_compute. Qed.

(** C3, amended: a day without records is classified no-attendance, with
    zero expected and actual hours, and only such a day is.  A day with
    records is classified on the hours before they are rounded, the
    sums of the shift durations and of the clock spans of its records
    that carry a shift with both times: missing when the expected hours
    exceed the actual hours, overtime when the actual hours exceed the
    expected hours, complete when every such record spans exactly its
    shift.  Hence the reported values decide the status only when they
    are positive: reported missing hours above zero mean missing,
    reported overtime above zero means overtime, and a complete day
    reports neither; a day classified missing reports no overtime and a
    day classified overtime no missing hours, while its own reported
    value can be 0.00. *)
Theorem calendar_day_status_reported
    (attendanceData : list AttendanceRecord) (date : Date) :
  let records := records_of_day attendanceData date in
  let d := calendar_day attendanceData date in
  let counted := List.filter has_complete_shift records in
  let expected := Qsum (map Spec.expected_duration counted) in
  let actual := Qsum (map Spec.actual_duration counted) in
  (records = [] ->
   dd_status d = no_attendance /\
   dd_expectedHours d == 0 /\ dd_actualHours d == 0) /\
  (records <> [] ->
   dd_status d <> no_attendance /\
   (actual < expected -> dd_status d = missing) /\
   (expected < actual -> dd_status d = overtime) /\
   ((forall r, r ∈ counted ->
               Spec.expected_duration r == Spec.actual_duration r) ->
    dd_status d = complete)) /\
  (0 < dd_missingHours d -> dd_status d = missing) /\
  (0 < dd_overtimeHours d -> dd_status d = overtime) /\
  (dd_status d = complete ->
   dd_missingHours d == 0 /\ dd_overtimeHours d == 0) /\
  (dd_status d = missing -> dd_overtimeHours d == 0) /\
  (dd_status d = overtime -> dd_missingHours d == 0).
Proof.
  intros records d counted expected actual.
  destruct (calendar_day_fields attendanceData date)
    as (_ & _ & Hm & Ho & Hh & Hs & _).
  fold records d in Hm, Ho, Hh, Hs.
  destruct (day_hours_durations records) as [He Ha].
  fold counted in He, Ha. fold expected in He. fold actual in Ha.
  set (e := fst (day_hours records)) in *.
  set (a := snd (day_hours records)) in *.
  pose proof (Math_max0_pos (e - a)) as Pm.
  pose proof (Math_max0_pos (a - e)) as Po.
  unfold Math_max0 in Pm, Po.
  pose proof (Q.le_max_l 0 (e - a)) as Nm.
  pose proof (Q.le_max_l 0 (a - e)) as No.
  assert (Hzero : forall x, 0 <= x -> ~ 0 < x -> round2 x == 0).
  { intros x H0 H1. apply round2_zero. lra. }
  split; [|split; [|split; [|split; [|split; [|split]]]]].
  - intros Hnil.
    destruct (calendar_day_empty attendanceData date Hnil)
      as (H1 & _ & H2 & H3 & _).
    done.
  - intros Hne. apply has_attendance_true in Hne.
    rewrite Hs, Hh, Hne. unfold classify.
    split; [|split; [|split]].
    + destruct (Qlt_le_dec 0 _); [done|]. by destruct (Qlt_le_dec 0 _).
    + intros Hlt. destruct (Qlt_le_dec 0 _) as [|Hle]; [done|].
      exfalso. assert (0 < Qmax 0 (e - a)) by (apply Pm; lra).
      lra.
    + intros Hlt. destruct (Qlt_le_dec 0 _) as [Hpos|Hle].
      * exfalso. apply Pm in Hpos. lra.
      * destruct (Qlt_le_dec 0 _) as [|Hle']; [done|].
        exfalso. assert (0 < Qmax 0 (a - e)) by (apply Po; lra).
        lra.
    + intros Heq.
      assert (expected == actual) as E
        by (subst expected actual; by apply Qsum_pointwise).
      destruct (Qlt_le_dec 0 _) as [Hpos|_].
      * exfalso. apply Pm in Hpos. lra.
      * destruct (Qlt_le_dec 0 _) as [Hpos|_]; [|done].
        exfalso. apply Po in Hpos. lra.
  - rewrite Hm. intros Hpos. apply round2_pos in Hpos.
    rewrite Hs. unfold classify. destruct (dd_hasAttendance d) eqn:E.
    + destruct (Qlt_le_dec 0 _); [done|lra].
    + exfalso. rewrite Hh in E.
      assert (records = []) as Hnil by (by destruct records).
      subst e a. rewrite Hnil in Hpos. vm_compute in Hpos.
      discriminate Hpos.
  - rewrite Ho. intros Hpos. apply round2_pos in Hpos.
    rewrite Hs. unfold classify. destruct (dd_hasAttendance d) eqn:E.
    + destruct (Qlt_le_dec 0 _) as [Hpos'|_].
      * exfalso. apply Pm in Hpos'. apply Po in Hpos. lra.
      * destruct (Qlt_le_dec 0 _); [done|lra].
    + exfalso. rewrite Hh in E.
      assert (records = []) as Hnil by (by destruct records).
      subst e a. rewrite Hnil in Hpos. vm_compute in Hpos.
      discriminate Hpos.
  - rewrite Hs, Hm, Ho. unfold classify.
    destruct (dd_hasAttendance d); [|done].
    destruct (Qlt_le_dec 0 _) as [|H1]; [done|].
    destruct (Qlt_le_dec 0 _) as [|H2]; [done|].
    intros _. split; apply Hzero; try done; lra.
  - rewrite Hs, Ho. unfold classify.
    destruct (dd_hasAttendance d); [|done].
    destruct (Qlt_le_dec 0 _) as [Hpos|H1].
    + intros _. apply Hzero; [done|]. intros Hpos'.
      apply Pm in Hpos. apply Po in Hpos'. lra.
    + by destruct (Qlt_le_dec 0 _).
  - rewrite Hs, Hm. unfold classify.
    destruct (dd_hasAttendance d); [|done].
    destruct (Qlt_le_dec 0 _) as [Hpos|H1]; [done|].
    destruct (Qlt_le_dec 0 _) as [Hpos|H2]; [|done].
    intros _. apply Hzero; [done|lra].
Qed.

Lemma calendar_day_status_reported_witness :
  records_of_day [Sample.second_short] Sample.monday <> [] /\
  dd_status (calendar_day [Sample.second_short] Sample.monday) = missing /\
  dd_status (calendar_day [Sample.night] Sample.monday) = complete /\
  dd_status (calendar_day [Sample.short_day] Sample.tuesday) = no_attendance.
Proof.
  assert (Hne : records_of_day [Sample.second_short] Sample.monday <> [])
    by (vm_compute; discriminate).
  assert (Hne' : records_of_day [Sample.night] Sample.monday <> [])
    by (vm_compute; discriminate).
  split; [exact Hne|]. split; [|split].
  - destruct (calendar_day_status_reported [Sample.second_short]
                Sample.monday) as (_ & H & _).
    destruct (H Hne) as (_ & Hmiss & _). apply Hmiss. by vm_compute.
  - destruct (calendar_day_status_reported [Sample.night] Sample.monday)
      as (_ & H & _).
    destruct (H Hne') as (_ & _ & _ & Hc). apply Hc.
    intros r Hr. vm_compute in Hr.
    apply list_elem_of_singleton in Hr. subst r. by vm_compute.
  - destruct (calendar_day_status_reported [Sample.short_day]
                Sample.tuesday) as (H & _).
    apply H. by vm_compute.
Defined.

(** The two worked examples of the classification: 09:05 to 16:40
    against 09:00-17:00, and a night shift worked in full. *)
Example short_day_is_missing :
  let d := calendar_day [Sample.short_day] Sample.monday in
  dd_expectedHours d == 8 /\ dd_actualHours d == 758 # 100 /\
  dd_missingHours d == 42 # 100 /\ dd_overtimeHours d == 0 /\
  dd_status d = missing.
Proof. by vm_compute. Qed.

Example night_shift_is_complete :
  let d := calendar_day [Sample.night] Sample.monday in
  dd_expectedHours d == 8 /\ dd_actualHours d == 8 /\
  dd_missingHours d == 0 /\ dd_overtimeHours d == 0 /\
  dd_status d = complete.
Proof. by vm_compute. Qed.

Example long_day_is_overtime :
  let d := calendar_day [Sample.long_day] Sample.monday in
  dd_overtimeHours d == 25 # 10 /\ dd_status d = overtime.
Proof. by vm_compute. Qed.

(** Above half a hundredth of an hour, the shortfall is reported as
    well. *)
Lemma reported_missing_positive
    (attendanceData : list AttendanceRecord) (date : Date) :
  let records := records_of_day attendanceData date in
  1 # 200 < fst (day_hours records) - snd (day_hours records) ->
  0 < dd_missingHours (calendar_day attendanceData date).
Proof.
  intros records H.
  destruct (calendar_day_fields attendanceData date) as (_ & _ & -> & _).
  apply round2_pos_of_ge. fold records.
  pose proof (Q.le_max_r 0 (fst (day_hours records) - snd (day_hours records))).
  lra.
Qed.

(** ** Records without a shift, records without a clock-out *)

(** C4, as the specification words it, fails: a record without a shift
    that spans 09:00 to 17:00 is alone on its day, yet the day reports no
    overtime and is classified complete. *)
Lemma shiftless_day_not_overtime :
  ~ (forall (attendanceData : list AttendanceRecord) (date : Date),
       let records := records_of_day attendanceData date in
       let d := calendar_day attendanceData date in
       (forall r, r ∈ records -> shift r = None) ->
       0 < Qsum (map clock_span records) ->
       dd_overtimeHours d == round2 (Qsum (map clock_span records)) /\
       dd_status d = overtime).
Proof.
  intros H.
  destruct (H [Sample.no_shift] Sample.monday) as [_ Hs].
  - intros r Hr. vm_compute in Hr.
    apply list_elem_of_singleton in Hr. by subst r.
  - by vm_compute.
  - vm_compute in Hs. discriminate Hs.
Qed.

Example shiftless_day_values :
  let d := calendar_day [Sample.no_shift] Sample.monday in
  clock_span Sample.no_shift == 8 /\
  dd_expectedHours d == 0 /\ dd_actualHours d == 0 /\
  dd_overtimeHours d == 0 /\ dd_status d = complete.
Proof. by vm_compute. Qed.

(** C4, amended: a record without a shift adds nothing to the expected
    hours and nothing to the actual hours; a day whose records all lack a
    shift has zero expected, actual, missing and overtime hours, and is
    classified complete as soon as it has a record. *)
Theorem shiftless_day_is_complete :
  (forall (record : AttendanceRecord) (acc : Q * Q),
     shift record = None ->
     day_step acc record = acc /\
     record_expected record == 0 /\ record_actual record == 0) /\
  (forall (attendanceData : list AttendanceRecord) (date : Date),
     let records := records_of_day attendanceData date in
     let d := calendar_day attendanceData date in
     (forall r, r ∈ records -> shift r = None) ->
     dd_expectedHours d == 0 /\ dd_actualHours d == 0 /\
     dd_missingHours d == 0 /\ dd_overtimeHours d == 0 /\
     (records <> [] -> dd_status d = complete)).
Proof.
  split.
  { intros record acc Hno. split; [by apply day_step_no_shift|].
    unfold record_expected, record_actual.
    by rewrite day_step_no_shift. }
  intros attendanceData date records d Hno.
  pose proof (day_hours_no_shift records Hno) as H0.
  destruct (calendar_day_fields attendanceData date)
    as (He & Ha & Hm & Ho & _).
  fold records in He, Ha, Hm, Ho. rewrite H0 in He, Ha, Hm, Ho.
  repeat split.
  - subst d. by rewrite He.
  - subst d. by rewrite Ha.
  - subst d. by rewrite Hm.
  - subst d. by rewrite Ho.
  - intros Hne.
    apply (calendar_day_status attendanceData date Hne); fold records;
      rewrite H0; by vm_compute.
Qed.

Lemma shiftless_day_is_complete_witness :
  record_expected Sample.no_shift == 0 /\
  dd_overtimeHours (calendar_day [Sample.no_shift] Sample.monday) == 0 /\
  dd_status (calendar_day [Sample.no_shift] Sample.monday) = complete.
Proof.
  assert (Hno : forall r,
             r ∈ records_of_day [Sample.no_shift] Sample.monday ->
             shift r = None).
  { intros r Hr. vm_compute in Hr.
    apply list_elem_of_singleton in Hr. by subst r. }
  destruct shiftless_day_is_complete as [H1 H2].
  destruct (H1 Sample.no_shift (0, 0) eq_refl) as (_ & He & _).
  destruct (H2 [Sample.no_shift] Sample.monday Hno)
    as (_ & _ & _ & Ho & Hs).
  split; [exact He|]. split; [exact Ho|].
  apply Hs. vm_compute. discriminate.
Defined.

(** C5: a record without a clock-out leaves the actual hours of the
    loops as they were, so the actual hours of its day are those of the
    other records; and whenever a record does change the actual hours, it
    has a clock-out and adds the span from its clock-in to it. *)
Theorem open_session_adds_no_actual_hours (record : AttendanceRecord) :
  (clock_out_time record = None ->
   (forall e a, snd (day_step (e, a) record) = a) /\
   (forall e a n, snd (fst (summary_step (e, a, n) record)) = a) /\
   record_actual record == 0 /\
   (forall before after,
      snd (day_hours (before ++ record :: after)) =
      snd (day_hours (before ++ after)))) /\
  (forall e a,
     snd (day_step (e, a) record) <> a ->
     exists out,
       clock_out_time record = Some out /\
       snd (day_step (e, a) record) =
       a + calculateHoursDifference (format_HH_mm (waktu record))
             (format_HH_mm out)).
Proof.
  split.
  - intros Hout. repeat split.
    + intros e a. by apply day_step_no_clock_out.
    + intros e a n. unfold summary_step. rewrite Hout.
      destruct (shift record) as [sh|]; [|done].
      by destruct (jam_masuk sh), (jam_keluar sh).
    + unfold record_actual. by rewrite day_step_no_clock_out.
    + intros before after. unfold day_hours.
      rewrite !fold_left_app. cbn [fold_left].
      destruct (fold_left day_step before (0, 0)) as [e a].
      destruct (day_step (e, a) record) as [e' a'] eqn:E.
      assert (a' = a) as ->.
      { change a' with (snd (e', a')). rewrite <- E.
        by apply day_step_no_clock_out. }
      apply day_fold_snd_indep.
  - intros e a. unfold day_step.
    destruct (shift record) as [sh|]; [|done].
    destruct (jam_masuk sh), (jam_keluar sh); try done.
    destruct (clock_out_time record) as [out|]; [|done].
    intros _. by exists out.
Qed.

Lemma open_session_adds_no_actual_hours_witness :
  clock_out_time Sample.open_session = None /\
  snd (day_hours [Sample.short_day; Sample.open_session]) =
  snd (day_hours [Sample.short_day]).
Proof.
  split; [reflexivity|].
  destruct (open_session_adds_no_actual_hours Sample.open_session)
    as [H _].
  destruct (H eq_refl) as (_ & _ & _ & Hd).
  exact (Hd [Sample.short_day] []).
Defined.

(** ** The per-user summary of the report *)

Section Summary.

Implicit Types (record : AttendanceRecord) (l : list AttendanceRecord).

(** The loop of the summary is the loop of a day, with a counter of the
    records that pass the shift test. *)
Lemma summary_step_day_step record (acc : Q * Q) (n : nat) :
  summary_step (acc, n) record =
  (day_step acc record, if has_complete_shift record then S n else n).
Proof.
  destruct acc as [e a]. unfold summary_step, day_step, has_complete_shift.
  destruct (shift record) as [sh|]; [|done].
  by destruct (jam_masuk sh), (jam_keluar sh), (clock_out_time record).
Qed.

Lemma summary_fold l (acc : Q * Q) (n : nat) :
  fold_left summary_step l (acc, n) =
  (fold_left day_step l acc,
   (n + length (List.filter has_complete_shift l))%nat).
Proof.
  revert acc n. induction l as [|r l IH]; intros acc n.
  - cbn [fold_left List.filter length]. by rewrite Nat.add_0_r.
  - cbn [fold_left List.filter]. rewrite summary_step_day_step, IH.
    destruct (has_complete_shift r); cbn [length]; f_equal; lia.
Qed.

Lemma summarize_fields (userId : string) l :
  let n := length (List.filter has_complete_shift l) in
  let expected := fst (day_hours l) in
  let actual := snd (day_hours l) in
  hs_userId (summarize userId l) = userId /\
  hs_workingDays (summarize userId l) = n /\
  hs_totalExpectedHours (summarize userId l) = round2 expected /\
  hs_totalActualHours (summarize userId l) = round2 actual /\
  hs_missingHours (summarize userId l) =
    round2 (Qmax 0 (expected - actual)) /\
  hs_overtimeHours (summarize userId l) =
    round2 (Qmax 0 (actual - expected)) /\
  hs_averageHoursPerDay (summarize userId l) =
    round2 (match n with
            | O => 0
            | S _ => actual / inject_Z (Z.of_nat n)
            end).
Proof.
  intros n expected actual. subst n expected actual.
  unfold summarize, day_hours. rewrite summary_fold.
  destruct (fold_left day_step l (0, 0)) as [e a].
  by cbn [fst snd Nat.add].
Qed.

Lemma summarize_exclusive (userId : string) l :
  ~ (0 < hs_missingHours (summarize userId l) /\
     0 < hs_overtimeHours (summarize userId l)).
Proof.
  destruct (summarize_fields userId l) as (_ & _ & _ & _ & Hm & Ho & _).
  rewrite Hm, Ho. intros [H1 H2].
  apply (Math_max0_exclusive (fst (day_hours l)) (snd (day_hours l))).
  split; by apply round2_pos.
Qed.

End Summary.

(** ** Grouping the rows by user *)

Section Grouping.

Implicit Types (g : list (string * list AttendanceRecord)).
Implicit Types (l : list AttendanceRecord) (k : string).

Lemma push_record_keys k (r : AttendanceRecord) g :
  map fst (push_record k r g) =
  if decide (k ∈ map fst g) then map fst g else map fst g ++ [k].
Proof.
  induction g as [|[k' rs] g IH]; cbn [push_record map fst app].
  - destruct (decide (k ∈ [])) as [H|H]; [by inversion H|done].
  - destruct (decide (k' = k)) as [->|Hne].
    + cbn [map fst]. destruct (decide (k ∈ k :: map fst g)) as [|H];
        [done|]. exfalso. apply H. left.
    + cbn [map fst]. rewrite IH.
      destruct (decide (k ∈ map fst g)) as [Hin|Hin];
        destruct (decide (k ∈ k' :: map fst g)) as [Hin'|Hin'];
        try done.
      * exfalso. apply Hin'. by right.
      * exfalso. apply elem_of_cons in Hin' as [->|?]; done.
Qed.

Lemma key_of_entry g k (rs : list AttendanceRecord) :
  (k, rs) ∈ g -> k ∈ map fst g.
Proof.
  induction g as [|[k' rs'] g IH]; intros H; [by inversion H|].
  apply elem_of_cons in H as [H|H].
  - inversion H; subst. left.
  - right. by apply IH.
Qed.

Lemma push_record_entries k (r : AttendanceRecord) g k' rs' :
  NoDup (map fst g) ->
  (k', rs') ∈ push_record k r g ->
  (k' <> k /\ (k', rs') ∈ g) \/
  (k' = k /\ exists rs, (k, rs) ∈ g /\ rs' = rs ++ [r]) \/
  (k' = k /\ (k ∉ map fst g) /\ rs' = [r]).
Proof.
  induction g as [|[k0 rs0] g IH]; cbn [push_record map fst];
    intros Hnd Hin.
  - apply list_elem_of_singleton in Hin. inversion Hin; subst.
    right; right. repeat split. by inversion 1.
  - apply NoDup_cons in Hnd as [Hk0 Hnd].
    destruct (decide (k0 = k)) as [->|Hne].
    + apply elem_of_cons in Hin as [Hin|Hin].
      * inversion Hin; subst. right; left. split; [done|].
        exists rs0. split; [left|done].
      * left. split; [|by right].
        intros ->. apply Hk0. by apply key_of_entry in Hin.
    + apply elem_of_cons in Hin as [Hin|Hin].
      * inversion Hin; subst. left. split; [done|left].
      * destruct (IH Hnd Hin) as [[? ?]|[[-> (rs & ? & ->)]|[-> [? ->]]]].
        -- left. split; [done|by right].
        -- right; left. split; [done|]. exists rs. split; [by right|done].
        -- right; right. split; [done|]. split; [|done].
           intros H'. apply elem_of_cons in H' as [?|?]; by subst.
Qed.

Lemma filter_user_none l k :
  (forall r, r ∈ l -> user_id r <> k) ->
  filter (fun r => user_id r = k) l = [].
Proof.
  induction l as [|r l IH]; intros H; [done|].
  rewrite filter_cons_False; [|apply H; left].
  apply IH. intros r' Hr'. apply H. by right.
Qed.

Lemma grouped_push l g (r : AttendanceRecord) :
  grouped l g -> grouped (l ++ [r]) (push_record (user_id r) r g).
Proof.
  intros (Hnd & Hent & Hkeys). split; [|split].
  - rewrite push_record_keys. destruct (decide _) as [|Hout]; [done|].
    apply NoDup_app. split; [done|]. split; [|apply NoDup_singleton].
    intros x Hx Hx'. apply list_elem_of_singleton in Hx'. by subst.
  - intros k rs H. rewrite filter_app.
    destruct (push_record_entries _ _ _ _ _ Hnd H)
      as [[Hne Hin]|[[-> (rs0 & Hin & ->)]|[-> [Hout ->]]]].
    + destruct (Hent _ _ Hin) as [<- Hrs]. split; [|done].
      rewrite (filter_cons_False _ r []); [|by intros ?].
      by rewrite filter_nil, app_nil_r.
    + destruct (Hent _ _ Hin) as [<- Hrs]. split; [|by destruct rs0].
      by rewrite (filter_cons_True _ r []), filter_nil.
    + split; [|done].
      rewrite (filter_cons_True _ r []), filter_nil; [|done].
      rewrite filter_user_none; [done|].
      intros r0 Hr0 Heq. apply Hout. rewrite <- Heq. by apply Hkeys.
  - intros r0 Hr0. rewrite push_record_keys.
    apply elem_of_app in Hr0 as [Hr0|Hr0].
    + destruct (decide _); [by apply Hkeys|].
      apply elem_of_app. left. by apply Hkeys.
    + apply list_elem_of_singleton in Hr0 as ->.
      destruct (decide _) as [|Hout]; [done|].
      apply elem_of_app. right. left.
Qed.

Lemma grouped_fold l2 : forall l1 g,
  grouped l1 g ->
  grouped (l1 ++ l2)
    (fold_left (fun acc record => push_record (user_id record) record acc)
       l2 g).
Proof.
  induction l2 as [|r l2 IH]; intros l1 g H.
  - by rewrite app_nil_r.
  - cbn [fold_left].
    replace (l1 ++ r :: l2) with ((l1 ++ [r]) ++ l2)
      by (by rewrite <- app_assoc).
    apply IH. by apply grouped_push.
Qed.

Lemma group_by_user_grouped l : grouped l (group_by_user l).
Proof.
  apply (grouped_fold l [] []). split; [constructor|].
  split; [intros k rs H|intros r H]; inversion H.
Qed.

Lemma Map_set_fresh k (v : HoursSummary) (m : list (string * HoursSummary)) :
  k ∉ map fst m -> Map_set k v m = m ++ [(k, v)].
Proof.
  induction m as [|[k' v'] m IH]; cbn [Map_set map fst app]; [done|].
  intros Hk. destruct (decide (k' = k)) as [->|Hne].
  - exfalso. apply Hk. left.
  - rewrite IH; [done|]. intros H. apply Hk. by right.
Qed.

Lemma Map_set_fold g : forall m : list (string * HoursSummary),
  NoDup (map fst m ++ map fst g) ->
  fold_left
    (fun m entry => Map_set (fst entry) (summarize (fst entry) (snd entry)) m)
    g m =
  m ++ map (fun entry => (fst entry, summarize (fst entry) (snd entry))) g.
Proof.
  induction g as [|[k rs] g IH]; intros m Hnd.
  - by rewrite app_nil_r.
  - cbn [fold_left map fst snd] in *.
    apply NoDup_app in Hnd as (Hm & Hdisj & Hg).
    apply NoDup_cons in Hg as [Hk Hg].
    rewrite Map_set_fresh.
    2:{ intros H. apply (Hdisj k H). left. }
    rewrite IH.
    + by rewrite <- app_assoc.
    + rewrite map_app. cbn [map fst]. rewrite <- app_assoc.
      apply NoDup_app. repeat split; [done| |by apply NoDup_cons].
      intros x Hx. apply (Hdisj x Hx).
Qed.

(** [Object.entries] lists every entry, once. *)
Lemma insert_by_index_perm {A : Type} (n : Z) (entry : A)
    (es : list (Z * A)) :
  insert_by_index n entry es ≡ₚ (n, entry) :: es.
Proof.
  induction es as [|[m entry'] es IH]; cbn [insert_by_index]; [done|].
  destruct (n <? m)%Z; [done|].
  rewrite IH. apply perm_swap.
Qed.

Lemma index_entries_perm {A : Type} (obj : list (string * A)) :
  map snd (index_entries obj) ≡ₚ
  List.filter (fun entry => is_array_index (fst entry)) obj.
Proof.
  induction obj as [|entry obj IH]; [done|].
  cbn [index_entries foldr List.filter]. fold (index_entries obj).
  unfold is_array_index at 1.
  destruct (array_index (fst entry)) as [n|]; [|done].
  rewrite insert_by_index_perm. cbn [map snd]. by rewrite IH.
Qed.

Lemma filter_negb_perm {A : Type} (f : A -> bool) (xs : list A) :
  List.filter f xs ++ List.filter (fun x => negb (f x)) xs ≡ₚ xs.
Proof.
  induction xs as [|x xs IH]; [done|].
  cbn [List.filter]. destruct (f x); cbn [negb app].
  - by rewrite IH.
  - rewrite <- Permutation_middle. by rewrite IH.
Qed.

Lemma Object_entries_perm {A : Type} (obj : list (string * A)) :
  Object_entries obj ≡ₚ obj.
Proof.
  unfold Object_entries. rewrite index_entries_perm.
  apply (filter_negb_perm (fun entry => is_array_index (fst entry))).
Qed.

(** The report holds one summary per user id, in the order in which
    [Object.entries] lists the user ids. *)
Lemma calculateHoursSummary_map l :
  calculateHoursSummary l =
  map (fun entry => summarize (fst entry) (snd entry))
    (Object_entries (group_by_user l)).
Proof.
  unfold calculateHoursSummary.
  destruct (group_by_user_grouped l) as (Hnd & _).
  rewrite Map_set_fold.
  - cbn [app]. by rewrite map_map.
  - cbn [map app]. by rewrite Object_entries_perm.
Qed.

Lemma calculateHoursSummary_elem l (s : HoursSummary) :
  s ∈ calculateHoursSummary l ->
  s = summarize (hs_userId s)
        (filter (fun r => user_id r = hs_userId s) l) /\
  filter (fun r => user_id r = hs_userId s) l <> [].
Proof.
  rewrite calculateHoursSummary_map. intros H.
  apply list_elem_of_In, in_map_iff in H as ([k rs] & <- & Hin).
  apply list_elem_of_In in Hin. rewrite Object_entries_perm in Hin.
  destruct (group_by_user_grouped l) as (_ & Hent & _).
  destruct (Hent _ _ Hin) as [Hrs Hne]. cbn [fst snd].
  destruct (summarize_fields k rs) as (Hid & _). rewrite Hid.
  by rewrite <- Hrs.
Qed.

End Grouping.

(** ** Claims on the summary *)

(** C2: in every day aggregate of the calendar view and in every
    per-user summary of the report, the missing hours are the rounded
    [max(0, expected - actual)], the overtime hours the rounded
    [max(0, actual - expected)], and the two are never both positive,
    neither before nor after rounding. *)
Theorem missing_overtime_exclusive :
  (forall (attendanceData : list AttendanceRecord) (date : Date),
     let d := calendar_day attendanceData date in
     let expected := fst (day_hours (records_of_day attendanceData date)) in
     let actual := snd (day_hours (records_of_day attendanceData date)) in
     dd_missingHours d = round2 (Qmax 0 (expected - actual)) /\
     dd_overtimeHours d = round2 (Qmax 0 (actual - expected)) /\
     ~ (0 < Qmax 0 (expected - actual) /\ 0 < Qmax 0 (actual - expected)) /\
     ~ (0 < dd_missingHours d /\ 0 < dd_overtimeHours d)) /\
  (forall (userId : string) (records : list AttendanceRecord),
     let s := summarize userId records in
     let expected := fst (day_hours records) in
     let actual := snd (day_hours records) in
     hs_missingHours s = round2 (Qmax 0 (expected - actual)) /\
     hs_overtimeHours s = round2 (Qmax 0 (actual - expected)) /\
     ~ (0 < hs_missingHours s /\ 0 < hs_overtimeHours s)).
Proof.
  split.
  - intros attendanceData date d expected actual.
    destruct (calendar_day_fields attendanceData date)
      as (_ & _ & Hm & Ho & _).
    destruct (calendar_day_exclusive attendanceData date) as [H1 H2].
    done.
  - intros userId records s expected actual.
    destruct (summarize_fields userId records)
      as (_ & _ & _ & _ & Hm & Ho & _).
    pose proof (summarize_exclusive userId records).
    done.
Qed.

(** C10: the [workingDays] of a summary is the number of the user's rows
    that carry a shift with both times, whatever their days: two such
    rows of one day count twice, a row without a complete shift counts
    for nothing, and that number divides the actual hours in
    [averageHoursPerDay]. *)
Theorem workingDays_counts_shift_records :
  (forall (attendanceData : list AttendanceRecord) (s : HoursSummary),
     s ∈ calculateHoursSummary attendanceData ->
     let records :=
       filter (fun r => user_id r = hs_userId s) attendanceData in
     let n := length (List.filter has_complete_shift records) in
     hs_workingDays s = n /\
     hs_averageHoursPerDay s =
       round2 (match n with
               | O => 0
               | S _ => snd (day_hours records) / inject_Z (Z.of_nat n)
               end)) /\
  (forall (userId : string) (r1 r2 : AttendanceRecord),
     ts_date (waktu r1) = ts_date (waktu r2) ->
     has_complete_shift r1 = true -> has_complete_shift r2 = true ->
     hs_workingDays (summarize userId [r1; r2]) = 2%nat) /\
  (forall (userId : string) (r : AttendanceRecord),
     has_complete_shift r = false ->
     hs_workingDays (summarize userId [r]) = 0%nat).
Proof.
  split; [|split].
  - intros attendanceData s Hs.
    destruct (calculateHoursSummary_elem attendanceData s Hs) as [Heq _].
    revert Heq. generalize (hs_userId s). intros k -> records n.
    destruct (summarize_fields k records)
      as (_ & Hn & _ & _ & _ & _ & Havg).
    by split.
  - intros userId r1 r2 _ H1 H2.
    destruct (summarize_fields userId [r1; r2]) as (_ & -> & _).
    cbn [List.filter]. by rewrite H1, H2.
  - intros userId r H.
    destruct (summarize_fields userId [r]) as (_ & -> & _).
    cbn [List.filter]. by rewrite H.
Qed.

Lemma workingDays_counts_shift_records_witness :
  hs_workingDays (summarize "u1" [Sample.short_day; Sample.long_day]) = 2%nat /\
  hs_workingDays (summarize "u1" [Sample.no_shift]) = 0%nat /\
  hs_workingDays
    (summarize "u1" [Sample.short_day; Sample.long_day; Sample.no_shift]) =
  2%nat.
Proof.
  destruct workingDays_counts_shift_records as (H1 & H2 & H0).
  split; [apply H2; reflexivity|].
  split; [apply H0; reflexivity|].
  apply (H1 [Sample.short_day; Sample.long_day; Sample.no_shift]).
  vm_compute. left.
Defined.

Example summary_two_rows_one_day :
  map (fun s => (hs_workingDays s, hs_totalActualHours s,
                 hs_averageHoursPerDay s))
    (calculateHoursSummary
       [Sample.short_day; Sample.long_day; Sample.no_shift]) =
  [(2%nat, 18.08, 9.04)].
Proof. by vm_compute. Qed.

(** ** The loop over the working days of the grid *)

Section GridLoop.

Variable userAttendance : list AttendanceRecord.

Implicit Types (acc : GridAcc) (date : Date) (days : list Date).

Lemma grid_day_step_absent acc date :
  records_of_day userAttendance date = [] ->
  grid_totals (grid_day_step userAttendance acc date) = grid_totals acc.
Proof.
  intros H. unfold grid_day_step. rewrite H.
  by cbn [day_hours fold_left length Nat.eqb negb].
Qed.

Lemma grid_day_step_present acc date :
  records_of_day userAttendance date <> [] ->
  let records := records_of_day userAttendance date in
  let expected := fst (day_hours records) in
  let actual := snd (day_hours records) in
  grid_totals (grid_day_step userAttendance acc date) =
  (ga_totalMissingHours acc + Qmax 0 (expected - actual),
   ga_totalExpectedHours acc + expected,
   ga_totalActualHours acc + actual,
   S (ga_workingDaysCount acc)).
Proof.
  intros H records expected actual. subst expected actual records.
  unfold grid_day_step.
  apply has_attendance_true in H. rewrite H.
  by destruct (day_hours (records_of_day userAttendance date)).
Qed.

(** The cells never feed the totals. *)
Lemma grid_day_step_totals acc1 acc2 date :
  grid_totals acc1 = grid_totals acc2 ->
  grid_totals (grid_day_step userAttendance acc1 date) =
  grid_totals (grid_day_step userAttendance acc2 date).
Proof.
  intros H. unfold grid_totals in H. injection H as Hm He Ha Hn.
  unfold grid_day_step.
  destruct (day_hours (records_of_day userAttendance date)) as [e a].
  destruct (negb _); unfold grid_totals; cbn; by rewrite Hm, He, Ha, Hn.
Qed.

Lemma grid_fold_totals days acc1 acc2 :
  grid_totals acc1 = grid_totals acc2 ->
  grid_totals (fold_left (grid_day_step userAttendance) days acc1) =
  grid_totals (fold_left (grid_day_step userAttendance) days acc2).
Proof.
  revert acc1 acc2. induction days as [|date days IH]; intros acc1 acc2 H;
    [done|].
  cbn [fold_left]. apply IH. by apply grid_day_step_totals.
Qed.

Lemma grid_fold_skip days1 date days2 acc :
  records_of_day userAttendance date = [] ->
  grid_totals
    (fold_left (grid_day_step userAttendance) (days1 ++ date :: days2) acc) =
  grid_totals
    (fold_left (grid_day_step userAttendance) (days1 ++ days2) acc).
Proof.
  intros H. rewrite !fold_left_app. cbn [fold_left].
  apply grid_fold_totals. by apply grid_day_step_absent.
Qed.

Lemma grid_fold_count days acc :
  ga_workingDaysCount (fold_left (grid_day_step userAttendance) days acc) =
  (ga_workingDaysCount acc +
   length (days_with_attendance userAttendance days))%nat.
Proof.
  revert acc. induction days as [|date days IH]; intros acc.
  - cbn. lia.
  - cbn [fold_left]. rewrite IH. unfold days_with_attendance.
    cbn [List.filter]. unfold grid_day_step.
    destruct (day_hours (records_of_day userAttendance date)) as [e a].
    destruct (negb _); cbn; lia.
Qed.

Lemma Qmax0_zero : Qmax 0 (0 - 0) == 0.
Proof. by vm_compute. Qed.

(** The totals are the full-precision sums over the rows of the days. *)
Lemma grid_fold_sums days acc :
  let final := fold_left (grid_day_step userAttendance) days acc in
  let aggregated := flat_map (records_of_day userAttendance) days in
  ga_totalExpectedHours final ==
    ga_totalExpectedHours acc + Qsum (map record_expected aggregated) /\
  ga_totalActualHours final ==
    ga_totalActualHours acc + Qsum (map record_actual aggregated) /\
  ga_totalMissingHours final ==
    ga_totalMissingHours acc +
    Qsum (map (day_missing userAttendance) days).
Proof.
  revert acc. induction days as [|date days IH]; intros acc.
  - cbn. unfold Qsum; cbn [foldr]. repeat split; lra.
  - cbn [fold_left flat_map map]. cbn zeta in IH |- *.
    destruct (IH (grid_day_step userAttendance acc date))
      as (IHe & IHa & IHm).
    rewrite IHe, IHa, IHm. clear IH IHe IHa IHm.
    rewrite !map_app, !Qsum_app.
    destruct (day_hours_sums (records_of_day userAttendance date))
      as [He Ha].
    assert (Hmiss :
      Qmax 0 (fst (day_hours (records_of_day userAttendance date)) -
              snd (day_hours (records_of_day userAttendance date)))
      == day_missing userAttendance date).
    { unfold day_missing. by rewrite He, Ha. }
    change (Qsum (day_missing userAttendance date ::
                  map (day_missing userAttendance) days))
      with (day_missing userAttendance date +
            Qsum (map (day_missing userAttendance) days)).
    destruct (records_of_day userAttendance date) as [|r rs] eqn:E.
    + pose proof (grid_day_step_absent acc date E) as Ht.
      unfold grid_totals in Ht. injection Ht as -> -> -> _.
      assert (Hd0 : day_missing userAttendance date == 0)
        by (unfold day_missing; rewrite E; apply Qmax0_zero).
      rewrite Hd0. cbn [map]. change (Qsum []) with 0.
      repeat split; lra.
    + assert (Hne : records_of_day userAttendance date <> [])
        by (by rewrite E).
      pose proof (grid_day_step_present acc date Hne) as Ht.
      cbn zeta in Ht. rewrite E in Ht.
      unfold grid_totals in Ht. injection Ht as -> -> -> _.
      rewrite <- Hmiss, He, Ha. repeat split; lra.
Qed.

End GridLoop.

(** ** Claims on the totals *)

Lemma Qsum_flat_map {A B : Type} (f : B -> Q) (g : A -> list B)
    (l : list A) :
  Qsum (map f (flat_map g l)) == Qsum (map (fun x => Qsum (map f (g x))) l).
Proof.
  induction l as [|x l IH]; [reflexivity|].
  cbn [flat_map map]. rewrite map_app, Qsum_app, IH. reflexivity.
Qed.







(** The clock times enter the durations in hours and minutes: a clock-in
    at 09:00:59 counts as 09:00. *)
Example clock_seconds_are_cut :
  let row := mkRecord "u1" None (Sample.at_ Sample.monday 9 0 59)
               (Some (Sample.at_ Sample.monday 17 0 0))
               (Some Sample.day_shift) in
  Spec.actual_duration row == 8 /\ record_actual row == 8.
Proof. by vm_compute. Qed.

(** Three rows of twenty scheduled minutes each: the total is 1.00, not
    the 0.99 that rounding each row first would give. *)
Example twenty_minutes_thrice :
  let shift20 :=
    mkShift "Singkat" (Some (mkTime 9 0 0)) (Some (mkTime 9 20 0)) in
  let row (d : Date) :=
    mkRecord "u1" None (Sample.at_ d 9 0 0) None (Some shift20) in
  let rows := [row (mkDate 2024 7 1); row (mkDate 2024 7 2);
               row (mkDate 2024 7 3)] in
  let days := workingDaysInMonth (mkDate 2024 7 1) in
  totalExpectedHours (grid_user rows days (mkProfile "u1" "Ana")) == 1 /\
  map hs_totalExpectedHours (calculateHoursSummary rows) = [1.00] /\
  Qsum (map (fun r => round2 (record_expected r)) rows) == 99 # 100.
Proof. by vm_compute. Qed.

(** The statistics card of the calendar view is another matter: it adds
    the day values after they were rounded (and shows one decimal), so
    the same three rows give 0.99 there. *)
Example monthlyStats_adds_rounded_days :
  let shift20 :=
    mkShift "Singkat" (Some (mkTime 9 0 0)) (Some (mkTime 9 20 0)) in
  let row (d : Date) :=
    mkRecord "u1" None (Sample.at_ d 9 0 0) None (Some shift20) in
  let rows := [row (mkDate 2024 7 1); row (mkDate 2024 7 2);
               row (mkDate 2024 7 3)] in
  let st := fetchCalendarData
              (mkCalendarState (mkDate 2024 7 1) [] true "u1")
              (mkReply (Some rows) None) in
  ms_totalExpected (monthlyStats st) == 99 # 100 /\
  ms_workingDays (monthlyStats st) = 3%nat.
Proof. by vm_compute. Qed.

(** C7: in the grid, a working day on which the user has no row leaves
    the running totals and the count of worked days as they were; the
    monthly figures are those of the month without that day, and
    [workingDays] counts the days that hold at least one row. *)
Theorem absent_day_adds_nothing
    (attendanceData : list AttendanceRecord) (user : Profile)
    (before : list Date) (date : Date) (after : list Date) :
  let userAttendance := user_attendance attendanceData user in
  let u := grid_user attendanceData (before ++ date :: after) user in
  let u' := grid_user attendanceData (before ++ after) user in
  records_of_day userAttendance date = [] ->
  (forall acc,
     grid_totals (grid_day_step userAttendance acc date) = grid_totals acc) /\
  totalExpectedHours u = totalExpectedHours u' /\
  totalActualHours u = totalActualHours u' /\
  totalMissingHours u = totalMissingHours u' /\
  workingDays u = workingDays u' /\
  workingDays u =
    length (days_with_attendance userAttendance (before ++ date :: after)).
Proof.
  intros userAttendance u u' Hnil.
  split; [intros acc; by apply grid_day_step_absent|].
  pose proof (grid_fold_skip userAttendance before date after grid_init Hnil)
    as Hskip.
  unfold grid_totals in Hskip. injection Hskip as Hm He Ha Hn.
  subst u u'. unfold grid_user, grid_loop. fold userAttendance.
  cbn [totalExpectedHours totalActualHours totalMissingHours workingDays].
  rewrite Hm, He, Ha, Hn. repeat split.
  rewrite <- Hn. by rewrite grid_fold_count.
Qed.

Lemma absent_day_adds_nothing_witness :
  let ana := mkProfile "u1" "Ana" in
  records_of_day (user_attendance [Sample.short_day] ana) Sample.tuesday = [] /\
  workingDays
    (grid_user [Sample.short_day] ([Sample.monday] ++ Sample.tuesday :: [])
       ana) =
  workingDays (grid_user [Sample.short_day] ([Sample.monday] ++ []) ana).
Proof.
  intros ana.
  assert (Hnil :
    records_of_day (user_attendance [Sample.short_day] ana)
      Sample.tuesday = []) by (by vm_compute).
  split; [exact Hnil|].
  apply (absent_day_adds_nothing [Sample.short_day] ana
           [Sample.monday] Sample.tuesday [] Hnil).
Defined.

(** ** The working days of a month *)


Section WorkingDays.

Local Open Scope Z_scope.

Lemma getDaysInMonth_range (y m : Z) : 28 <= getDaysInMonth y m <= 31.
Proof.
  unfold getDaysInMonth.
  destruct (m =? 2); [destruct (isLeapYear y); lia|].
  destruct ((m =? 4) || (m =? 6) || (m =? 9) || (m =? 11))%bool; lia.
Qed.

(** Within a month the day number grows with the day of the month. *)
Lemma days_from_civil_day (y m d : Z) :
  days_from_civil (mkDate y m d) = days_from_civil (mkDate y m 1) + (d - 1).
Proof. unfold days_from_civil. cbn [year month day]. lia. Qed.

Lemma days_from_month (n : nat) (y m d : Z) :
  1 <= d -> d + Z.of_nat n - 1 <= getDaysInMonth y m ->
  days_from n (mkDate y m d) =
  map (fun i => mkDate y m (d + Z.of_nat i)) (seq 0 n).
Proof.
  revert d. induction n as [|n IH]; intros d Hd Hn; [done|].
  cbn [days_from seq map]. rewrite Z.add_0_r. f_equal.
  unfold addDay. cbn [year month day].
  destruct (Z.ltb_spec d (getDaysInMonth y m)) as [Hlt|Hge].
  - rewrite IH by lia. rewrite <- seq_shift, map_map.
    apply map_ext. intros i. f_equal. lia.
  - assert (n = 0%nat) as -> by lia. done.
Qed.

Lemma eachDayOfInterval_month (currentMonth : Date) :
  eachDayOfInterval (startOfMonth currentMonth) (endOfMonth currentMonth) =
  map (fun i => mkDate (year currentMonth) (month currentMonth)
                  (1 + Z.of_nat i))
    (seq 0 (Z.to_nat
              (getDaysInMonth (year currentMonth) (month currentMonth)))).
Proof.
  unfold eachDayOfInterval, startOfMonth, endOfMonth.
  generalize (year currentMonth) (month currentMonth). intros y m.
  pose proof (getDaysInMonth_range y m).
  rewrite (days_from_civil_day _ _ (getDaysInMonth _ _)).
  replace (days_from_civil (mkDate y m 1) + (getDaysInMonth y m - 1) -
           days_from_civil (mkDate y m 1) + 1)
    with (getDaysInMonth y m) by lia.
  apply days_from_month; lia.
Qed.

Lemma allDays_elem (currentMonth d : Date) :
  d ∈ eachDayOfInterval (startOfMonth currentMonth) (endOfMonth currentMonth)
  <-> in_month currentMonth d.
Proof.
  rewrite eachDayOfInterval_month, list_elem_of_In, in_map_iff.
  unfold in_month. split.
  - intros (i & <- & Hi). apply in_seq in Hi. cbn [year month day]. lia.
  - intros (Hy & Hm & Hd). exists (Z.to_nat (day d - 1)). split.
    + destruct d as [y m dd]. cbn [year month day] in *. subst.
      f_equal. lia.
    + apply in_seq. lia.
Qed.

Lemma allDays_sorted (currentMonth : Date) :
  StronglySorted (fun a b => days_from_civil a < days_from_civil b)
    (eachDayOfInterval (startOfMonth currentMonth) (endOfMonth currentMonth)).
Proof.
  rewrite eachDayOfInterval_month.
  generalize
    (Z.to_nat (getDaysInMonth (year currentMonth) (month currentMonth))).
  generalize 0%nat.
  intros s n. revert s. induction n as [|n IH]; intros s; cbn [seq map].
  - constructor.
  - constructor; [apply IH|].
    apply Forall_forall. intros x Hx.
    apply list_elem_of_In, in_map_iff in Hx as (i & <- & Hi).
    apply in_seq in Hi.
    rewrite (days_from_civil_day _ _ (1 + Z.of_nat s)),
      (days_from_civil_day _ _ (1 + Z.of_nat i)). lia.
Qed.

Lemma StronglySorted_filter {A : Type} (R : A -> A -> Prop)
    (f : A -> bool) (l : list A) :
  StronglySorted R l -> StronglySorted R (List.filter f l).
Proof.
  induction 1 as [|x l Hs IH Hx]; cbn [List.filter]; [constructor|].
  destruct (f x); [|done].
  constructor; [done|].
  apply Forall_forall. intros y Hy.
  apply list_elem_of_In, filter_In in Hy as [Hy _].
  rewrite Forall_forall in Hx. apply Hx. by apply list_elem_of_In.
Qed.

Lemma isWeekend_false (d : Date) :
  negb (isWeekend d) = true <-> getDay d <> 6 /\ getDay d <> 0.
Proof.
  unfold isWeekend.
  destruct (Z.eqb_spec (getDay d) 0), (Z.eqb_spec (getDay d) 6);
    cbn; split; try done; lia.
Qed.

(** The day number and the weekday follow the succession of the days,
    across the ends of months and years and over leap days. *)
Lemma getDaysInMonth_cases (y m : Z) :
  getDaysInMonth y m =
  if m =? 2 then
    if y mod 4 =? 0 then
      if y mod 100 =? 0 then if y mod 400 =? 0 then 29 else 28 else 29
    else 28
  else if m =? 4 then 30 else if m =? 6 then 30 else if m =? 9 then 30
  else if m =? 11 then 30 else 31.
Proof.
  assert ((y mod 400) mod 4 = y mod 4) as H1
    by (apply Z.mod_mod_divide; exists 100; lia).
  unfold getDaysInMonth, isLeapYear.
  destruct (m =? 2).
  - destruct (Z.eqb_spec (y mod 4) 0), (Z.eqb_spec (y mod 100) 0),
      (Z.eqb_spec (y mod 400) 0); cbn; try reflexivity.
    all: match goal with H : _ mod 400 = 0 |- _ => rewrite H in H1 end;
      rewrite Zmod_0_l in H1; congruence.
  - by destruct (m =? 4), (m =? 6), (m =? 9), (m =? 11).
Qed.

Lemma days_from_civil_addDay (d : Date) :
  valid_date d -> days_from_civil (addDay d) = days_from_civil d + 1.
Proof.
  destruct d as [y m dd]. unfold valid_date, valid_month, addDay.
  cbn [year month day]. rewrite getDaysInMonth_cases. intros [Hm Hd].
  assert (m = 1 \/ m = 2 \/ m = 3 \/ m = 4 \/ m = 5 \/ m = 6 \/
          m = 7 \/ m = 8 \/ m = 9 \/ m = 10 \/ m = 11 \/ m = 12)
    as Hcases by lia.
  destruct Hcases
    as [->|[->|[->|[->|[->|[->|[->|[->|[->|[->|[->| ->]]]]]]]]]]];
    split_ifs; try lia;
    unfold days_from_civil; cbn [year month day]; split_ifs; try lia;
    Z.div_mod_to_equations; lia.
Qed.

Lemma getDay_addDay (d : Date) :
  valid_date d -> getDay (addDay d) = (getDay d + 1) mod 7.
Proof.
  intros H. unfold getDay. rewrite (days_from_civil_addDay d H).
  Z.div_mod_to_equations; lia.
Qed.

(** C8: the working days of the grid are exactly the days of the month
    that are neither a Saturday nor a Sunday, each once and in calendar
    order; nothing else is excluded. *)
Theorem workingDaysInMonth_weekdays (currentMonth : Date) :
  (forall d : Date,
     d ∈ workingDaysInMonth currentMonth <->
     in_month currentMonth d /\ getDay d <> 6 /\ getDay d <> 0) /\
  StronglySorted (fun a b => days_from_civil a < days_from_civil b)
    (workingDaysInMonth currentMonth).
Proof.
  unfold workingDaysInMonth. split.
  - intros d. rewrite list_elem_of_In, filter_In, <- list_elem_of_In.
    by rewrite allDays_elem, isWeekend_false.
  - apply StronglySorted_filter, allDays_sorted.
Qed.

Example workingDays_february_2025 :
  map day (workingDaysInMonth (mkDate 2025 2 10)) =
  [3; 4; 5; 6; 7; 10; 11; 12; 13; 14; 17; 18; 19; 20; 21; 24; 25; 26; 27; 28].
Proof. reflexivity. Qed.

End WorkingDays.

(** ** Failed fetches *)

Section FailedFetch.

(** C9: when a query answers with an error, the aggregate data shown
    before ([calendarData], [gridData], and the rows and summaries of
    the report) is the aggregate data held afterwards: the error branch
    returns without writing it. *)
Theorem failed_fetch_keeps_data :
  (forall (st : CalendarState) (reply : Reply (list AttendanceRecord)),
     error reply <> None ->
     cs_calendarData (fetchCalendarData st reply) = cs_calendarData st) /\
  (forall (st : GridState) (usersReply : Reply (list Profile))
          (attendanceReply : Reply (list AttendanceRecord)),
     error usersReply <> None \/ error attendanceReply <> None ->
     gs_gridData (fetchGridData st usersReply attendanceReply) =
     gs_gridData st) /\
  (forall (st : ReportsState) (reply : Reply (list AttendanceRecord)),
     error reply <> None ->
     rs_attendance (fetchAttendanceData st reply) = rs_attendance st /\
     rs_hoursSummary (fetchAttendanceData st reply) = rs_hoursSummary st).
Proof.
  split; [|split].
  - intros st reply Herr. unfold fetchCalendarData.
    destruct (_ || _); [done|].
    by destruct (error reply).
  - intros st usersReply attendanceReply Herr. unfold fetchGridData.
    destruct (error usersReply), (data usersReply); try done.
    destruct (error attendanceReply); [done|].
    by destruct Herr.
  - intros st reply Herr. unfold fetchAttendanceData.
    by destruct (error reply), (data reply).
Qed.

Lemma failed_fetch_keeps_data_witness :
  let shown := [calendar_day [Sample.short_day] Sample.monday] in
  let st := mkCalendarState Sample.monday shown false "u1" in
  cs_calendarData
    (fetchCalendarData st (mkReply None (Some "timeout"%string))) = shown.
Proof.
  intros shown st.
  destruct failed_fetch_keeps_data as [H _].
  apply (H st (mkReply None (Some "timeout"%string))). discriminate.
Defined.

(** What a failed fetch does write: the loading flag, and in the grid
    the columns, which are set before the first query is sent. *)
Lemma failed_fetch_grid_columns (st : GridState)
    (usersReply : Reply (list Profile))
    (attendanceReply : Reply (list AttendanceRecord)) :
  error usersReply <> None \/ error attendanceReply <> None ->
  gs_workingDays (fetchGridData st usersReply attendanceReply) =
    workingDaysInMonth (gs_currentMonth st) /\
  gs_loading (fetchGridData st usersReply attendanceReply) = false.
Proof.
  intros Herr. unfold fetchGridData.
  destruct (error usersReply), (data usersReply); try done.
  destruct (error attendanceReply); [done|].
  by destruct Herr.
Qed.

Lemma failed_fetch_calendar_loading (st : CalendarState)
    (reply : Reply (list AttendanceRecord)) :
  error reply <> None ->
  cs_selectedUser st <> ""%string -> cs_selectedUser st <> "all"%string ->
  cs_loading (fetchCalendarData st reply) = false.
Proof.
  intros Herr H1 H2. unfold fetchCalendarData.
  rewrite !bool_decide_eq_false_2 by done. cbn [orb].
  by destruct (error reply).
Qed.

Example failed_fetch_first_load :
  let st := mkGridState Sample.monday [] [] true in
  let st' := fetchGridData st (mkReply None (Some "timeout"%string))
               (mkReply None None) in
  gs_gridData st' = [] /\ gs_loading st' = false /\
  length (gs_workingDays st') = 23%nat.
Proof. by vm_compute. Qed.

(** A fetch for the next month that fails: the columns are those of
    August, the cells those of July, and no July cell answers an August
    column. *)
Example failed_fetch_after_month_change :
  let ana := mkProfile "u1" "Ana" in
  let july := workingDaysInMonth Sample.monday in
  let shown := [grid_user [Sample.short_day] july ana] in
  let st := mkGridState (mkDate 2024 8 1) shown july false in
  let st' := fetchGridData st (mkReply (Some [ana]) None)
               (mkReply None (Some "timeout"%string)) in
  gs_gridData st' = shown /\
  head (gs_workingDays st') = Some (mkDate 2024 8 1) /\
  (forall u, u ∈ gs_gridData st' ->
             dailyData u !! format_yyyy_MM_dd (mkDate 2024 8 1) = None).
Proof.
  intros ana july shown st st'. split; [reflexivity|].
  split; [reflexivity|].
  intros u Hu. apply list_elem_of_singleton in Hu. subst u.
  by vm_compute.
Qed.

End FailedFetch.

(** * Further properties of the components *)

(** ** Bounds on hours *)

Section Bounds.

Lemma round2_mono (x y : Q) : x <= y -> round2 x <= round2 y.
Proof.
  intros H. unfold round2, Math_round.
  assert (Qfloor (x * 100 + (1 # 2)) <= Qfloor (y * 100 + (1 # 2)))%Z
    by (apply Qfloor_resp_le; lra).
  unfold Qle; cbn [Qnum Qden]. lia.
Qed.

Lemma round2_nonneg (x : Q) : 0 <= x -> 0 <= round2 x.
Proof.
  intros H. apply (round2_mono 0 x) in H.
  by rewrite (round2_zero 0) in H.
Qed.

Lemma calculateHoursDifference_lt_24 (s e : TimeOfDay) :
  valid s -> valid e -> calculateHoursDifference s e < 24.
Proof.
  intros Hs He.
  pose proof (ms_of_day_range s Hs) as Rs.
  pose proof (ms_of_day_range e He) as Re.
  unfold calculateHoursDifference, Date_2000_01_01, ms_per_day in *.
  destruct (Z.ltb_spec (midnight_2000_01_01 + ms_of_day e)
              (midnight_2000_01_01 + ms_of_day s));
    unfold Qlt, ms_per_hour; cbn [Qnum Qden]; lia.
Qed.

(** The difference of two times of day stays below 24 hours; equal times
    give 0, never 24; and for different times the two directions add up
    to a full day. *)
Theorem calculateHoursDifference_complement (s e : TimeOfDay) :
  valid s -> valid e ->
  calculateHoursDifference s e < 24 /\
  (ms_of_day s = ms_of_day e -> calculateHoursDifference s e == 0) /\
  (ms_of_day s <> ms_of_day e ->
   calculateHoursDifference s e + calculateHoursDifference e s == 24).
Proof.
  intros Hs He. split; [by apply calculateHoursDifference_lt_24|].
  pose proof (ms_of_day_range s Hs) as Rs.
  pose proof (ms_of_day_range e He) as Re.
  unfold calculateHoursDifference, Date_2000_01_01, ms_per_day in *.
  generalize dependent (ms_of_day s). generalize dependent (ms_of_day e).
  intros x Hx y Hy. split; intros Hxy.
  - destruct (Z.ltb_spec (midnight_2000_01_01 + x) (midnight_2000_01_01 + y));
      [lia|]. unfold Qeq; cbn [Qnum Qden]. lia.
  - destruct (Z.ltb_spec (midnight_2000_01_01 + x) (midnight_2000_01_01 + y));
      destruct (Z.ltb_spec (midnight_2000_01_01 + y) (midnight_2000_01_01 + x));
      try lia;
      unfold Qeq, Qplus, ms_per_hour; cbn [Qnum Qden]; lia.
Qed.

Lemma calculateHoursDifference_complement_witness :
  calculateHoursDifference (mkTime 22 0 0) (mkTime 6 0 0) +
  calculateHoursDifference (mkTime 6 0 0) (mkTime 22 0 0) == 24.
Proof.
  assert (Hs : valid (mkTime 22 0 0)) by (unfold valid; cbn; lia).
  assert (He : valid (mkTime 6 0 0)) by (unfold valid; cbn; lia).
  apply (calculateHoursDifference_complement _ _ Hs He). by vm_compute.
Defined.

Lemma format_HH_mm_valid (ts : Timestamp) :
  valid (ts_time ts) -> valid (format_HH_mm ts).
Proof. unfold valid, format_HH_mm. cbn. lia. Qed.

Lemma record_hours_nonneg (record : AttendanceRecord) :
  valid_record record ->
  0 <= record_expected record /\ 0 <= record_actual record.
Proof.
  intros (Hin & Hout & Hsh). unfold record_expected, record_actual, day_step.
  destruct (shift record) as [sh|] eqn:Es; [|cbn; lra].
  destruct (jam_masuk sh) as [a|] eqn:Ea; [|cbn; lra].
  destruct (jam_keluar sh) as [b|] eqn:Eb; [|cbn; lra].
  assert (0 <= calculateHoursDifference a b) as H1.
  { apply calculateHoursDifference_nonneg.
    - apply (Hsh sh a eq_refl). by left.
    - apply (Hsh sh b eq_refl). by right. }
  destruct (clock_out_time record) as [out|] eqn:Eo; cbn; [|lra].
  assert (0 <= calculateHoursDifference (format_HH_mm (waktu record))
                 (format_HH_mm out)) as H2.
  { apply calculateHoursDifference_nonneg; apply format_HH_mm_valid;
      [done|by apply Hout]. }
  lra.
Qed.

Lemma Qsum_nonneg (l : list Q) : (forall x, x ∈ l -> 0 <= x) -> 0 <= Qsum l.
Proof.
  induction l as [|x l IH]; intros H; [by vm_compute|].
  change (Qsum (x :: l)) with (x + Qsum l).
  assert (0 <= x) by (apply H; left).
  assert (0 <= Qsum l) by (apply IH; intros y Hy; apply H; by right).
  lra.
Qed.

Lemma day_hours_nonneg (l : list AttendanceRecord) :
  (forall r, r ∈ l -> valid_record r) ->
  0 <= fst (day_hours l) /\ 0 <= snd (day_hours l).
Proof.
  intros H. destruct (day_hours_sums l) as [-> ->].
  split; apply Qsum_nonneg; intros x Hx;
    apply list_elem_of_In, in_map_iff in Hx as (r & <- & Hr);
    apply list_elem_of_In, H, record_hours_nonneg in Hr; tauto.
Qed.

(** For well-formed rows, the fields of a day aggregate are not
    negative, the missing hours never exceed the expected hours and the
    overtime never exceeds the actual hours. *)
Theorem calendar_day_bounds
    (attendanceData : list AttendanceRecord) (date : Date) :
  (forall r, r ∈ records_of_day attendanceData date -> valid_record r) ->
  let d := calendar_day attendanceData date in
  0 <= dd_missingHours d /\ dd_missingHours d <= dd_expectedHours d /\
  0 <= dd_overtimeHours d /\ dd_overtimeHours d <= dd_actualHours d.
Proof.
  intros Hv d. subst d.
  destruct (day_hours_nonneg _ Hv) as [He Ha].
  destruct (calendar_day_fields attendanceData date)
    as (-> & -> & -> & -> & _).
  set (e := fst (day_hours (records_of_day attendanceData date))) in *.
  set (a := snd (day_hours (records_of_day attendanceData date))) in *.
  pose proof (Q.le_max_l 0 (e - a)). pose proof (Q.le_max_l 0 (a - e)).
  assert (Qmax 0 (e - a) <= e)
    by (destruct (Q.max_spec 0 (e - a)) as [[_ ->]|[_ ->]]; lra).
  assert (Qmax 0 (a - e) <= a)
    by (destruct (Q.max_spec 0 (a - e)) as [[_ ->]|[_ ->]]; lra).
  repeat split; try (by apply round2_nonneg); by apply round2_mono.
Qed.

Lemma calendar_day_bounds_witness :
  dd_missingHours (calendar_day [Sample.short_day] Sample.monday) <=
  dd_expectedHours (calendar_day [Sample.short_day] Sample.monday).
Proof.
  apply (calendar_day_bounds [Sample.short_day] Sample.monday).
  intros r Hr. vm_compute in Hr.
  apply list_elem_of_singleton in Hr. subst r.
  split; [unfold valid; cbn; lia|]. split.
  - intros out [= <-]. unfold valid; cbn; lia.
  - intros sh t [= <-] [[= <-]|[= <-]]; unfold valid; cbn; lia.
Defined.

End Bounds.

(** ** The report: users, invariant, efficiency *)

Section Report.

Implicit Types (l : list AttendanceRecord).

Lemma group_by_user_snoc l (r : AttendanceRecord) :
  group_by_user (l ++ [r]) = push_record (user_id r) r (group_by_user l).
Proof. unfold group_by_user. by rewrite fold_left_app. Qed.

Lemma first_occurrences_snoc (ks : list string) (k : string) :
  first_occurrences (ks ++ [k]) =
  if decide (k ∈ first_occurrences ks) then first_occurrences ks
  else first_occurrences ks ++ [k].
Proof.
  unfold first_occurrences. rewrite reverse_snoc. cbn [remove_dups].
  destruct (decide_rel elem_of k (reverse ks)) as [Hin|Hout].
  - rewrite decide_True; [done|].
    by rewrite elem_of_reverse, elem_of_remove_dups.
  - rewrite decide_False.
    + by rewrite reverse_cons.
    + by rewrite elem_of_reverse, elem_of_remove_dups.
Qed.

Lemma group_by_user_keys l :
  map fst (group_by_user l) = first_occurrences (map user_id l).
Proof.
  induction l as [|r l IH] using rev_ind; [done|].
  rewrite group_by_user_snoc, push_record_keys, map_app, IH.
  cbn [map]. by rewrite first_occurrences_snoc.
Qed.

Lemma array_index_inj (k1 k2 : string) (n : Z) :
  array_index k1 = Some n -> array_index k2 = Some n -> k1 = k2.
Proof.
  unfold array_index. intros H1 H2.
  destruct (bool_decide (pretty (digits_value k1) = k1)) eqn:E1;
    cbn [andb] in H1; [|discriminate].
  destruct (bool_decide (pretty (digits_value k2) = k2)) eqn:E2;
    cbn [andb] in H2; [|discriminate].
  apply bool_decide_eq_true in E1, E2.
  destruct ((0 <=? digits_value k1)%Z && (digits_value k1 <? 4294967295)%Z);
    [|discriminate].
  destruct ((0 <=? digits_value k2)%Z && (digits_value k2 <? 4294967295)%Z);
    [|discriminate].
  injection H1 as H1. injection H2 as H2. congruence.
Qed.

Lemma insert_by_index_sorted {A : Type} (n : Z) (entry : A)
    (es : list (Z * A)) :
  StronglySorted (fun a b => (fst a <= fst b)%Z) es ->
  StronglySorted (fun a b => (fst a <= fst b)%Z) (insert_by_index n entry es).
Proof.
  induction es as [|[m entry'] es IH]; cbn [insert_by_index]; intros Hs.
  - repeat constructor.
  - apply StronglySorted_inv in Hs as [Hs Hall].
    destruct (Z.ltb_spec n m) as [Hlt|Hge].
    + constructor; [by constructor|].
      constructor; [cbn; lia|].
      eapply Forall_impl; [exact Hall|]. cbn. intros b Hb. lia.
    + constructor; [by apply IH|].
      rewrite insert_by_index_perm. constructor; [cbn; lia|done].
Qed.

Lemma index_entries_sorted {A : Type} (obj : list (string * A)) :
  StronglySorted (fun a b => (fst a <= fst b)%Z) (index_entries obj).
Proof.
  induction obj as [|entry obj IH]; [constructor|].
  cbn [index_entries foldr]. fold (index_entries obj).
  destruct (array_index (fst entry)); [|done].
  by apply insert_by_index_sorted.
Qed.

Lemma index_entries_index {A : Type} (obj : list (string * A)) :
  Forall (fun ne => array_index (fst (snd ne)) = Some (fst ne))
    (index_entries obj).
Proof.
  induction obj as [|entry obj IH]; [constructor|].
  cbn [index_entries foldr]. fold (index_entries obj).
  destruct (array_index (fst entry)) as [n|] eqn:E; [|done].
  rewrite insert_by_index_perm. by constructor.
Qed.

Lemma sorted_index_lt {A : Type} (es : list (Z * (string * A))) :
  Forall (fun ne => array_index (fst (snd ne)) = Some (fst ne)) es ->
  StronglySorted (fun a b => (fst a <= fst b)%Z) es ->
  NoDup (map fst (map snd es)) ->
  StronglySorted index_lt (map fst (map snd es)).
Proof.
  induction es as [|[n [k v]] es IH]; cbn [map fst snd];
    intros Hidx Hs Hnd; [constructor|].
  apply Forall_cons in Hidx as [Hk Hidx]. cbn [fst snd] in Hk.
  apply StronglySorted_inv in Hs as [Hs Hall].
  apply NoDup_cons in Hnd as [Hout Hnd].
  constructor; [by apply IH|].
  apply Forall_forall. intros k' Hk'.
  apply list_elem_of_In, in_map_iff in Hk' as ([k0 v0] & <- & Hin).
  apply in_map_iff in Hin as ([m [k1 v1]] & [= <- <-] & Hin).
  apply list_elem_of_In in Hin.
  pose proof (proj1 (Forall_forall _ _) Hidx _ Hin) as Hk1.
  pose proof (proj1 (Forall_forall _ _) Hall _ Hin) as Hle.
  cbn [fst snd] in Hk1, Hle |- *. unfold index_lt. rewrite Hk, Hk1.
  destruct (decide (n = m)) as [->|Hne]; [|lia].
  exfalso. apply Hout.
  rewrite (array_index_inj k k1 m Hk Hk1).
  apply list_elem_of_In, in_map_iff. exists (k1, v1). split; [done|].
  apply in_map_iff. exists (m, (k1, v1)). split; [done|].
  by apply list_elem_of_In.
Qed.

Lemma filter_map_fst {A : Type} (f : string -> bool)
    (obj : list (string * A)) :
  map fst (List.filter (fun entry => f (fst entry)) obj) =
  List.filter f (map fst obj).
Proof.
  induction obj as [|entry obj IH]; [done|].
  cbn [List.filter map]. destruct (f (fst entry)); cbn [map]; by rewrite IH.
Qed.

Lemma filter_none {A : Type} (f : A -> bool) (xs : list A) :
  (forall x, x ∈ xs -> f x = false) -> List.filter f xs = [].
Proof.
  induction xs as [|x xs IH]; intros H; [done|].
  cbn [List.filter]. rewrite (H x) by left.
  apply IH. intros y Hy. apply H. by right.
Qed.

Lemma filter_all {A : Type} (f : A -> bool) (xs : list A) :
  (forall x, x ∈ xs -> f x = true) -> List.filter f xs = xs.
Proof.
  induction xs as [|x xs IH]; intros H; [done|].
  cbn [List.filter]. rewrite (H x) by left.
  f_equal. apply IH. intros y Hy. apply H. by right.
Qed.

Lemma first_occurrences_elem (ks : list string) (k : string) :
  k ∈ first_occurrences ks <-> k ∈ ks.
Proof.
  unfold first_occurrences.
  by rewrite elem_of_reverse, elem_of_remove_dups, elem_of_reverse.
Qed.

Lemma calculateHoursSummary_ids l :
  map hs_userId (calculateHoursSummary l) =
  map fst (Object_entries (group_by_user l)).
Proof.
  rewrite calculateHoursSummary_map, map_map.
  apply map_ext. intros [k rs]. cbn [fst snd].
  by destruct (summarize_fields k rs) as (-> & _).
Qed.

(** For user ids that are not names of inherited properties, the report
    has one summary per user id of the rows: no user is lost, none
    appears twice, none is invented.  The summaries come in the order of
    [Object.entries]: first the user ids that are array indices, in
    ascending numeric order, then the other user ids in the order in
    which they first appear in the rows; when no user id is an array
    index, the order is that of first appearance. *)
Theorem calculateHoursSummary_users l :
  Forall (fun r => user_id r ∉ Object_prototype_keys) l ->
  let ids := map hs_userId (calculateHoursSummary l) in
  let seen := first_occurrences (map user_id l) in
  NoDup ids /\
  (forall k, k ∈ ids <-> exists r, r ∈ l /\ user_id r = k) /\
  (exists indices,
     ids = indices ++ List.filter (fun k => negb (is_array_index k)) seen /\
     StronglySorted index_lt indices /\
     (forall k, k ∈ indices <-> is_array_index k = true /\ k ∈ seen)) /\
  ((forall r, r ∈ l -> is_array_index (user_id r) = false) -> ids = seen).
Proof.
  intros _ ids seen. subst ids seen.
  rewrite calculateHoursSummary_ids.
  set (g := group_by_user l).
  assert (Hkeys : map fst g = first_occurrences (map user_id l))
    by apply group_by_user_keys.
  assert (Hnd : NoDup (map fst g)).
  { rewrite Hkeys. unfold first_occurrences. rewrite reverse_Permutation.
    apply NoDup_remove_dups. }
  assert (Hperm : map fst (Object_entries g) ≡ₚ map fst g)
    by (by rewrite Object_entries_perm).
  assert (Hidx : map fst (map snd (index_entries g)) ≡ₚ
                 List.filter is_array_index (map fst g)).
  { rewrite index_entries_perm.
    by rewrite (filter_map_fst is_array_index g). }
  split; [by rewrite Hperm|]. split; [|split].
  - intros k. rewrite Hperm, Hkeys, first_occurrences_elem.
    rewrite list_elem_of_In, in_map_iff. split.
    + intros (r & <- & Hr). exists r. by rewrite list_elem_of_In.
    + intros (r & Hr & <-). exists r. by rewrite <- list_elem_of_In.
  - exists (map fst (map snd (index_entries g))).
    split; [|split].
    + unfold Object_entries. rewrite map_app. f_equal.
      rewrite <- Hkeys.
      apply (filter_map_fst (fun k => negb (is_array_index k)) g).
    + apply sorted_index_lt.
      * apply index_entries_index.
      * apply index_entries_sorted.
      * rewrite Hidx. apply NoDup_ListNoDup, List.NoDup_filter.
        by apply NoDup_ListNoDup.
    + intros k. rewrite Hidx, <- Hkeys.
      rewrite list_elem_of_In, filter_In, <- list_elem_of_In. tauto.
  - intros Hno.
    assert (Hall : forall k, k ∈ map fst g -> is_array_index k = false).
    { intros k Hk. rewrite Hkeys, first_occurrences_elem in Hk.
      apply list_elem_of_In, in_map_iff in Hk as (r & <- & Hr).
      apply Hno. by apply list_elem_of_In. }
    assert (Hnil : map snd (index_entries g) = []).
    { apply Permutation_nil_r. rewrite index_entries_perm.
      rewrite filter_none; [done|].
      intros [k v] Hin. apply Hall.
      apply list_elem_of_In, in_map_iff. exists (k, v).
      split; [done|]. by apply list_elem_of_In. }
    unfold Object_entries. rewrite Hnil. cbn [app].
    rewrite filter_all; [done|].
    intros [k v] Hin. cbn [fst]. rewrite Hall; [done|].
    apply list_elem_of_In, in_map_iff. exists (k, v).
    split; [done|]. by apply list_elem_of_In.
Qed.

Lemma calculateHoursSummary_users_witness :
  let rows := [Sample.short_day; Sample.long_day; Sample.no_shift] in
  Forall (fun r => user_id r ∉ Object_prototype_keys) rows /\
  map hs_userId (calculateHoursSummary rows) = ["u1"%string].
Proof.
  intros rows.
  assert (Hok : Forall (fun r => user_id r ∉ Object_prototype_keys) rows).
  { apply (bool_decide_unpack _). by vm_compute. }
  split; [exact Hok|].
  destruct (calculateHoursSummary_users rows Hok) as (_ & _ & _ & H).
  rewrite H; [by vm_compute|].
  intros r Hr. vm_compute in Hr.
  repeat (apply elem_of_cons in Hr as [->|Hr]; [by vm_compute|]).
  inversion Hr.
Defined.

(** The summaries of the users "10", "ana" and "9" come in the order
    "9", "10", "ana". *)
Example array_index_ids_first :
  let row (userId : string) :=
    mkRecord userId None (Sample.at_ Sample.monday 9 0 0) None
      (Some Sample.day_shift) in
  map hs_userId (calculateHoursSummary [row "10"; row "ana"; row "9"; row "10"])
  = ["9"; "10"; "ana"]%string.
Proof. by vm_compute. Qed.

(** The two lists of the report stay in step: whatever the replies, the
    summaries held are those of the rows held. *)
Theorem fetchAttendanceData_in_step (st : ReportsState)
    (reply : Reply (list AttendanceRecord)) :
  rs_hoursSummary st = calculateHoursSummary (rs_attendance st) ->
  rs_hoursSummary (fetchAttendanceData st reply) =
  calculateHoursSummary (rs_attendance (fetchAttendanceData st reply)).
Proof.
  intros H. unfold fetchAttendanceData.
  by destruct (error reply), (data reply).
Qed.

Lemma fetchAttendanceData_in_step_witness :
  let st0 := mkReportsState [] [] true in
  let st1 := fetchAttendanceData st0
               (mkReply (Some [Sample.short_day]) None) in
  let st2 := fetchAttendanceData st1 (mkReply None (Some "timeout"%string)) in
  rs_hoursSummary st2 = calculateHoursSummary (rs_attendance st2).
Proof.
  intros st0 st1 st2.
  apply fetchAttendanceData_in_step, fetchAttendanceData_in_step.
  reflexivity.
Defined.

Lemma summarize_efficiency (userId : string) l :
  hs_efficiency (summarize userId l) =
  round2 (if Qlt_le_dec 0 (fst (day_hours l))
          then snd (day_hours l) / fst (day_hours l) * 100 else 0).
Proof.
  unfold summarize, day_hours. rewrite summary_fold.
  by destruct (fold_left day_step l (0, 0)) as [e a].
Qed.

(** For well-formed rows the efficiency is not negative; a user without
    expected hours has efficiency 0 and the destructive badge; a user
    whose actual hours reach the expected ones has an efficiency of at
    least 100 and the default badge. *)
Theorem efficiency_badge (userId : string) l :
  (forall r, r ∈ l -> valid_record r) ->
  let s := summarize userId l in
  0 <= hs_efficiency s /\
  (~ 0 < fst (day_hours l) ->
   hs_efficiency s == 0 /\
   getEfficiencyBadge (hs_efficiency s) = badge_destructive) /\
  (0 < fst (day_hours l) -> fst (day_hours l) <= snd (day_hours l) ->
   100 <= hs_efficiency s /\
   getEfficiencyBadge (hs_efficiency s) = badge_default).
Proof.
  intros Hv s. subst s. rewrite summarize_efficiency.
  destruct (day_hours_nonneg l Hv) as [He Ha].
  set (e := fst (day_hours l)) in *. set (a := snd (day_hours l)) in *.
  destruct (Qlt_le_dec 0 e) as [Hpos|Hzero].
  - assert (0 <= a / e) as Hq by (apply Qle_shift_div_l; lra).
    split; [apply round2_nonneg; lra|]. split; [intros H; lra|].
    intros _ Hea.
    assert (1 <= a / e) as Hq1 by (apply Qle_shift_div_l; lra).
    assert (100 <= round2 (a / e * 100)) as H100.
    { assert (round2 100 <= round2 (a / e * 100))
        by (apply round2_mono; lra).
      assert (round2 100 == 100) by (by vm_compute). lra. }
    split; [done|]. unfold getEfficiencyBadge.
    destruct (Qlt_le_dec (round2 (a / e * 100)) 90); [lra|done].
  - split; [by vm_compute|]. split; [|intros H; lra].
    intros _. split; [by vm_compute|]. by vm_compute.
Qed.

Lemma efficiency_badge_witness :
  getEfficiencyBadge (hs_efficiency (summarize "u1" [Sample.long_day])) =
  badge_default.
Proof.
  assert (Hv : forall r, r ∈ [Sample.long_day] -> valid_record r).
  { intros r Hr. apply list_elem_of_singleton in Hr. subst r.
    split; [unfold valid; cbn; lia|]. split.
    - intros out [= <-]. unfold valid; cbn; lia.
    - intros sh t [= <-] [[= <-]|[= <-]]; unfold valid; cbn; lia. }
  apply (efficiency_badge "u1" [Sample.long_day] Hv); by vm_compute.
Defined.

End Report.

(** ** The grid: cells, columns and export *)

Section Grid.

Variable userAttendance : list AttendanceRecord.

Implicit Types (acc : GridAcc) (date : Date) (days : list Date).

Lemma grid_day_step_cell acc date :
  ga_dailyData (grid_day_step userAttendance acc date) =
  <[format_yyyy_MM_dd date := grid_cell userAttendance date]>
    (ga_dailyData acc).
Proof.
  unfold grid_day_step, grid_cell.
  destruct (day_hours (records_of_day userAttendance date)) as [e a].
  by destruct (negb _).
Qed.

(** Two dates with the same text select the same rows, hence the same
    cell. *)
Lemma grid_cell_same_text date date' :
  format_yyyy_MM_dd date = format_yyyy_MM_dd date' ->
  grid_cell userAttendance date = grid_cell userAttendance date'.
Proof.
  intros H. unfold grid_cell, records_of_day. by rewrite H.
Qed.

Lemma grid_fold_keeps_cell days acc date :
  ga_dailyData acc !! format_yyyy_MM_dd date =
    Some (grid_cell userAttendance date) ->
  ga_dailyData (fold_left (grid_day_step userAttendance) days acc)
    !! format_yyyy_MM_dd date = Some (grid_cell userAttendance date).
Proof.
  revert acc. induction days as [|d0 days IH]; intros acc H; [done|].
  cbn [fold_left]. apply IH. rewrite grid_day_step_cell.
  destruct (decide (format_yyyy_MM_dd d0 = format_yyyy_MM_dd date)) as [E|E].
  - rewrite E, lookup_insert_eq. f_equal. by apply grid_cell_same_text.
  - by rewrite lookup_insert_ne.
Qed.

Lemma grid_fold_cell days acc date :
  date ∈ days ->
  ga_dailyData (fold_left (grid_day_step userAttendance) days acc)
    !! format_yyyy_MM_dd date = Some (grid_cell userAttendance date).
Proof.
  revert acc. induction days as [|d0 days IH]; intros acc H;
    [by inversion H|].
  cbn [fold_left]. apply elem_of_cons in H as [->|H]; [|by apply IH].
  apply grid_fold_keeps_cell.
  by rewrite grid_day_step_cell, lookup_insert_eq.
Qed.

Lemma grid_fold_only_columns days acc (k : string) :
  ga_dailyData acc !! k = None ->
  (forall date, date ∈ days -> format_yyyy_MM_dd date <> k) ->
  ga_dailyData (fold_left (grid_day_step userAttendance) days acc) !! k = None.
Proof.
  revert acc. induction days as [|d0 days IH]; intros acc H Hk; [done|].
  cbn [fold_left]. apply IH.
  - rewrite grid_day_step_cell, lookup_insert_ne; [done|]. apply Hk. left.
  - intros date Hd. apply Hk. by right.
Qed.

End Grid.

Lemma max0_sum_le (x y : Q) : Qmax 0 (x + y) <= Qmax 0 x + Qmax 0 y.
Proof.
  destruct (Q.max_spec 0 (x + y)) as [[? ->]|[? ->]];
    destruct (Q.max_spec 0 x) as [[? ->]|[? ->]];
    destruct (Q.max_spec 0 y) as [[? ->]|[? ->]]; lra.
Qed.

Lemma day_missing_sum (userAttendance : list AttendanceRecord)
    (days : list Date) :
  let aggregated := flat_map (records_of_day userAttendance) days in
  Qmax 0 (Qsum (map record_expected aggregated) -
          Qsum (map record_actual aggregated)) <=
  Qsum (map (day_missing userAttendance) days).
Proof.
  induction days as [|d0 days IH]; [by vm_compute|].
  cbn zeta in *. cbn [flat_map map].
  change (Qsum (day_missing userAttendance d0 ::
                map (day_missing userAttendance) days))
    with (day_missing userAttendance d0 +
          Qsum (map (day_missing userAttendance) days)).
  unfold day_missing at 1.
  set (e0 := Qsum (map record_expected (records_of_day userAttendance d0))).
  set (a0 := Qsum (map record_actual (records_of_day userAttendance d0))).
  set (rest := flat_map (records_of_day userAttendance) days) in *.
  pose proof (max0_sum_le (e0 - a0)
                (Qsum (map record_expected rest) -
                 Qsum (map record_actual rest))) as Hs.
  assert (Qsum (map record_expected (records_of_day userAttendance d0 ++ rest))
          == e0 + Qsum (map record_expected rest)) as He
    by (by rewrite map_app, Qsum_app).
  assert (Qsum (map record_actual (records_of_day userAttendance d0 ++ rest))
          == a0 + Qsum (map record_actual rest)) as Ha
    by (by rewrite map_app, Qsum_app).
  rewrite He, Ha.
  assert (e0 + Qsum (map record_expected rest) -
          (a0 + Qsum (map record_actual rest)) ==
          e0 - a0 + (Qsum (map record_expected rest) -
                     Qsum (map record_actual rest))) as -> by lra.
  lra.
Qed.

(** Hours that are whole numbers of minutes. *)
Section WholeMinutes.

Lemma whole_minutes_proper (x y : Q) :
  x == y -> whole_minutes x -> whole_minutes y.
Proof. intros E [k Hk]. exists k. by rewrite <- E. Qed.

Lemma whole_minutes_zero : whole_minutes 0.
Proof. by exists 0%Z. Qed.

Lemma whole_minutes_plus (x y : Q) :
  whole_minutes x -> whole_minutes y -> whole_minutes (x + y).
Proof.
  intros [k Hk] [k' Hk']. exists (k + k')%Z. rewrite Hk, Hk'.
  unfold Qeq, Qplus; cbn [Qnum Qden]. lia.
Qed.

Lemma whole_minutes_minus (x y : Q) :
  whole_minutes x -> whole_minutes y -> whole_minutes (x - y).
Proof.
  intros [k Hk] [k' Hk']. exists (k - k')%Z. rewrite Hk, Hk'.
  unfold Qeq, Qminus, Qplus, Qopp; cbn [Qnum Qden]. lia.
Qed.

Lemma whole_minutes_max0 (x : Q) :
  whole_minutes x -> whole_minutes (Qmax 0 x).
Proof.
  intros H. destruct (Q.max_spec 0 x) as [[_ E]|[_ E]].
  - by apply (whole_minutes_proper x).
  - apply (whole_minutes_proper 0); [by rewrite E|apply whole_minutes_zero].
Qed.

(** A whole number of minutes is never half-way between two hundredths
    of an hour. *)
Lemma whole_minutes_no_tie (x : Q) : whole_minutes x -> ~ Spec.tie x.
Proof.
  intros [k Hk] [j Hj]. rewrite Hk in Hj.
  unfold Qeq, Qmult, Qplus, inject_Z in Hj; cbn [Qnum Qden] in Hj. lia.
Qed.

Lemma calculateHoursDifference_minutes (s e : TimeOfDay) :
  seconds s = 0%Z -> seconds e = 0%Z ->
  whole_minutes (calculateHoursDifference s e).
Proof.
  intros Hs He.
  unfold calculateHoursDifference, Date_2000_01_01, ms_of_day, ms_per_day.
  rewrite Hs, He.
  destruct (_ <? _)%Z.
  - exists ((hours e * 60 + minutes e) + 1440 -
            (hours s * 60 + minutes s))%Z.
    unfold Qeq, ms_per_hour; cbn [Qnum Qden]. lia.
  - exists ((hours e * 60 + minutes e) - (hours s * 60 + minutes s))%Z.
    unfold Qeq, ms_per_hour; cbn [Qnum Qden]. lia.
Qed.

Lemma record_hours_minutes (record : AttendanceRecord) :
  on_whole_minutes record ->
  whole_minutes (record_expected record) /\
  whole_minutes (record_actual record).
Proof.
  intros H. unfold record_expected, record_actual, day_step.
  destruct (shift record) as [sh|] eqn:Es;
    [|split; apply whole_minutes_zero].
  destruct (jam_masuk sh) as [a|] eqn:Ea;
    [|split; apply whole_minutes_zero].
  destruct (jam_keluar sh) as [b|] eqn:Eb;
    [|split; apply whole_minutes_zero].
  assert (whole_minutes (0 + calculateHoursDifference a b)) as H1.
  { apply whole_minutes_plus; [apply whole_minutes_zero|].
    apply calculateHoursDifference_minutes.
    - apply (H sh a Es). by left.
    - apply (H sh b Es). by right. }
  destruct (clock_out_time record) as [out|]; cbn [fst snd];
    (split; [exact H1|]); [|apply whole_minutes_zero].
  apply whole_minutes_plus; [apply whole_minutes_zero|].
  by apply calculateHoursDifference_minutes.
Qed.

Lemma Qsum_minutes {A : Type} (f : A -> Q) (l : list A) :
  (forall x, x ∈ l -> whole_minutes (f x)) -> whole_minutes (Qsum (map f l)).
Proof.
  induction l as [|x l IH]; intros H; [apply whole_minutes_zero|].
  cbn [map]. change (whole_minutes (f x + Qsum (map f l))).
  apply whole_minutes_plus; [apply H; left|].
  apply IH. intros y Hy. apply H. by right.
Qed.

Lemma day_hours_minutes (l : list AttendanceRecord) :
  (forall r, r ∈ l -> on_whole_minutes r) ->
  whole_minutes (fst (day_hours l)) /\ whole_minutes (snd (day_hours l)).
Proof.
  intros H. destruct (day_hours_sums l) as [He Ha].
  split.
  - apply (whole_minutes_proper _ _ (Qeq_sym _ _ He)), Qsum_minutes.
    intros r Hr. by apply record_hours_minutes, H.
  - apply (whole_minutes_proper _ _ (Qeq_sym _ _ Ha)), Qsum_minutes.
    intros r Hr. by apply record_hours_minutes, H.
Qed.

Lemma grid_missing_minutes (userAttendance : list AttendanceRecord)
    (days : list Date) :
  (forall r, r ∈ userAttendance -> on_whole_minutes r) ->
  whole_minutes (ga_totalMissingHours (grid_loop userAttendance days)).
Proof.
  intros H. unfold grid_loop.
  destruct (grid_fold_sums userAttendance days grid_init) as (_ & _ & Hm).
  apply (whole_minutes_proper _ _ (Qeq_sym _ _ Hm)).
  cbn [grid_init ga_totalMissingHours].
  apply whole_minutes_plus; [apply whole_minutes_zero|].
  apply Qsum_minutes. intros d _. unfold day_missing.
  assert (Hd : forall r, r ∈ records_of_day userAttendance d ->
                         on_whole_minutes r).
  { intros r Hr. apply H. unfold records_of_day in Hr.
    by apply list_elem_of_filter in Hr as [_ Hr]. }
  apply whole_minutes_max0, whole_minutes_minus; apply Qsum_minutes;
    intros r Hr; by apply record_hours_minutes, Hd.
Qed.

End WholeMinutes.

Lemma records_of_day_cons (r : AttendanceRecord)
    (l : list AttendanceRecord) (date : Date) :
  records_of_day (r :: l) date =
  if decide (format_date (waktu r) = format_yyyy_MM_dd date)
  then r :: records_of_day l date else records_of_day l date.
Proof. unfold records_of_day. by rewrite filter_cons. Qed.

Lemma Qsum_map_plus {A : Type} (f g : A -> Q) (l : list A) :
  Qsum (map (fun x => f x + g x) l) == Qsum (map f l) + Qsum (map g l).
Proof.
  induction l as [|x l IH]; [reflexivity|].
  cbn [map].
  change (f x + g x + Qsum (map (fun x => f x + g x) l) ==
          f x + Qsum (map f l) + (g x + Qsum (map g l))).
  rewrite IH. lra.
Qed.

Lemma Qsum_map_zero {A : Type} (f : A -> Q) (l : list A) :
  (forall x, x ∈ l -> f x == 0) -> Qsum (map f l) == 0.
Proof.
  induction l as [|x l IH]; intros H; [reflexivity|].
  cbn [map]. change (f x + Qsum (map f l) == 0).
  rewrite IH by (intros y Hy; apply H; by right).
  rewrite (H x) by left. reflexivity.
Qed.

(** A row that falls on one of the days, whose texts differ from each
    other, is a row of exactly one day. *)
Lemma Qsum_one_day (x : Q) (k : string) (days : list Date) :
  NoDup (map format_yyyy_MM_dd days) ->
  k ∈ map format_yyyy_MM_dd days ->
  Qsum (map (fun date =>
               if decide (k = format_yyyy_MM_dd date) then x else 0) days)
  == x.
Proof.
  induction days as [|d days IH]; cbn [map]; intros Hnd Hk;
    [by inversion Hk|].
  apply NoDup_cons in Hnd as [Hout Hnd].
  change (Qsum ((if decide (k = format_yyyy_MM_dd d) then x else 0) ::
                map (fun date =>
                       if decide (k = format_yyyy_MM_dd date) then x else 0)
                  days))
    with ((if decide (k = format_yyyy_MM_dd d) then x else 0) +
          Qsum (map (fun date =>
                       if decide (k = format_yyyy_MM_dd date) then x else 0)
                  days)).
  destruct (decide (k = format_yyyy_MM_dd d)) as [->|Hne].
  - rewrite Qsum_map_zero; [lra|].
    intros d' Hd'. destruct (decide _) as [E|]; [|reflexivity].
    exfalso. apply Hout. rewrite E.
    apply list_elem_of_In, in_map. by apply list_elem_of_In.
  - apply elem_of_cons in Hk as [Hk|Hk]; [done|].
    rewrite IH by done. lra.
Qed.

Lemma day_partition (f : AttendanceRecord -> Q)
    (userAttendance : list AttendanceRecord) (days : list Date) :
  NoDup (map format_yyyy_MM_dd days) ->
  (forall r, r ∈ userAttendance ->
             format_date (waktu r) ∈ map format_yyyy_MM_dd days) ->
  Qsum (map f (flat_map (records_of_day userAttendance) days)) ==
  Qsum (map f userAttendance).
Proof.
  intros Hnd. rewrite Qsum_flat_map.
  induction userAttendance as [|r l IH]; intros Hin.
  - apply Qsum_map_zero. intros d _. reflexivity.
  - cbn [map]. change (Qsum (f r :: map f l)) with (f r + Qsum (map f l)).
    rewrite <- IH by (intros r' Hr'; apply Hin; by right).
    pose proof (Qsum_one_day (f r) (format_date (waktu r)) days Hnd
                  (Hin r ltac:(left))) as E.
    transitivity
      (Qsum (map (fun date =>
                    if decide (format_date (waktu r) = format_yyyy_MM_dd date)
                    then f r else 0) days) +
       Qsum (map (fun x => Qsum (map f (records_of_day l x))) days));
      [|by rewrite E].
    rewrite <- Qsum_map_plus. apply Qsum_pointwise. intros d _.
    rewrite records_of_day_cons.
    destruct (decide _); [reflexivity|]. cbn beta. lra.
Qed.

(** The grid never shows a user less missing time than the report
    computes from the same rows, when every row of the user falls on one
    of the columns of the grid and the shifts start and end on whole
    minutes: the grid adds the shortfall of each day, the report lets
    the overtime of one day make up for another.  On such rows neither
    of the two shortfalls, before rounding, lies half-way between two
    hundredths. *)
Theorem grid_missing_not_below_report
    (attendanceData : list AttendanceRecord) (days : list Date)
    (user : Profile) (s : HoursSummary) :
  let userAttendance := user_attendance attendanceData user in
  let expected := fst (day_hours userAttendance) in
  let actual := snd (day_hours userAttendance) in
  NoDup (map format_yyyy_MM_dd days) ->
  (forall r, r ∈ userAttendance ->
             format_date (waktu r) ∈ map format_yyyy_MM_dd days) ->
  (forall r, r ∈ userAttendance -> on_whole_minutes r) ->
  s ∈ calculateHoursSummary attendanceData -> hs_userId s = id user ->
  hs_missingHours s <=
    totalMissingHours (grid_user attendanceData days user) /\
  ~ Spec.tie (Qmax 0 (expected - actual)) /\
  ~ Spec.tie (ga_totalMissingHours (grid_loop userAttendance days)).
Proof.
  intros userAttendance expected actual Hnd Hdays Hmin Hs Hid.
  split.
  2:{ split; apply whole_minutes_no_tie.
      - destruct (day_hours_minutes userAttendance Hmin).
        by apply whole_minutes_max0, whole_minutes_minus.
      - by apply grid_missing_minutes. }
  clear expected actual.
  destruct (calculateHoursSummary_elem attendanceData s Hs) as [Heq _].
  rewrite Hid in Heq. fold (user_attendance attendanceData user) in Heq.
  fold userAttendance in Heq. rewrite Heq.
  destruct (grid_fold_sums userAttendance days grid_init) as (_ & _ & Hm).
  destruct (summarize_fields (id user) userAttendance)
    as (_ & _ & _ & _ & -> & _).
  destruct (day_hours_sums userAttendance) as [He Ha].
  unfold grid_user, grid_loop. cbn [totalMissingHours].
  fold userAttendance. apply round2_mono. rewrite He, Ha, Hm.
  cbn [grid_init ga_totalMissingHours].
  pose proof (day_missing_sum userAttendance days) as H. cbn zeta in H.
  rewrite !day_partition in H by done. lra.
Qed.

Lemma grid_missing_not_below_report_witness :
  let rows := [Sample.short_day; Sample.long_day] in
  let ana := mkProfile "u1" "Ana" in
  let days := workingDaysInMonth Sample.monday in
  hs_missingHours (summarize "u1" rows) <=
  totalMissingHours (grid_user rows days ana).
Proof.
  intros rows ana days.
  refine (proj1 (grid_missing_not_below_report rows days ana
                   (summarize "u1" rows) _ _ _ _ _)).
  - apply (bool_decide_unpack _). by vm_compute.
  - intros r Hr. vm_compute in Hr.
    repeat (apply elem_of_cons in Hr as [->|Hr];
            [apply (bool_decide_unpack _); by vm_compute|]).
    inversion Hr.
  - intros r Hr. vm_compute in Hr.
    repeat (apply elem_of_cons in Hr as [->|Hr];
            [intros sh t [= <-] [[= <-]|[= <-]]; reflexivity|]).
    inversion Hr.
  - vm_compute. left.
  - reflexivity.
Defined.

(** A short Monday and a long Tuesday: the report sees no missing time,
    the grid shows the shortfall of the Monday. *)
Example grid_shows_more_missing :
  let tuesday_long :=
    mkRecord "u1" None (Sample.at_ Sample.tuesday 8 0 0)
      (Some (Sample.at_ Sample.tuesday 18 30 0)) (Some Sample.day_shift) in
  let rows := [Sample.short_day; tuesday_long] in
  map hs_missingHours (calculateHoursSummary rows) = [0.00] /\
  totalMissingHours
    (grid_user rows (workingDaysInMonth Sample.monday)
       (mkProfile "u1" "Ana")) == 42 # 100.
Proof. by vm_compute. Qed.

(** A row outside the columns is another matter: a shift on a Saturday
    that was never clocked out is 8 missing hours in the report and none
    in the grid. *)
Example weekend_shortfall_only_in_report :
  let row := mkRecord "u1" None (Sample.at_ (mkDate 2024 7 6) 9 0 0) None
               (Some Sample.day_shift) in
  map hs_missingHours (calculateHoursSummary [row]) = [8.00] /\
  totalMissingHours
    (grid_user [row] (workingDaysInMonth Sample.monday)
       (mkProfile "u1" "Ana")) == 0.
Proof. by vm_compute. Qed.

Lemma round2_below_half (x : Q) : x < 1 # 200 -> round2 x <= 0.
Proof.
  intros H. unfold round2, Math_round.
  assert (Qfloor (x * 100 + (1 # 2)) < 1)%Z as Hk.
  { destruct (Z.lt_ge_cases (Qfloor (x * 100 + (1 # 2))) 1) as [|Hge];
      [done|]. exfalso.
    assert (inject_Z 1 <= inject_Z (Qfloor (x * 100 + (1 # 2)))) as H1
      by (by rewrite <- Zle_Qle).
    pose proof (Qfloor_le (x * 100 + (1 # 2))) as H2.
    change (inject_Z 1) with 1 in H1. lra. }
  unfold Qle; cbn [Qnum Qden]. lia.
Qed.

(** What a cell of the grid shows for a user and a day: a dash without
    rows; with rows, the shortfall in red when the expected hours exceed
    the actual ones by more than half a hundredth of an hour, the check
    mark in green when they exceed them by less than that or not at all,
    as on a day whose rows carry no shift.  (At exactly half a
    hundredth the binary arithmetic of the source decides.) *)
Theorem grid_cell_content
    (userAttendance : list AttendanceRecord) (date : Date) :
  let records := records_of_day userAttendance date in
  let shortfall := fst (day_hours records) - snd (day_hours records) in
  let cell := grid_cell userAttendance date in
  (records = [] ->
   getCellContent cell = "-"%string /\
   getCellStyle cell = "bg-gray-100 text-gray-400"%string) /\
  (records <> [] -> 1 # 200 < shortfall ->
   getCellContent cell =
     ("-" +:+ Number_toString (dh_missingHours cell) +:+ "h")%string /\
   getCellStyle cell = "bg-red-100 text-red-800 border-red-200"%string) /\
  (records <> [] -> shortfall < 1 # 200 ->
   getCellContent cell = "✓"%string /\
   getCellStyle cell = "bg-green-100 text-green-800 border-green-200"%string) /\
  (records <> [] -> (forall r, r ∈ records -> shift r = None) ->
   getCellContent cell = "✓"%string).
Proof.
  intros records shortfall cell.
  assert (Hgreen : records <> [] -> shortfall < 1 # 200 ->
    getCellContent cell = "✓"%string /\
    getCellStyle cell =
      "bg-green-100 text-green-800 border-green-200"%string).
  { intros Hne Hlt. apply has_attendance_true in Hne.
    unfold getCellContent, getCellStyle, cell, grid_cell.
    cbn [dh_hasAttendance dh_missingHours]. fold records. rewrite Hne.
    cbn [negb]. fold shortfall.
    assert (round2 (Qmax 0 shortfall) <= 0) as H0.
    { apply round2_below_half.
      destruct (Q.max_spec 0 shortfall) as [[? ->]|[? ->]]; lra. }
    destruct (Qlt_le_dec 0 (round2 (Qmax 0 shortfall))); [lra|done]. }
  split; [|split; [|split]].
  - intros Hnil. unfold getCellContent, getCellStyle, cell, grid_cell.
    cbn [dh_hasAttendance]. fold records. by rewrite Hnil.
  - intros Hne Hge. apply has_attendance_true in Hne.
    unfold getCellContent, getCellStyle, cell, grid_cell.
    cbn [dh_hasAttendance dh_missingHours]. fold records. rewrite Hne.
    cbn [negb]. fold shortfall.
    assert (0 < round2 (Qmax 0 shortfall)) as Hpos.
    { apply round2_pos_of_ge.
      pose proof (Q.le_max_r 0 shortfall). lra. }
    destruct (Qlt_le_dec 0 (round2 (Qmax 0 shortfall))); [done|lra].
  - exact Hgreen.
  - intros Hne Hno. apply Hgreen; [done|].
    subst shortfall. rewrite (day_hours_no_shift records Hno). by vm_compute.
Qed.

Lemma grid_cell_content_witness :
  getCellContent
    (grid_cell [Sample.no_shift; Sample.short_day] Sample.monday) =
  ("-" +:+ Number_toString (42 # 100) +:+ "h")%string.
Proof.
  destruct (grid_cell_content [Sample.no_shift; Sample.short_day]
              Sample.monday) as (_ & H & _).
  apply H; by vm_compute.
Defined.

(** After a fetch that succeeds, the columns are the working days of the
    month, there is one row per user in the order of the reply, every
    row holds a cell for every column (the one computed from the rows of
    that user and day), and no cell for anything else. *)
Theorem fetchGridData_cells (st : GridState)
    (usersReply : Reply (list Profile))
    (attendanceReply : Reply (list AttendanceRecord)) (users : list Profile) :
  error usersReply = None -> data usersReply = Some users ->
  error attendanceReply = None ->
  let st' := fetchGridData st usersReply attendanceReply in
  let attendanceData := or_empty (data attendanceReply) in
  gs_workingDays st' = workingDaysInMonth (gs_currentMonth st) /\
  map userId (gs_gridData st') = map id users /\
  gs_loading st' = false /\
  (forall user date,
     user ∈ users -> date ∈ gs_workingDays st' ->
     exists u,
       u ∈ gs_gridData st' /\ userId u = id user /\
       dailyData u !! format_yyyy_MM_dd date =
         Some (grid_cell (user_attendance attendanceData user) date)) /\
  (forall u k,
     u ∈ gs_gridData st' -> is_Some (dailyData u !! k) ->
     exists date, date ∈ gs_workingDays st' /\ k = format_yyyy_MM_dd date).
Proof.
  intros Heu Hdu Hea st' attendanceData. subst st'.
  unfold fetchGridData. rewrite Heu, Hdu, Hea.
  cbn [gs_workingDays gs_gridData gs_loading gs_currentMonth].
  fold attendanceData.
  split; [done|]. split; [by rewrite map_map|]. split; [done|]. split.
  - intros user date Hu Hd.
    exists (grid_user attendanceData
              (workingDaysInMonth (gs_currentMonth st)) user).
    split; [apply list_elem_of_In, in_map; by apply list_elem_of_In|].
    split; [done|]. unfold grid_user, grid_loop. cbn [dailyData].
    by apply grid_fold_cell.
  - intros u k Hu [cell Hc].
    apply list_elem_of_In, in_map_iff in Hu as (user & <- & _).
    unfold grid_user, grid_loop in Hc. cbn [dailyData] in Hc.
    destruct (decide (Exists (fun date => format_yyyy_MM_dd date = k)
                        (workingDaysInMonth (gs_currentMonth st))))
      as [Hex|Hnex].
    + apply Exists_exists in Hex as (date & Hd & <-). by exists date.
    + rewrite grid_fold_only_columns in Hc; [done|done|].
      intros date Hd Hk. apply Hnex, Exists_exists. by exists date.
Qed.

Lemma fetchGridData_cells_witness :
  let ana := mkProfile "u1" "Ana" in
  let st' := fetchGridData (mkGridState Sample.monday [] [] true)
               (mkReply (Some [ana]) None)
               (mkReply (Some [Sample.short_day]) None) in
  map userId (gs_gridData st') = ["u1"%string].
Proof.
  intros ana st'.
  by apply (fetchGridData_cells (mkGridState Sample.monday [] [] true)
              (mkReply (Some [ana]) None)
              (mkReply (Some [Sample.short_day]) None) [ana]).
Defined.

(** ** The export of the grid and the delimited text *)

Section CsvExport.

Lemma grid_csv_row_cells (columns : list Date) (user : UserDailyData) :
  grid_csv_row columns user =
  [userName user; Number_toString (totalMissingHours user);
   pretty (workingDays user)] ++ map (grid_csv_cell user) columns.
Proof.
  unfold grid_csv_row.
  generalize [userName user; Number_toString (totalMissingHours user);
              pretty (workingDays user)].
  induction columns as [|date columns IH]; intros row; cbn [fold_left map].
  - by rewrite app_nil_r.
  - by rewrite IH, <- app_assoc.
Qed.

(** The exported table is rectangular: the header and every row have
    three fields and one per column; the field of a column is the text
    that the grid shows for the stored cell, and a dash where the row
    stores no cell for the column. *)
Theorem exportGridToCSV_rows (st : GridState) :
  (forall row, row ∈ grid_csv_rows st ->
               length row = (3 + length (gs_workingDays st))%nat) /\
  (forall u i date,
     gs_workingDays st !! i = Some date ->
     grid_csv_row (gs_workingDays st) u !! (3 + i)%nat =
       Some (grid_csv_cell u date)) /\
  (forall u date cell,
     dailyData u !! format_yyyy_MM_dd date = Some cell ->
     grid_csv_cell u date = getCellContent cell) /\
  (forall u date,
     dailyData u !! format_yyyy_MM_dd date = None ->
     grid_csv_cell u date = "-"%string).
Proof.
  split; [|split; [|split]].
  - intros row Hrow. unfold grid_csv_rows in Hrow.
    apply elem_of_cons in Hrow as [->|Hrow].
    + unfold grid_csv_headers. rewrite length_app, length_map. done.
    + apply list_elem_of_In, in_map_iff in Hrow as (u & <- & _).
      rewrite grid_csv_row_cells, length_app, length_map. done.
  - intros u i date Hi. rewrite grid_csv_row_cells.
    rewrite lookup_app_r by (cbn; lia).
    replace (3 + i - length _)%nat with i by (cbn; lia).
    change (map (grid_csv_cell u) (gs_workingDays st))
      with (grid_csv_cell u <$> gs_workingDays st).
    by rewrite list_lookup_fmap, Hi.
  - intros u date cell H. unfold grid_csv_cell, getCellContent.
    rewrite H. by destruct (dh_hasAttendance cell).
  - intros u date H. unfold grid_csv_cell. by rewrite H.
Qed.

Lemma exportGridToCSV_rows_witness :
  let st := fetchGridData (mkGridState Sample.monday [] [] true)
              (mkReply (Some [mkProfile "u1" "Ana"]) None)
              (mkReply (Some [Sample.short_day]) None) in
  grid_csv_row (gs_workingDays st) (grid_user [Sample.short_day]
    (gs_workingDays st) (mkProfile "u1" "Ana")) !! 3%nat =
  Some "-0.42h"%string.
Proof.
  intros st.
  destruct (exportGridToCSV_rows st) as (_ & H & _).
  rewrite (H _ 0%nat Sample.monday); [|reflexivity]. by vm_compute.
Defined.

Lemma string_app_assoc (a b c : string) :
  ((a +:+ b) +:+ c = a +:+ (b +:+ c))%string.
Proof.
  induction a as [|x a IH]; [done|].
  change (String x ((a +:+ b) +:+ c) = String x (a +:+ (b +:+ c)))%string.
  by rewrite IH.
Qed.

(** The fields are written between quotes as they are, without any
    escaping: a field that contains quote, comma, quote is written
    exactly like two fields, so the text does not tell the rows apart. *)
Theorem csv_line_not_escaped (a b : string) (rest : list string) :
  csv_line ((a +:+ quote_char +:+ "," +:+ quote_char +:+ b)%string :: rest) =
  csv_line (a :: b :: rest) /\
  (a +:+ quote_char +:+ "," +:+ quote_char +:+ b)%string :: rest <>
  a :: b :: rest.
Proof.
  split.
  - unfold csv_line. cbn [map]. unfold csv_field at 1 3 4.
    destruct (map csv_field rest) as [|f fs]; cbn [String.concat];
      by rewrite !string_app_assoc.
  - intros H. apply (f_equal length) in H. cbn in H. lia.
Qed.

End CsvExport.

(** ** The working hours of the attendance history *)

Section History.

Local Open Scope Z_scope.

(** Without a clock-out the history shows a fixed text.  With one, for a
    clock-out that is not before the clock-in, the hours and minutes
    shown are the whole minutes of the elapsed time, with minutes below
    60; for a clock-out before the clock-in nothing wraps around: the
    hours shown are negative. *)
Theorem working_hours_spec (clockIn out : Timestamp) :
  let diffMs := getTime out - getTime clockIn in
  let h := fst (working_hours clockIn out) in
  let m := snd (working_hours clockIn out) in
  formatWorkingHours clockIn None = "In Progress"%string /\
  formatWorkingHours clockIn (Some out) =
    (pretty h +:+ "h " +:+ pretty m +:+ "m")%string /\
  (0 <= diffMs ->
   0 <= h /\ 0 <= m < 60 /\
   (h * 60 + m) * 60000 <= diffMs < (h * 60 + m + 1) * 60000) /\
  (diffMs < 0 -> h < 0 /\ -60 <= m <= 0).
Proof.
  intros diffMs h m. subst h m. unfold formatWorkingHours, working_hours.
  fold diffMs. cbn [fst snd].
  split; [done|]. split; [done|].
  split; intros H; Z.to_euclidean_division_equations; lia.
Qed.

Lemma working_hours_spec_witness :
  let clockIn := Sample.at_ Sample.monday 9 5 12 in
  let out := Sample.at_ Sample.monday 16 40 59 in
  0 <= snd (working_hours clockIn out) < 60.
Proof.
  intros clockIn out.
  destruct (working_hours_spec clockIn out) as (_ & _ & H & _).
  apply H. by vm_compute.
Defined.

Lemma working_hours_span (clockIn out : Timestamp) :
  valid (ts_time clockIn) -> valid (ts_time out) ->
  seconds (ts_time clockIn) = 0 -> seconds (ts_time out) = 0 ->
  ts_timezoneOffset clockIn = ts_timezoneOffset out ->
  0 <= getTime out - getTime clockIn < ms_per_day ->
  let h := fst (working_hours clockIn out) in
  let m := snd (working_hours clockIn out) in
  (calculateHoursDifference (format_HH_mm clockIn) (format_HH_mm out) ==
   (h * 60 + m) # 60)%Q.
Proof.
  intros Hvi Hvo Hsi Hso Hoff Hd h m. subst h m.
  unfold working_hours, calculateHoursDifference, Date_2000_01_01.
  cbn [fst snd]. unfold getTime in *. rewrite Hoff in *.
  assert (ms_of_day (format_HH_mm clockIn) = ms_of_day (ts_time clockIn))
    as -> by (unfold ms_of_day, format_HH_mm; cbn; lia).
  assert (ms_of_day (format_HH_mm out) = ms_of_day (ts_time out))
    as -> by (unfold ms_of_day, format_HH_mm; cbn; lia).
  assert (exists a, ms_of_day (ts_time clockIn) = a * 60000 /\ 0 <= a < 1440)
    as (a & Ea & Ha).
  { exists (hours (ts_time clockIn) * 60 + minutes (ts_time clockIn)).
    unfold valid, ms_of_day in *. lia. }
  assert (exists b, ms_of_day (ts_time out) = b * 60000 /\ 0 <= b < 1440)
    as (b & Eb & Hb).
  { exists (hours (ts_time out) * 60 + minutes (ts_time out)).
    unfold valid, ms_of_day in *. lia. }
  rewrite Ea, Eb in *. unfold ms_per_day in *.
  generalize dependent (ts_timezoneOffset out). intros off _.
  generalize dependent (days_from_civil (ts_date out)).
  generalize dependent (days_from_civil (ts_date clockIn)).
  intros di do_ Hd.
  destruct (Z.ltb_spec (midnight_2000_01_01 + b * 60000)
              (midnight_2000_01_01 + a * 60000)).
  - assert (do_ = di + 1) as -> by lia.
    replace ((di + 1) * (24 * 60 * 60 * 1000) + b * 60000 + off * 60000 -
             (di * (24 * 60 * 60 * 1000) + a * 60000 + off * 60000))
      with ((1440 + b - a) * 60000) by lia.
    unfold Qeq, ms_per_hour; cbn [Qnum Qden].
    Z.to_euclidean_division_equations; lia.
  - assert (do_ = di) as -> by lia.
    replace (di * (24 * 60 * 60 * 1000) + b * 60000 + off * 60000 -
             (di * (24 * 60 * 60 * 1000) + a * 60000 + off * 60000))
      with ((b - a) * 60000) by lia.
    unfold Qeq, ms_per_hour; cbn [Qnum Qden].
    Z.to_euclidean_division_equations; lia.
Qed.

(** For a row that counts in the reports (it carries a shift with both
    times and a clock-out), whose two stamps fall on whole minutes and
    were taken under the same offset from UTC, over a session of less
    than 24 hours: the hours and minutes that the history shows are the
    actual time that the loops of the calendar, of the grid and of the
    summary add for the row, also across midnight. *)
Theorem working_hours_agree (record : AttendanceRecord) (out : Timestamp) :
  clock_out_time record = Some out ->
  has_complete_shift record = true ->
  valid (ts_time (waktu record)) -> valid (ts_time out) ->
  seconds (ts_time (waktu record)) = 0 -> seconds (ts_time out) = 0 ->
  ts_timezoneOffset (waktu record) = ts_timezoneOffset out ->
  0 <= getTime out - getTime (waktu record) < ms_per_day ->
  let h := fst (working_hours (waktu record) out) in
  let m := snd (working_hours (waktu record) out) in
  (forall e a,
     snd (day_step (e, a) record) == a + ((h * 60 + m) # 60))%Q /\
  (forall e a n,
     snd (fst (summary_step (e, a, n) record)) == a + ((h * 60 + m) # 60))%Q.
Proof.
  intros Hout Hshift Hvi Hvo Hsi Hso Hoff Hd h m.
  pose proof (working_hours_span (waktu record) out Hvi Hvo Hsi Hso Hoff Hd)
    as Hspan.
  cbn zeta in Hspan. fold h m in Hspan.
  assert (Hstep : forall e a,
            (snd (day_step (e, a) record) == a + ((h * 60 + m) # 60))%Q).
  { intros e a. unfold day_step. unfold has_complete_shift in Hshift.
    rewrite Hout.
    destruct (shift record) as [sh|]; [|discriminate].
    destruct (jam_masuk sh); [|discriminate].
    destruct (jam_keluar sh); [|discriminate].
    cbn [snd]. by rewrite Hspan. }
  split; [exact Hstep|].
  intros e a n. rewrite summary_step_day_step. cbn [fst]. apply Hstep.
Qed.

Lemma working_hours_agree_witness :
  working_hours (waktu Sample.night)
    (Sample.at_ Sample.tuesday 6 0 0) = (8, 0) /\
  (snd (day_step (0, 0) Sample.night) == 0 + ((8 * 60 + 0) # 60))%Q.
Proof.
  split; [reflexivity|].
  apply (working_hours_agree Sample.night (Sample.at_ Sample.tuesday 6 0 0));
    try reflexivity; try (unfold valid; cbn; lia).
  by vm_compute.
Defined.

(** When the offset from UTC changes between the two stamps, the two
    views part: a session from 01:30 to 10:30 on a day whose clocks were
    put forward by one hour lasts 8 hours in the history and counts as 9
    hours in the reports. *)
Example offset_change_parts_views :
  let clockIn := mkTimestamp (mkDate 2024 3 10) (mkTime 1 30 0) 300 in
  let out := mkTimestamp (mkDate 2024 3 10) (mkTime 10 30 0) 240 in
  working_hours clockIn out = (8, 0) /\
  (calculateHoursDifference (format_HH_mm clockIn) (format_HH_mm out) == 9)%Q.
Proof. by vm_compute. Qed.

End History.

(** ** The cells of the calendar *)

(** A calendar cell carries no indicator exactly when its day has no
    row; with rows, the status is one of missing, overtime and complete
    and the indicator is the text of that status, so the fall-through
    branch of the indicator is never taken. *)
Theorem status_indicator (attendanceData : list AttendanceRecord)
    (date : Date) :
  let d := calendar_day attendanceData date in
  let records := records_of_day attendanceData date in
  (getStatusIndicator d = None <-> records = []) /\
  (dd_hasAttendance d = true <-> dd_status d <> no_attendance) /\
  (records <> [] ->
   getStatusIndicator d =
   Some match dd_status d with
        | missing =>
            ("-" +:+ Number_toString (dd_missingHours d) +:+ "h")%string
        | overtime =>
            ("+" +:+ Number_toString (dd_overtimeHours d) +:+ "h")%string
        | _ => ("✓ " +:+ Number_toString (dd_actualHours d) +:+ "h")%string
        end).
Proof.
  intros d records.
  destruct (calendar_day_fields attendanceData date)
    as (_ & _ & _ & _ & Hh & Hs & _).
  fold d records in Hh, Hs.
  unfold getStatusIndicator. rewrite Hs, Hh. unfold classify.
  destruct records as [|r rs]; cbn [length Nat.eqb negb].
  - repeat split; try done; intros H; by destruct H.
  - destruct (Qlt_le_dec 0 _); [|destruct (Qlt_le_dec 0 _)];
      repeat split; try done; intros H; by destruct H.
Qed.

Lemma status_indicator_witness :
  getStatusIndicator (calendar_day [Sample.long_day] Sample.monday) =
  Some ("+" +:+ Number_toString (25 # 10) +:+ "h")%string.
Proof.
  destruct (status_indicator [Sample.long_day] Sample.monday)
    as (_ & _ & H).
  rewrite H; [by vm_compute|]. vm_compute. discriminate.
Defined.

(** ** The columns of the grid and the cells of the calendar *)

Section Weekdays.

Local Open Scope Z_scope.

Lemma getDay_in_month (y m : Z) (i : nat) :
  getDay (mkDate y m (1 + Z.of_nat i)) =
  (getDay (mkDate y m 1) + Z.of_nat i) mod 7.
Proof.
  unfold getDay. rewrite (days_from_civil_day y m (1 + Z.of_nat i)).
  Z.div_mod_to_equations; lia.
Qed.

Lemma workingDaysInMonth_length (currentMonth : Date) :
  length (workingDaysInMonth currentMonth) =
  weekdays_from (getDay (startOfMonth currentMonth))
    (Z.to_nat (getDaysInMonth (year currentMonth) (month currentMonth))).
Proof.
  unfold workingDaysInMonth, weekdays_from. rewrite eachDayOfInterval_month.
  unfold startOfMonth. cbn [year month].
  generalize
    (Z.to_nat (getDaysInMonth (year currentMonth) (month currentMonth))).
  intros n. generalize 0%nat.
  induction n as [|n IH]; intros s; [done|].
  cbn [seq map List.filter]. unfold isWeekend at 1.
  rewrite getDay_in_month.
  destruct (negb _); cbn [length]; by rewrite IH.
Qed.

Lemma workingDaysInMonth_count (currentMonth : Date) :
  (20 <= length (workingDaysInMonth currentMonth) <= 23)%nat.
Proof.
  rewrite workingDaysInMonth_length.
  pose proof (getDaysInMonth_range (year currentMonth)
                (month currentMonth)) as Hn.
  assert (0 <= getDay (startOfMonth currentMonth) < 7) as Hg
    by (unfold getDay; apply Z.mod_pos_bound; lia).
  generalize dependent (getDay (startOfMonth currentMonth)).
  generalize dependent
    (getDaysInMonth (year currentMonth) (month currentMonth)).
  intros n Hn g Hg.
  assert (n = 28 \/ n = 29 \/ n = 30 \/ n = 31) as [->|[->|[->| ->]]] by lia;
  assert (g = 0 \/ g = 1 \/ g = 2 \/ g = 3 \/ g = 4 \/ g = 5 \/ g = 6)
    as [->|[->|[->|[->|[->|[->| ->]]]]]] by lia;
  vm_compute; lia.
Qed.

End Weekdays.

Section CalendarDates.

Local Open Scope Z_scope.

Lemma valid_date_addDay (d : Date) : valid_date d -> valid_date (addDay d).
Proof.
  destruct d as [y m dd]. unfold valid_date, valid_month, addDay.
  cbn [year month day]. intros [Hm Hd].
  pose proof (getDaysInMonth_range y m).
  destruct (Z.ltb_spec dd (getDaysInMonth y m)); cbn [year month day];
    [lia|].
  destruct (Z.ltb_spec m 12); cbn [year month day].
  - pose proof (getDaysInMonth_range y (m + 1)). lia.
  - pose proof (getDaysInMonth_range (y + 1) 1). lia.
Qed.

Lemma getDaysInMonth_12 (y : Z) : getDaysInMonth y 12 = 31.
Proof. reflexivity. Qed.

Lemma valid_date_subDay (d : Date) : valid_date d -> valid_date (subDay d).
Proof.
  destruct d as [y m dd]. unfold valid_date, valid_month, subDay.
  cbn [year month day]. intros [Hm Hd].
  destruct (Z.ltb_spec 1 dd); cbn [year month day]; [lia|].
  destruct (Z.ltb_spec 1 m); cbn [year month day].
  - pose proof (getDaysInMonth_range y (m - 1)). lia.
  - rewrite getDaysInMonth_12. lia.
Qed.

Lemma addDay_subDay (d : Date) : valid_date d -> addDay (subDay d) = d.
Proof.
  destruct d as [y m dd]. unfold valid_date, valid_month, subDay, addDay.
  cbn [year month day]. intros [Hm Hd].
  destruct (Z.ltb_spec 1 dd); cbn [year month day].
  - destruct (Z.ltb_spec (dd - 1) (getDaysInMonth y m)); [|lia].
    f_equal. lia.
  - destruct (Z.ltb_spec 1 m); cbn [year month day].
    + rewrite Z.ltb_irrefl.
      destruct (Z.ltb_spec (m - 1) 12); [|lia]. f_equal; lia.
    + rewrite getDaysInMonth_12, Z.ltb_irrefl. cbn. f_equal; lia.
Qed.

Lemma days_from_civil_subDay (d : Date) :
  valid_date d -> days_from_civil (subDay d) = days_from_civil d - 1.
Proof.
  intros H.
  pose proof (days_from_civil_addDay (subDay d) (valid_date_subDay d H)) as E.
  rewrite (addDay_subDay d H) in E. rewrite E. ring.
Qed.

Lemma iter_subDay (k : nat) (d : Date) :
  valid_date d ->
  valid_date (Nat.iter k subDay d) /\
  days_from_civil (Nat.iter k subDay d) = days_from_civil d - Z.of_nat k /\
  Nat.iter k addDay (Nat.iter k subDay d) = d.
Proof.
  intros H. induction k as [|k (IH1 & IH2 & IH3)].
  - change (Nat.iter 0 subDay d) with d. split; [done|]. split; [lia|done].
  - rewrite !Nat.iter_succ. split; [by apply valid_date_subDay|].
    split; [rewrite days_from_civil_subDay by done; lia|].
    rewrite <- Nat.iter_succ, Nat.iter_succ_r, addDay_subDay by done. done.
Qed.

Lemma iter_addDay (k : nat) (d : Date) :
  valid_date d ->
  valid_date (Nat.iter k addDay d) /\
  days_from_civil (Nat.iter k addDay d) = days_from_civil d + Z.of_nat k.
Proof.
  intros H. induction k as [|k (IH1 & IH2)].
  - change (Nat.iter 0 addDay d) with d. split; [done|lia].
  - rewrite !Nat.iter_succ. split; [by apply valid_date_addDay|].
    rewrite days_from_civil_addDay by done. lia.
Qed.

Lemma days_from_app (a b : nat) (d : Date) :
  days_from (a + b) d = days_from a d ++ days_from b (Nat.iter a addDay d).
Proof.
  revert d. induction a as [|a IH]; intros d; [done|].
  cbn [Nat.add days_from app]. rewrite IH. do 2 f_equal.
  by rewrite Nat.iter_succ_r.
Qed.

Lemma days_from_lookup (n i : nat) (d : Date) :
  (i < n)%nat -> days_from n d !! i = Some (Nat.iter i addDay d).
Proof.
  revert i d. induction n as [|n IH]; intros i d Hi; [lia|].
  destruct i as [|i]; [done|]. cbn [days_from]. cbn [lookup list_lookup].
  rewrite IH by lia. by rewrite Nat.iter_succ_r.
Qed.

Lemma length_days_from (n : nat) (d : Date) : length (days_from n d) = n.
Proof.
  revert d. induction n as [|n IH]; intros d; cbn; [done|]. by rewrite IH.
Qed.

Lemma iter_subDay_in_month (j : nat) (y m d : Z) :
  Z.of_nat j < d ->
  Nat.iter j subDay (mkDate y m d) = mkDate y m (d - Z.of_nat j).
Proof.
  induction j as [|j IH]; intros Hj.
  - change (Nat.iter 0 subDay (mkDate y m d)) with (mkDate y m d).
    f_equal. lia.
  - rewrite Nat.iter_succ, IH by lia. unfold subDay. cbn [year month day].
    destruct (Z.ltb_spec 1 (d - Z.of_nat j)); [|lia]. f_equal. lia.
Qed.

Lemma iter_addDay_in_month (j : nat) (y m d : Z) :
  d + Z.of_nat j <= getDaysInMonth y m ->
  Nat.iter j addDay (mkDate y m d) = mkDate y m (d + Z.of_nat j).
Proof.
  induction j as [|j IH]; intros Hj.
  - change (Nat.iter 0 addDay (mkDate y m d)) with (mkDate y m d).
    f_equal. lia.
  - rewrite Nat.iter_succ, IH by lia. unfold addDay. cbn [year month day].
    destruct (Z.ltb_spec (d + Z.of_nat j) (getDaysInMonth y m)); [|lia].
    f_equal. lia.
Qed.

Section CalendarGrid.

Variable currentMonth : Date.
Hypothesis Hmonth : valid_month currentMonth.

Let y := year currentMonth.
Let m := month currentMonth.
Let monthStart := startOfMonth currentMonth.
Let monthEnd := endOfMonth currentMonth.
Let dim := Z.to_nat (getDaysInMonth y m).
Let lead := Z.to_nat (getDay monthStart).
Let trail := Z.to_nat (6 - getDay monthEnd).

Lemma monthStart_valid : valid_date monthStart.
Proof.
  unfold monthStart, startOfMonth, valid_date, valid_month in *.
  cbn [year month day].
  pose proof (getDaysInMonth_range (year currentMonth) (month currentMonth)).
  lia.
Qed.

Lemma monthEnd_valid : valid_date monthEnd.
Proof.
  unfold monthEnd, endOfMonth, valid_date, valid_month in *.
  cbn [year month day].
  pose proof (getDaysInMonth_range (year currentMonth) (month currentMonth)).
  lia.
Qed.

Lemma getDay_range (d : Date) : 0 <= getDay d < 7.
Proof. unfold getDay. apply Z.mod_pos_bound. lia. Qed.

Lemma monthEnd_day_number :
  days_from_civil monthEnd = days_from_civil monthStart + Z.of_nat dim - 1.
Proof.
  unfold monthEnd, endOfMonth, monthStart, startOfMonth, dim, y, m.
  rewrite (days_from_civil_day _ _ (getDaysInMonth _ _)).
  pose proof (getDaysInMonth_range (year currentMonth) (month currentMonth)).
  lia.
Qed.

Lemma allDays_days_from :
  eachDayOfInterval monthStart monthEnd = days_from dim monthStart.
Proof.
  unfold eachDayOfInterval. rewrite monthEnd_day_number. f_equal. lia.
Qed.

Lemma calendarDays_split :
  calendarDays currentMonth =
  days_from lead (startOfWeek monthStart) ++
  eachDayOfInterval monthStart monthEnd ++
  days_from trail (Nat.iter dim addDay monthStart).
Proof.
  unfold calendarDays. fold monthStart monthEnd.
  unfold eachDayOfInterval at 1.
  pose proof (getDay_range monthStart) as Hg1.
  pose proof (getDay_range monthEnd) as Hg2.
  destruct (iter_subDay lead monthStart monthStart_valid) as (Hv & Hd & Hback).
  destruct (iter_addDay trail monthEnd monthEnd_valid) as (_ & Hd').
  fold (startOfWeek monthStart) in Hv, Hd, Hback.
  unfold endOfWeek at 1. fold trail. rewrite Hd'.
  unfold startOfWeek at 1. fold lead. fold (startOfWeek monthStart).
  rewrite Hd, monthEnd_day_number.
  replace (Z.to_nat _) with (lead + (dim + trail))%nat by lia.
  rewrite !days_from_app. unfold startOfWeek at 2. fold lead.
  fold (startOfWeek monthStart). unfold startOfWeek at 2. fold lead.
  rewrite Hback. by rewrite allDays_days_from.
Qed.


Lemma lead_range : (lead <= 6)%nat.
Proof. pose proof (getDay_range monthStart). unfold lead. lia. Qed.

Lemma trail_range : (trail <= 6)%nat.
Proof. pose proof (getDay_range monthEnd). unfold trail. lia. Qed.

Lemma dim_range : (28 <= dim <= 31)%nat.
Proof.
  pose proof (getDaysInMonth_range y m). unfold dim. lia.
Qed.

(** The cells before the first of the month belong to the month before. *)
Lemma lead_not_in_month (d : Date) :
  d ∈ days_from lead (startOfWeek monthStart) ->
  isSameMonth d currentMonth = false.
Proof.
  intros Hd. apply list_elem_of_lookup in Hd as [i Hi].
  assert (i < lead)%nat as Hlt.
  { apply lookup_lt_Some in Hi. by rewrite length_days_from in Hi. }
  rewrite days_from_lookup in Hi by done. injection Hi as <-.
  pose proof lead_range as Hl.
  (* the cell is [lead - i] days before the first of the month *)
  assert (Nat.iter i addDay (startOfWeek monthStart) =
          Nat.iter (lead - i) subDay monthStart) as ->.
  { assert (startOfWeek monthStart =
            Nat.iter i subDay (Nat.iter (lead - i) subDay monthStart)) as ->
      by (rewrite <- Nat.iter_add; unfold startOfWeek; f_equal;
          unfold lead in *; lia).
    destruct (iter_subDay (lead - i) monthStart monthStart_valid)
      as (Hv & _ & _).
    by destruct (iter_subDay i _ Hv) as (_ & _ & ->). }
  destruct (lead - i)%nat as [|j] eqn:Ej; [lia|].
  rewrite Nat.iter_succ_r. unfold monthStart, startOfMonth, subDay at 2.
  cbn [year month day]. rewrite Z.ltb_irrefl.
  unfold valid_month in Hmonth.
  destruct (Z.ltb_spec 1 (month currentMonth)).
  - pose proof (getDaysInMonth_range (year currentMonth)
                  (month currentMonth - 1)).
    rewrite iter_subDay_in_month by lia.
    unfold isSameMonth. cbn [year month day].
    destruct (Z.eqb_spec (month currentMonth - 1) (month currentMonth));
      [lia|]. by rewrite andb_false_r.
  - rewrite iter_subDay_in_month by lia.
    unfold isSameMonth. cbn [year month day].
    destruct (Z.eqb_spec (year currentMonth - 1) (year currentMonth));
      [lia|done].
Qed.

Lemma after_month_start :
  Nat.iter dim addDay monthStart = addDay monthEnd.
Proof.
  pose proof dim_range as Hd.
  replace dim with (S (dim - 1)) by lia. rewrite Nat.iter_succ.
  unfold monthStart, startOfMonth. rewrite iter_addDay_in_month.
  - unfold monthEnd, endOfMonth. do 2 f_equal. unfold dim, y, m in *. lia.
  - unfold dim, y, m in *. lia.
Qed.

(** The cells after the last of the month belong to the month after. *)
Lemma trail_not_in_month (d : Date) :
  d ∈ days_from trail (Nat.iter dim addDay monthStart) ->
  isSameMonth d currentMonth = false.
Proof.
  intros Hd. apply list_elem_of_lookup in Hd as [i Hi].
  assert (i < trail)%nat as Hlt.
  { apply lookup_lt_Some in Hi. by rewrite length_days_from in Hi. }
  rewrite days_from_lookup in Hi by done. injection Hi as <-.
  pose proof trail_range as Hl.
  rewrite after_month_start. unfold monthEnd, endOfMonth, addDay at 2.
  cbn [year month day]. rewrite Z.ltb_irrefl.
  unfold valid_month in Hmonth.
  destruct (Z.ltb_spec (month currentMonth) 12).
  - pose proof (getDaysInMonth_range (year currentMonth)
                  (month currentMonth + 1)).
    rewrite iter_addDay_in_month by lia.
    unfold isSameMonth. cbn [year month day].
    destruct (Z.eqb_spec (month currentMonth + 1) (month currentMonth));
      [lia|]. by rewrite andb_false_r.
  - pose proof (getDaysInMonth_range (year currentMonth + 1) 1).
    rewrite iter_addDay_in_month by lia.
    unfold isSameMonth. cbn [year month day].
    destruct (Z.eqb_spec (year currentMonth + 1) (year currentMonth));
      [lia|done].
Qed.

Lemma allDays_same_month (d : Date) :
  d ∈ eachDayOfInterval monthStart monthEnd ->
  isSameMonth d currentMonth = true.
Proof.
  intros Hd. apply allDays_elem in Hd as (Hy & Hm & _).
  unfold isSameMonth. rewrite Hy, Hm, !Z.eqb_refl. done.
Qed.

Lemma calendarDays_length :
  length (calendarDays currentMonth) = (lead + dim + trail)%nat.
Proof.
  rewrite calendarDays_split, !length_app, !length_days_from.
  rewrite allDays_days_from, length_days_from. lia.
Qed.

Lemma calendarDays_weeks :
  (length (calendarDays currentMonth) mod 7 = 0)%nat /\
  (28 <= length (calendarDays currentMonth) <= 42)%nat.
Proof.
  rewrite calendarDays_length.
  pose proof lead_range. pose proof trail_range. pose proof dim_range.
  pose proof (getDay_range monthStart) as Hg1.
  pose proof (getDay_range monthEnd) as Hg2.
  assert (getDay monthEnd = (getDay monthStart + Z.of_nat dim - 1) mod 7)
    as Hg.
  { unfold getDay. rewrite monthEnd_day_number.
    Z.div_mod_to_equations; lia. }
  assert (Z.of_nat (lead + dim + trail) mod 7 = 0) as Hz.
  { unfold lead, trail in *. rewrite Hg in *.
    Z.div_mod_to_equations; lia. }
  split; [|Z.div_mod_to_equations; lia].
  apply Nat2Z.inj. rewrite Nat2Z.inj_mod. exact Hz.
Qed.

Lemma calendarDays_weekday (i : nat) (d : Date) :
  calendarDays currentMonth !! i = Some d -> getDay d = Z.of_nat i mod 7.
Proof.
  intros Hi. unfold calendarDays in Hi. fold monthStart monthEnd in Hi.
  unfold eachDayOfInterval in Hi.
  assert (Hlt := Hi). apply lookup_lt_Some in Hlt.
  rewrite length_days_from in Hlt.
  rewrite days_from_lookup in Hi by done. injection Hi as <-.
  destruct (iter_subDay lead monthStart monthStart_valid) as (Hv & Hd & _).
  destruct (iter_addDay i _ Hv) as (_ & Hd').
  change (startOfWeek monthStart) with (Nat.iter lead subDay monthStart).
  unfold getDay. rewrite Hd', Hd.
  pose proof (getDay_range monthStart) as Hg. unfold lead.
  unfold getDay in *. Z.div_mod_to_equations; lia.
Qed.


Lemma calendarDays_padding :
  exists before after,
    calendarDays currentMonth =
      before ++ eachDayOfInterval monthStart monthEnd ++ after /\
    (length before <= 6)%nat /\ (length after <= 6)%nat /\
    (forall d, d ∈ before ++ after -> isSameMonth d currentMonth = false).
Proof.
  exists (days_from lead (startOfWeek monthStart)),
    (days_from trail (Nat.iter dim addDay monthStart)).
  split; [apply calendarDays_split|].
  rewrite !length_days_from.
  split; [apply lead_range|]. split; [apply trail_range|].
  intros d Hd. apply elem_of_app in Hd as [Hd|Hd].
  - by apply lead_not_in_month.
  - by apply trail_not_in_month.
Qed.

End CalendarGrid.

End CalendarDates.

Lemma calendar_day_date (attendanceData : list AttendanceRecord) (date : Date) :
  dd_date (calendar_day attendanceData date) = date.
Proof.
  unfold calendar_day.
  by destruct (day_hours (records_of_day attendanceData date)).
Qed.

Lemma filter_map_comm {A B : Type} (f : B -> bool) (g : A -> B) (l : list A) :
  List.filter f (map g l) = map g (List.filter (fun x => f (g x)) l).
Proof.
  induction l as [|x l IH]; [done|]. cbn [map List.filter].
  destruct (f (g x)); cbn [map]; by rewrite IH.
Qed.

Lemma filter_all_false {A : Type} (f : A -> bool) (l : list A) :
  (forall x, x ∈ l -> f x = false) -> List.filter f l = [].
Proof.
  induction l as [|x l IH]; intros H; [done|]. cbn [List.filter].
  rewrite H by left. apply IH. intros z Hz. apply H. by right.
Qed.

Lemma filter_ext_elem {A : Type} (f g : A -> bool) (l : list A) :
  (forall x, x ∈ l -> f x = g x) -> List.filter f l = List.filter g l.
Proof.
  induction l as [|x l IH]; intros H; [done|]. cbn [List.filter].
  rewrite H by left. rewrite IH; [done|]. intros z Hz. apply H. by right.
Qed.

Section MonthlyStats.

Local Open Scope Q_scope.

Lemma monthlyStats_fold (l : list DayData) (acc : MonthlyStats) :
  let step := fun acc day =>
    {| ms_totalExpected := ms_totalExpected acc + dd_expectedHours day;
       ms_totalActual := ms_totalActual acc + dd_actualHours day;
       ms_totalMissing := ms_totalMissing acc + dd_missingHours day;
       ms_totalOvertime := ms_totalOvertime acc + dd_overtimeHours day;
       ms_workingDays := S (ms_workingDays acc) |} in
  let final := fold_left step l acc in
  ms_workingDays final = (ms_workingDays acc + length l)%nat /\
  ms_totalExpected final ==
    ms_totalExpected acc + Qsum (map dd_expectedHours l) /\
  ms_totalActual final == ms_totalActual acc + Qsum (map dd_actualHours l) /\
  ms_totalMissing final ==
    ms_totalMissing acc + Qsum (map dd_missingHours l) /\
  ms_totalOvertime final ==
    ms_totalOvertime acc + Qsum (map dd_overtimeHours l).
Proof.
  intros step. revert acc. induction l as [|d l IH]; intros acc.
  - cbn. unfold Qsum; cbn [foldr]. repeat split; try lra. lia.
  - cbn [fold_left map length]. cbn zeta in IH |- *.
    destruct (IH (step acc d)) as (Hn & He & Ha & Hm & Ho).
    rewrite Hn, He, Ha, Hm, Ho. subst step. cbn.
    unfold Qsum; cbn [foldr]. repeat split; try lra. lia.
Qed.

(** After a fetch that succeeds for a month from 1 to 12, the statistics
    card counts exactly the days of that month that hold a row, the
    padding days of the adjacent months left out, and its totals are the
    sums of the rounded values of those days. *)
Theorem monthlyStats_of_month (st : CalendarState)
    (reply : Reply (list AttendanceRecord)) :
  valid_month (cs_currentMonth st) ->
  cs_selectedUser st <> ""%string -> cs_selectedUser st <> "all"%string ->
  error reply = None ->
  let st' := fetchCalendarData st reply in
  let attendanceData := or_empty (data reply) in
  let allDays :=
    eachDayOfInterval (startOfMonth (cs_currentMonth st))
      (endOfMonth (cs_currentMonth st)) in
  let worked :=
    map (calendar_day attendanceData)
      (days_with_attendance attendanceData allDays) in
  ms_workingDays (monthlyStats st') = length worked /\
  ms_totalExpected (monthlyStats st') == Qsum (map dd_expectedHours worked) /\
  ms_totalActual (monthlyStats st') == Qsum (map dd_actualHours worked) /\
  ms_totalMissing (monthlyStats st') == Qsum (map dd_missingHours worked) /\
  ms_totalOvertime (monthlyStats st') == Qsum (map dd_overtimeHours worked).
Proof.
  intros Hm Hu1 Hu2 Herr st' attendanceData allDays worked.
  assert (Hfilter :
    List.filter
      (fun day => isSameMonth (dd_date day) (cs_currentMonth st') &&
                  dd_hasAttendance day)
      (cs_calendarData st') = worked).
  { subst st'. unfold fetchCalendarData.
    rewrite !bool_decide_eq_false_2 by done. cbn [orb]. rewrite Herr.
    cbn [cs_calendarData cs_currentMonth]. fold attendanceData.
    rewrite filter_map_comm. subst worked. f_equal.
    destruct (calendarDays_padding (cs_currentMonth st) Hm)
      as (before & after & -> & _ & _ & Hpad).
    rewrite !List.filter_app.
    rewrite (filter_all_false _ before), (filter_all_false _ after).
    - rewrite app_nil_r. cbn [app]. apply filter_ext_elem.
      intros d Hd. rewrite calendar_day_date.
      rewrite (allDays_same_month _ d Hd). cbn [andb].
      by destruct (calendar_day_fields attendanceData d)
        as (_ & _ & _ & _ & -> & _).
    - intros d Hd. rewrite calendar_day_date, Hpad; [done|].
      apply elem_of_app. by right.
    - intros d Hd. rewrite calendar_day_date, Hpad; [done|].
      apply elem_of_app. by left. }
  unfold monthlyStats. rewrite Hfilter.
  pose proof (monthlyStats_fold worked
    {| ms_totalExpected := 0; ms_totalActual := 0; ms_totalMissing := 0;
       ms_totalOvertime := 0; ms_workingDays := 0 |}) as H.
  cbn zeta in H. cbn [ms_workingDays ms_totalExpected ms_totalActual
                       ms_totalMissing ms_totalOvertime] in H.
  destruct H as (Hn & He & Ha & Hmi & Ho).
  rewrite Hn, He, Ha, Hmi, Ho. repeat split; lra.
Qed.

End MonthlyStats.

(** ** Statements on the columns, the calendar and its statistics *)

(** Every month gives the grid between 20 and 23 columns, and the
    [workingDays] of a user, the days with at least one row, never
    exceeds the number of columns. *)
Theorem working_day_columns (currentMonth : Date)
    (attendanceData : list AttendanceRecord) (user : Profile) :
  let columns := workingDaysInMonth currentMonth in
  (20 <= length columns <= 23)%nat /\
  (workingDays (grid_user attendanceData columns user) <= length columns)%nat.
Proof.
  intros columns. split; [apply workingDaysInMonth_count|].
  unfold grid_user, grid_loop. cbn [workingDays].
  rewrite grid_fold_count. cbn [grid_init ga_workingDaysCount Nat.add].
  unfold days_with_attendance. apply List.filter_length_le.
Qed.

(** For a month from 1 to 12, the calendar is made of whole weeks, four
    to six of them; the cell at position [i] falls on the weekday of the
    header above it; and the cells are the days of the month in order,
    preceded and followed by at most six days of the adjacent months. *)
Theorem calendar_grid_weeks (currentMonth : Date) :
  valid_month currentMonth ->
  let cells := calendarDays currentMonth in
  (length cells mod 7 = 0)%nat /\ (28 <= length cells <= 42)%nat /\
  (forall i d,
     cells !! i = Some d ->
     getDay d = (Z.of_nat i mod 7)%Z /\
     weekDays !! (i mod 7)%nat = weekDays !! Z.to_nat (getDay d)) /\
  (exists before after,
     cells = before ++
             eachDayOfInterval (startOfMonth currentMonth)
               (endOfMonth currentMonth) ++ after /\
     (length before <= 6)%nat /\ (length after <= 6)%nat /\
     (forall d, d ∈ before ++ after -> isSameMonth d currentMonth = false)).
Proof.
  intros Hm cells.
  destruct (calendarDays_weeks currentMonth Hm) as [H7 Hlen].
  split; [done|]. split; [done|]. split.
  - intros i d Hi.
    pose proof (calendarDays_weekday currentMonth Hm i d Hi) as Hg.
    split; [done|]. rewrite Hg. f_equal.
    rewrite <- (Nat2Z.id (i mod 7)), Nat2Z.inj_mod. done.
  - apply (calendarDays_padding currentMonth Hm).
Qed.

Lemma calendar_grid_weeks_witness :
  length (calendarDays (mkDate 2024 7 15)) = 35%nat /\
  (length (calendarDays (mkDate 2024 7 15)) mod 7 = 0)%nat.
Proof.
  split; [reflexivity|].
  apply (calendar_grid_weeks (mkDate 2024 7 15)).
  unfold valid_month. cbn. lia.
Defined.

Lemma monthlyStats_of_month_witness :
  let st := mkCalendarState Sample.monday [] true "u1" in
  let reply := mkReply (Some [Sample.short_day; Sample.long_day]) None in
  ms_workingDays (monthlyStats (fetchCalendarData st reply)) = 1%nat.
Proof.
  intros st reply.
  destruct (monthlyStats_of_month st reply) as (H & _);
    [unfold valid_month; cbn; lia|done|done|done|].
  rewrite H. by vm_compute.
Defined.

(** ** Date texts *)

Section DateTexts.

Local Open Scope Z_scope.

Lemma pad4_checked : pad_checked 4 (Z.to_nat 10000) = true.
Proof. vm_compute. reflexivity. Qed.

Lemma pad2_checked : pad_checked 2 100 = true.
Proof. vm_compute. reflexivity. Qed.

Lemma pad_roundtrip (width n : nat) (x : Z) :
  pad_checked width n = true -> 0 <= x < Z.of_nat n ->
  digits_value (pad width x) = x /\ String.length (pad width x) = width.
Proof.
  intros Hc Hx. unfold pad_checked in Hc. rewrite forallb_forall in Hc.
  specialize (Hc (Z.to_nat x)). rewrite Z2Nat.id in Hc by lia.
  assert (In (Z.to_nat x) (seq 0 n)) as Hin by (apply in_seq; lia).
  apply Hc, andb_prop in Hin as [H1 H2].
  split; [by apply Z.eqb_eq|by apply Nat.eqb_eq].
Qed.

Lemma string_app_inj_length (a a' b b' : string) :
  String.length a = String.length a' ->
  (a +:+ b = a' +:+ b')%string -> a = a' /\ b = b'.
Proof.
  revert a'. induction a as [|c a IH]; intros [|c' a'] Hl H; try done.
  cbn in Hl. injection Hl as Hl.
  change (String c (a +:+ b) = String c' (a' +:+ b'))%string in H.
  injection H as -> H. destruct (IH a' Hl H) as [-> ->]. done.
Qed.

Lemma format_yyyy_MM_dd_inj (d1 d2 : Date) :
  date_text_ok d1 -> date_text_ok d2 ->
  format_yyyy_MM_dd d1 = format_yyyy_MM_dd d2 -> d1 = d2.
Proof.
  intros (Hy1 & Hm1 & Hd1) (Hy2 & Hm2 & Hd2) H.
  destruct d1 as [y1 m1 dd1], d2 as [y2 m2 dd2]. cbn [year month day] in *.
  unfold format_yyyy_MM_dd in H. cbn [year month day] in H.
  destruct (pad_roundtrip 4 _ y1 pad4_checked ltac:(lia)) as [Vy1 Ly1].
  destruct (pad_roundtrip 4 _ y2 pad4_checked ltac:(lia)) as [Vy2 Ly2].
  destruct (pad_roundtrip 2 _ m1 pad2_checked ltac:(lia)) as [Vm1 Lm1].
  destruct (pad_roundtrip 2 _ m2 pad2_checked ltac:(lia)) as [Vm2 Lm2].
  destruct (pad_roundtrip 2 _ dd1 pad2_checked ltac:(lia)) as [Vd1 Ld1].
  destruct (pad_roundtrip 2 _ dd2 pad2_checked ltac:(lia)) as [Vd2 Ld2].
  apply string_app_inj_length in H as [Ey H]; [|congruence].
  apply (string_app_inj_length "-" "-") in H as [_ H]; [|done].
  apply string_app_inj_length in H as [Em H]; [|congruence].
  apply (string_app_inj_length "-" "-") in H as [_ Ed]; [|done].
  f_equal; congruence.
Qed.

End DateTexts.

(** ** Rows outside the columns of the grid *)

Lemma records_of_day_cons_other (r : AttendanceRecord)
    (l : list AttendanceRecord) (date : Date) :
  format_date (waktu r) <> format_yyyy_MM_dd date ->
  records_of_day (r :: l) date = records_of_day l date.
Proof. intros H. unfold records_of_day. by rewrite filter_cons_False. Qed.

Lemma grid_fold_ext (ua ua' : list AttendanceRecord) (days : list Date)
    (acc : GridAcc) :
  (forall d, d ∈ days -> records_of_day ua d = records_of_day ua' d) ->
  fold_left (grid_day_step ua) days acc =
  fold_left (grid_day_step ua') days acc.
Proof.
  revert acc. induction days as [|d days IH]; intros acc H; [done|].
  cbn [fold_left]. rewrite IH by (intros d' Hd'; apply H; by right).
  f_equal. unfold grid_day_step. by rewrite H by left.
Qed.

(** A row stamped on a Saturday or a Sunday changes nothing in the grid:
    no cell, no total, no count; the report, which does not look at the
    day, counts the same row as a working day when it carries a shift. *)
Theorem grid_ignores_weekend_rows (currentMonth : Date)
    (attendanceData : list AttendanceRecord) (r : AttendanceRecord)
    (user : Profile) :
  valid_month currentMonth -> (0 <= year currentMonth < 10000)%Z ->
  valid_date (ts_date (waktu r)) ->
  (0 <= year (ts_date (waktu r)) < 10000)%Z ->
  isWeekend (ts_date (waktu r)) = true ->
  grid_user (r :: attendanceData) (workingDaysInMonth currentMonth) user =
  grid_user attendanceData (workingDaysInMonth currentMonth) user /\
  (forall l, has_complete_shift r = true ->
             hs_workingDays (summarize (user_id r) (r :: l)) =
             S (hs_workingDays (summarize (user_id r) l))).
Proof.
  intros Hm Hy Hv Hyr Hw. split.
  - unfold grid_user, grid_loop. unfold user_attendance at 1 2 3 4 5.
    destruct (decide (user_id r = id user)) as [Hu|Hu].
    2:{ by rewrite !filter_cons_False by done. }
    rewrite !filter_cons_True by done.
    fold (user_attendance attendanceData user).
    rewrite (grid_fold_ext (r :: user_attendance attendanceData user)
               (user_attendance attendanceData user)); [done|].
    intros d Hd. apply records_of_day_cons_other. intros Heq.
    unfold workingDaysInMonth in Hd.
    apply list_elem_of_In, filter_In in Hd as [Hd Hnw].
    apply list_elem_of_In, allDays_elem in Hd as (Hdy & Hdm & Hdd).
    pose proof (getDaysInMonth_range (year currentMonth)
                  (month currentMonth)) as Hr.
    pose proof (getDaysInMonth_range (year (ts_date (waktu r)))
                  (month (ts_date (waktu r)))) as Hr'.
    assert (ts_date (waktu r) = d) as E.
    { apply format_yyyy_MM_dd_inj; [| |exact Heq].
      - unfold date_text_ok, valid_date, valid_month in *. lia.
      - unfold date_text_ok, valid_month in *. lia. }
    rewrite E in Hw. by rewrite Hw in Hnw.
  - intros l Hs.
    destruct (summarize_fields (user_id r) (r :: l)) as (_ & -> & _).
    destruct (summarize_fields (user_id r) l) as (_ & -> & _).
    cbn [List.filter]. by rewrite Hs.
Qed.

Lemma grid_ignores_weekend_rows_witness :
  let saturday := mkDate 2024 7 6 in
  let row := mkRecord "u1" None (Sample.at_ saturday 9 0 0)
               (Some (Sample.at_ saturday 17 0 0)) (Some Sample.day_shift) in
  let ana := mkProfile "u1" "Ana" in
  grid_user [row; Sample.short_day] (workingDaysInMonth Sample.monday) ana =
  grid_user [Sample.short_day] (workingDaysInMonth Sample.monday) ana.
Proof.
  intros saturday row ana.
  apply (grid_ignores_weekend_rows Sample.monday [Sample.short_day] row ana).
  - unfold valid_month. cbn. lia.
  - cbn. lia.
  - unfold valid_date, valid_month. cbn. lia.
  - cbn. lia.
  - reflexivity.
Defined.

(** ** The order of the rows *)

Lemma Qsum_perm (l l' : list Q) : l ≡ₚ l' -> Qsum l == Qsum l'.
Proof.
  induction 1 as [|x l l' _ IH|x y l|l l' l'' _ IH1 _ IH2].
  - reflexivity.
  - change (x + Qsum l == x + Qsum l'). by rewrite IH.
  - change (y + (x + Qsum l) == x + (y + Qsum l)). lra.
  - by rewrite IH1.
Qed.

Lemma filter_length_perm {A : Type} (f : A -> bool) (l l' : list A) :
  l ≡ₚ l' -> length (List.filter f l) = length (List.filter f l').
Proof.
  induction 1 as [|x l l' _ IH|x y l|l l' l'' _ IH1 _ IH2];
    cbn [List.filter]; try done.
  - destruct (f x); cbn [length]; by rewrite IH.
  - by destruct (f x), (f y).
  - by rewrite IH1.
Qed.

Lemma day_hours_perm (l l' : list AttendanceRecord) :
  l ≡ₚ l' ->
  fst (day_hours l) == fst (day_hours l') /\
  snd (day_hours l) == snd (day_hours l').
Proof.
  intros H.
  destruct (day_hours_sums l) as [-> ->].
  destruct (day_hours_sums l') as [-> ->].
  split; apply Qsum_perm; by apply Permutation_map.
Qed.

(** For rows whose shifts start and end on whole minutes, the count and
    the four totals of a summary do not depend on the order in which
    the rows arrive: before rounding, the totals of the two orders are
    the same whole number of minutes, which never lies half-way between
    two hundredths.  (With seconds in the shift times a total can lie
    half-way, and the order of the rows then shows in the source:
    example [Binary64_order_of_terms].) *)
Theorem summarize_order_independent (userId : string)
    (l l' : list AttendanceRecord) :
  l ≡ₚ l' -> (forall r, r ∈ l -> on_whole_minutes r) ->
  let s := summarize userId l in
  let s' := summarize userId l' in
  let expected := fst (day_hours l) in
  let actual := snd (day_hours l) in
  (hs_workingDays s = hs_workingDays s' /\
   hs_totalExpectedHours s = hs_totalExpectedHours s' /\
   hs_totalActualHours s = hs_totalActualHours s' /\
   hs_missingHours s = hs_missingHours s' /\
   hs_overtimeHours s = hs_overtimeHours s') /\
  (expected == fst (day_hours l') /\ actual == snd (day_hours l')) /\
  (~ Spec.tie expected /\ ~ Spec.tie actual /\
   ~ Spec.tie (Qmax 0 (expected - actual)) /\
   ~ Spec.tie (Qmax 0 (actual - expected))).
Proof.
  intros Hp Hmin s s' expected actual. subst s s' expected actual.
  destruct (day_hours_perm l l' Hp) as [He Ha].
  pose proof (filter_length_perm has_complete_shift l l' Hp) as Hn.
  destruct (day_hours_minutes l Hmin) as [Me Ma].
  split; [|split; [done|]].
  - destruct (summarize_fields userId l) as (_ & -> & -> & -> & -> & -> & _).
    destruct (summarize_fields userId l')
      as (_ & -> & -> & -> & -> & -> & _).
    split; [done|].
    split; [by apply round2_proper|].
    split; [by apply round2_proper|].
    split; apply round2_proper; by rewrite He, Ha.
  - repeat split; apply whole_minutes_no_tie; try done;
      by apply whole_minutes_max0, whole_minutes_minus.
Qed.

Lemma summarize_order_independent_witness :
  hs_totalActualHours (summarize "u1" [Sample.short_day; Sample.long_day]) =
  hs_totalActualHours (summarize "u1" [Sample.long_day; Sample.short_day]).
Proof.
  refine (proj1 (proj2 (proj2 (proj1
            (summarize_order_independent "u1"
               [Sample.short_day; Sample.long_day]
               [Sample.long_day; Sample.short_day] _ _))))).
  - apply perm_swap.
  - intros r Hr.
    repeat (apply elem_of_cons in Hr as [->|Hr];
            [intros sh t [= <-] [[= <-]|[= <-]]; reflexivity|]).
    inversion Hr.
Defined.

(** ** The two views of a day *)

(** The grid and the calendar agree on a day: the same expected, actual
    and missing hours and the same attendance flag; a day that the
    calendar classifies overtime or complete carries the check mark in
    the grid, which has no overtime of its own, and a day classified
    no-attendance carries the dash. *)
Theorem grid_and_calendar_agree (rows : list AttendanceRecord)
    (date : Date) :
  let cell := grid_cell rows date in
  let d := calendar_day rows date in
  dh_expectedHours cell = dd_expectedHours d /\
  dh_actualHours cell = dd_actualHours d /\
  dh_missingHours cell = dd_missingHours d /\
  dh_hasAttendance cell = dd_hasAttendance d /\
  (dd_status d = overtime \/ dd_status d = complete ->
   getCellContent cell = "✓"%string) /\
  (dd_status d = no_attendance -> getCellContent cell = "-"%string).
Proof.
  intros cell d.
  destruct (calendar_day_fields rows date)
    as (He & Ha & Hm & _ & Hh & Hs & _).
  fold d in He, Ha, Hm, Hh, Hs.
  assert (Hfields :
    dh_expectedHours cell = dd_expectedHours d /\
    dh_actualHours cell = dd_actualHours d /\
    dh_missingHours cell = dd_missingHours d /\
    dh_hasAttendance cell = dd_hasAttendance d).
  { rewrite He, Ha, Hm, Hh. by unfold cell, grid_cell. }
  destruct Hfields as (E1 & E2 & E3 & E4).
  split; [done|]. split; [done|]. split; [done|]. split; [done|].
  unfold getCellContent. rewrite E3, E4, Hm.
  rewrite Hs. unfold classify.
  destruct (dd_hasAttendance d); cbn [negb].
  - set (e := fst (day_hours (records_of_day rows date))).
    set (a := snd (day_hours (records_of_day rows date))).
    destruct (Qlt_le_dec 0 (Qmax 0 (e - a))) as [Hpos|Hle].
    + split; [intros [?|?]; done|done].
    + assert (round2 (Qmax 0 (e - a)) <= 0) as H0.
      { apply round2_below_half. lra. }
      destruct (Qlt_le_dec 0 (round2 (Qmax 0 (e - a)))); [lra|].
      split; [done|]. by destruct (Qlt_le_dec 0 (Qmax 0 (a - e))).
  - split; [intros [?|?]; done|done].
Qed.

Lemma grid_and_calendar_agree_witness :
  getCellContent (grid_cell [Sample.long_day] Sample.monday) = "✓"%string.
Proof.
  apply (grid_and_calendar_agree [Sample.long_day] Sample.monday).
  left. by vm_compute.
Defined.
